(** * HIL: the Dell S3048-ON (Dell OS 9) switch driver and the resource registry

    A shallow embedding of [hil/ext/switches/dell-s3048.py] and of the
    registry operations exercised by [tests/unit/api.py].

    The driver is Python 2 code.  Its strings are modelled by [string]
    (sequences of 8-bit characters), its exceptions by an error monad, and
    the HTTP transport ([requests.request]) by a function on an abstract
    device state. *)

From Stdlib Require Import ZArith Ascii String.
From stdpp Require Import base option list gmap strings sorting.

Local Open Scope Z_scope.

(** ** Python string primitives *)

Module Py.

Definition newline : ascii := "010"%char.

(** [len(s)] *)
Definition len (s : string) : Z := Z.of_nat (String.length s).

(** [s.replace(old, new)] for a one-character [old]. *)
Fixpoint replace (old : ascii) (new : string) (s : string) : string :=
  match s with
  | EmptyString => EmptyString
  | String c s' =>
      if decide (c = old) then new +:+ replace old new s'
      else String c (replace old new s')
  end.

(** [c in s] for a character [c]. *)
Fixpoint contains (c : ascii) (s : string) : bool :=
  match s with
  | EmptyString => false
  | String c' s' => bool_decide (c' = c) || contains c s'
  end.

(** [s.find(sub, start)] for [0 <= start]: the lowest index at or after
    [start] where [sub] occurs, [-1] when there is none. *)
Definition find (sub : string) (start : Z) (s : string) : Z :=
  match String.index (Z.to_nat start) sub s with
  | Some i => Z.of_nat i
  | None => -1
  end.

(** Normalisation of one slice bound: a negative bound counts from the
    end, and the result is clipped to [0 .. len]. *)
Definition clip (n : Z) (i : Z) : Z :=
  let i' := if i <? 0 then i + n else i in
  Z.max 0 (Z.min n i').

(** [s[b:e]] *)
Definition slice (b e : Z) (s : string) : string :=
  let n := len s in
  let b' := clip n b in
  let e' := clip n e in
  String.substring (Z.to_nat b') (Z.to_nat (e' - b')) s.

(** The line boundaries of [unicode.splitlines] that fit in 8 bits. *)
Definition is_linebreak (c : ascii) : bool :=
  match c with
  | "010" | "011" | "012" | "013" | "028" | "029" | "030" | "133" => true
  | _ => false
  end%char.

(** [s.splitlines()].  [cur] is the line being read, reversed;
    [after_cr] says that the previous character was a carriage return,
    so that a line feed that follows belongs to the same boundary. *)
Fixpoint splitlines_go (after_cr : bool) (cur : string) (s : string)
  : list string :=
  match s with
  | EmptyString =>
      match cur with EmptyString => [] | _ => [String.rev cur] end
  | String c s' =>
      if after_cr && bool_decide (c = newline) then
        splitlines_go false cur s'
      else if is_linebreak c then
        String.rev cur ::
          splitlines_go (bool_decide (c = "013"%char)) EmptyString s'
      else splitlines_go false (String c cur) s'
  end.

Definition splitlines (s : string) : list string :=
  splitlines_go false EmptyString s.

(** [s.split(sep)] for a one-character [sep]; [cur] is reversed. *)
Fixpoint split_go (sep : ascii) (cur : string) (s : string) : list string :=
  match s with
  | EmptyString => [String.rev cur]
  | String c s' =>
      if decide (c = sep) then String.rev cur :: split_go sep EmptyString s'
      else split_go sep (String c cur) s'
  end.

Definition split (sep : ascii) (s : string) : list string :=
  split_go sep EmptyString s.

(** [l.index(x)]: the position of the first [x], if any. *)
Fixpoint list_index (x : string) (l : list string) : option nat :=
  match l with
  | [] => None
  | y :: l' => if decide (y = x) then Some O else S <$> list_index x l'
  end.

End Py.

(** ** The fragment of Python's [re] the driver uses *)

Module Re.

(** Patterns.  [Digits] is [\d+]; without the [re.UNICODE] flag Python 2
    reads [\d] as [[0-9]].  [Group i r] is a parenthesised [r] whose
    text is reported as [groups()[i]]. *)
Inductive regex : Type :=
| Bol
| Eol
| Chr (c : ascii)
| Digits
| Seq (r1 r2 : regex)
| Opt (r : regex)
| Group (i : nat) (r : regex).

Definition is_digit (c : ascii) : bool :=
  match c with
  | "0" | "1" | "2" | "3" | "4" | "5" | "6" | "7" | "8" | "9" => true
  | _ => false
  end%char.

Fixpoint all_digits (s : string) : bool :=
  match s with
  | EmptyString => true
  | String c s' => is_digit c && all_digits s'
  end.

Fixpoint ngroups (r : regex) : nat :=
  match r with
  | Seq r1 r2 => ngroups r1 `max` ngroups r2
  | Opt r => ngroups r
  | Group i r => S i `max` ngroups r
  | _ => O
  end.

Definition captures := list (option string).

(** What is left of the subject after one or more digits were taken,
    the longest run first (the quantifier is greedy). *)
Fixpoint digits_rests (s : string) : list string :=
  match s with
  | EmptyString => []
  | String c s' => if is_digit c then digits_rests s' ++ [s'] else []
  end.

(** The text consumed between the subject [s] and its suffix [rest]. *)
Definition consumed (s rest : string) : string :=
  String.substring 0 (String.length s - String.length rest) s.

(** The backtracking matcher: every way to match [r] at offset [pos],
    where [s] is the rest of the subject, in the order the engine tries
    them.  Each result is the remaining subject and the groups. *)
Fixpoint run (r : regex) (pos : nat) (s : string) (caps : captures)
  : list (string * captures) :=
  match r with
  | Bol => match pos with O => [(s, caps)] | S _ => [] end
  | Eol =>
      if bool_decide (s = EmptyString
                      ∨ s = String Py.newline EmptyString)
      then [(s, caps)] else []
  | Chr c =>
      match s with
      | String c' s' => if decide (c' = c) then [(s', caps)] else []
      | EmptyString => []
      end
  | Digits => (λ s', (s', caps)) <$> digits_rests s
  | Seq r1 r2 =>
      '(s1, caps1) ← run r1 pos s caps;
      run r2 (pos + (String.length s - String.length s1)) s1 caps1
  | Opt r => run r pos s caps ++ [(s, caps)]
  | Group i r =>
      (λ '(s', caps'), (s', <[i := Some (consumed s s')]> caps'))
        <$> run r pos s caps
  end.

(** [re.match(r, s)]: the groups of the first match at the start of
    [s], or [None]. *)
Definition re_match (r : regex) (s : string) : option captures :=
  snd <$> head (run r 0 s (replicate (ngroups r) None)).

(** The language of a pattern: [lang r pos w rest] says that [r] can
    match the text [w] at offset [pos] when [rest] follows it. *)
Inductive lang : regex → nat → string → string → Prop :=
| lang_bol rest : lang Bol 0 EmptyString rest
| lang_eol_end pos : lang Eol pos EmptyString EmptyString
| lang_eol_nl pos :
    lang Eol pos EmptyString (String Py.newline EmptyString)
| lang_chr c pos rest : lang (Chr c) pos (String c EmptyString) rest
| lang_digits pos w rest :
    w ≠ EmptyString → all_digits w = true → lang Digits pos w rest
| lang_seq r1 r2 pos w1 w2 rest :
    lang r1 pos w1 (w2 +:+ rest) →
    lang r2 (pos + String.length w1) w2 rest →
    lang (Seq r1 r2) pos (w1 +:+ w2) rest
| lang_opt_some r pos w rest : lang r pos w rest → lang (Opt r) pos w rest
| lang_opt_none r pos rest : lang (Opt r) pos EmptyString rest
| lang_group i r pos w rest : lang r pos w rest → lang (Group i r) pos w rest.

(** A non-empty run of digits. *)
Definition digits1 (w : string) : Prop := w ≠ EmptyString ∧ all_digits w = true.

(** [s] is accepted by [re.match]: some prefix of it is in the language. *)
Definition accepts (r : regex) (s : string) : Prop :=
  ∃ w rest, s = w +:+ rest ∧ lang r 0 w rest.

End Re.

(** ** Exceptions and results *)

Inductive exn : Type :=
| BadArgumentError (msg : string)
| AssertionError (msg : string)
| ValueError
| KeyError (key : string)
| IndexError
| TypeError
| NotFoundError
| DuplicateError
| AllocationError
| BlockedError.

Inductive result (A : Type) : Type :=
| Return (a : A)
| Raise (e : exn).
Arguments Return {A} a.
Arguments Raise {A} e.

Global Instance exn_eq_dec : EqDecision exn.
Proof. solve_decision. Defined.

Global Instance result_eq_dec `{EqDecision A} : EqDecision (result A).
Proof. solve_decision. Defined.

Global Instance result_ret : MRet result := λ A a, Return a.
Global Instance result_bind : MBind result := λ A B f m,
  match m with
  | Return a => f a
  | Raise e => Raise e
  end.

(** ** The HTTP transport *)

Record request : Type := Request {
  rq_method : string;
  rq_url : string;
  rq_data : option string;
  rq_auth : string * string
}.

Record response : Type := Response {
  status_code : Z;
  text : string
}.

(** ** The driver *)

(** The two characters of [\r\n]. *)
Definition CRLF : string :=
  String "013"%char (String "010"%char EmptyString).

Definition CONFIG : string := "config-commands".
Definition SHOW : string := "show-command".

(** Modelled from the spec: the classes [Port] and [Switch] of [hil.model]
    are not among the sources.  A Port has a switch-scoped label;
    [port_id] stands for the identity of the Port object, which is what a
    dictionary keyed by Ports compares.  A Switch has its Ports, which the
    driver reads as [self.ports]. *)
Record Port : Type := MkPort {
  port_id : N;
  port_label : string
}.

Global Instance Port_eq_dec : EqDecision Port.
Proof. solve_decision. Defined.

Global Instance Port_countable : Countable Port :=
  inj_countable' (λ p, (port_id p, port_label p))
                 (λ '(i, l), MkPort i l)
                 (λ p, match p with MkPort _ _ => eq_refl end).

Record DellNOS9 : Type := MkDellNOS9 {
  hostname : string;
  username : string;
  password : string;
  interface_type : string;
  ports : list Port
}.

(** What the driver can observe and change: the device behind the
    transport, the requests sent so far, what was printed and what was
    logged at error level. *)
Record Env (World : Type) : Type := MkEnv {
  world : World;
  sent : list request;
  stdout : list string;
  errlog : list string
}.
Arguments MkEnv {World}.
Arguments world {World}.
Arguments sent {World}.
Arguments stdout {World}.
Arguments errlog {World}.

(** Stateful code that may raise: it runs in a state, and either returns
    or raises; what it did before raising stays done. *)
Definition Prog (S A : Type) : Type := S → result A * S.

Global Instance Prog_ret {S} : MRet (Prog S) := λ A a st, (Return a, st).
Global Instance Prog_bind {S} : MBind (Prog S) := λ A B f m st,
  match m st with
  | (Return a, st') => f a st'
  | (Raise e, st') => (Raise e, st')
  end.

Definition lift {S A} (r : result A) : Prog S A := λ st, (r, st).
Definition raise {S A} (e : exn) : Prog S A := lift (Raise e).
Definition get {S} : Prog S S := λ st, (Return st, st).
Definition modify {S} (f : S → S) : Prog S unit := λ st, (Return (), f st).

Definition port_pattern : Re.regex :=
  Re.Seq Re.Bol
    (Re.Seq Re.Digits
       (Re.Seq (Re.Chr "/")
          (Re.Seq Re.Digits
             (Re.Seq (Re.Opt (Re.Group 0 (Re.Seq (Re.Chr "/") Re.Digits)))
                Re.Eol)))).

Definition channel_pattern : Re.regex :=
  Re.Seq (Re.Chr "v")
    (Re.Seq (Re.Chr "l")
       (Re.Seq (Re.Chr "a")
          (Re.Seq (Re.Chr "n")
             (Re.Seq (Re.Chr "/") (Re.Group 0 Re.Digits))))).

Definition validate_port_name (port : string) : result unit :=
  let val := port_pattern in
  if Re.re_match val port is Some _ then Return ()
  else Raise (BadArgumentError
         ("Invalid port name. Valid port names for " +:+
          "this switch are of the from 1/0/1 or 1/2")).

(** The port names the pattern describes, spelled out: two or three runs
    of digits separated by slashes.  Python's [$] also matches just
    before a line feed that ends the subject, hence [tail]. *)
Definition port_name_form (s : string) : Prop :=
  ∃ a b tail,
    Re.digits1 a ∧ Re.digits1 b ∧
    (tail = "" ∨ tail = String Py.newline "") ∧
    (s = a +:+ "/" +:+ b +:+ tail
     ∨ ∃ c, Re.digits1 c ∧ s = a +:+ "/" +:+ b +:+ "/" +:+ c +:+ tail).

Definition iftypes : gmap string string :=
  list_to_map
    [("GigabitEthernet", "gige-"); ("TenGigabitEthernet", "tengig-");
     ("TwentyfiveGigabitEthernet", "twentyfivegig-");
     ("fortyGigE", "fortygig-"); ("peGigabitEthernet", "pegig-");
     ("FiftyGigabitEthernet", "fiftygig-");
     ("HundredGigabitEthernet", "hundredgig-")].

Definition _convert_interface (interface_type : string) : result string :=
  match iftypes !! interface_type with
  | Some v => Return v
  | None => Raise (KeyError interface_type)
  end.

Definition _construct_url (self : DellNOS9) (interface : option string)
    (suffix : string) : result string :=
  match interface with
  | None => Return (hostname self +:+ "/api/running/dell/_operations/cli")
  | Some interface =>
      let val := port_pattern in
      '(interface, interface_type) ←
        (if Re.re_match val interface is Some _ then
           let interface := Py.replace "/" "-" interface in
           interface_type ← _convert_interface (interface_type self);
           mret (interface, interface_type)
         else mret (interface, "vlan-"));
      mret (hostname self +:+ "/api/running/dell/interfaces/interface/" +:+
            interface_type +:+ interface +:+
            (if decide (suffix = "") then "" else "/" +:+ suffix))
  end.

Definition _auth (self : DellNOS9) : string * string :=
  (username self, password self).

Definition _make_payload (command command_type : string) : string :=
  "<input><" +:+ command +:+ ">" +:+ command_type +:+
  "</" +:+ command +:+ "></input>".

Definition _construct_tag (name : string) : string :=
  "{http://www.dell.com/ns/dell:0.1/root}" +:+ name.

(** [filter(None, l)] on a list of tuples-or-[None]: a pair is truthy,
    [None] is not. *)
Definition filter_None {A} (l : list (option A)) : list A := omap id l.

Section Driver.
Context {World : Type}.

(** [requests.request(method, url, data=data, auth=auth)]: the device
    answers and may change.  A transport that gives no answer at all
    (an exception of [requests] itself) is outside this model. *)
Variable requests_request : request → World → response * World.

Abbreviation Drv := (Prog (Env World)).

Definition http (rq : request) : Drv response := λ env,
  let '(r, w) := requests_request rq (world env) in
  (Return r, MkEnv w (sent env ++ [rq]) (stdout env) (errlog env)).

Definition print (s : string) : Drv unit := λ env,
  (Return (), MkEnv (world env) (sent env) (stdout env ++ [s]) (errlog env)).

Definition logger_error (s : string) : Drv unit := λ env,
  (Return (), MkEnv (world env) (sent env) (stdout env) (errlog env ++ [s])).

Definition _make_request (self : DellNOS9) (method url : string)
    (data : option string) (acceptable_error_codes : list Z)
  : Drv response :=
  r ← http (Request method url data (_auth self));
  (if bool_decide (status_code r >= 400)
      && negb (bool_decide (status_code r ∈ acceptable_error_codes))
   then
     print (text r);;
     logger_error ("Bad Request to switch. Response: " +:+ text r)
   else mret ());;
  mret r.

Definition _get_vlans (self : DellNOS9) (interface : string)
  : Drv (list (string * string)) :=
  url ← lift (_construct_url self None "");
  let command :=
    "interfaces switchport " +:+ interface_type self +:+ " " +:+ interface in
  let payload := _make_payload SHOW command in
  response ← _make_request self "POST" url (Some payload) [];
  let response := Py.splitlines (Py.replace " " "" (text response)) in
  index ← (if Py.list_index "Vlanmembership:" response is Some i
           then mret (i + 3)%nat else raise ValueError);
  line ← (if response !! index is Some l then mret l else raise IndexError);
  let vlan_list := Py.split "," (Py.replace "T" "" line) in
  mret ((λ x, ("vlan/" +:+ x, x)) <$> vlan_list).

Definition _get_native_vlan (self : DellNOS9) (interface : string)
  : Drv (option (string * string)) :=
  url ← lift (_construct_url self None "");
  let command :=
    "interfaces switchport " +:+ interface_type self +:+ " " +:+ interface in
  let payload := _make_payload SHOW command in
  response ← _make_request self "POST" url (Some payload) [];
  let response := Py.replace " " "" (text response) in
  let begin := Py.find "NativeVlanId:" 0 response + Py.len "NativeVlanId:" in
  let end_ := Py.find "." begin response in
  let vlan := Py.slice begin end_ response in
  mret (Some ("vlan/native", vlan)).

Definition _add_vlan_to_trunk (self : DellNOS9) (interface vlan : string)
  : Drv unit :=
  url ← lift (_construct_url self None "");
  let command :=
    "interface vlan " +:+ vlan +:+ CRLF +:+ " tagged " +:+
    interface_type self +:+ " " +:+ interface in
  let payload := _make_payload CONFIG command in
  _make_request self "POST" url (Some payload) [];;
  mret ().

Definition _remove_vlan_from_trunk (self : DellNOS9)
    (interface vlan : string) : Drv unit :=
  url ← lift (_construct_url self None "");
  let command :=
    "interface vlan " +:+ vlan +:+ CRLF +:+ " no tagged " +:+
    interface_type self +:+ " " +:+ interface in
  let payload := _make_payload CONFIG command in
  _make_request self "POST" url (Some payload) [];;
  mret ().

Definition _set_native_vlan (self : DellNOS9) (interface vlan : string)
  : Drv unit :=
  url ← lift (_construct_url self None "");
  let command :=
    "interface vlan " +:+ vlan +:+ CRLF +:+ " untagged " +:+
    interface_type self +:+ " " +:+ interface in
  let payload := _make_payload CONFIG command in
  _make_request self "POST" url (Some payload) [];;
  mret ().

Definition _remove_native_vlan (self : DellNOS9) (interface : string)
  : Drv unit :=
  native ← _get_native_vlan self interface;
  vlan ← (if native is Some (_, vlan) then mret vlan
          else raise (A := string) TypeError);
  url ← lift (_construct_url self None "");
  let command :=
    "interface vlan " +:+ vlan +:+ CRLF +:+ " no untagged " +:+
    interface_type self +:+ " " +:+ interface in
  let payload := _make_payload CONFIG command in
  _make_request self "POST" url (Some payload) [];;
  mret ().

Definition _port_shutdown (self : DellNOS9) (interface : string)
  : Drv unit :=
  url ← lift (_construct_url self (Some interface) "");
  prefix ← lift (_convert_interface (interface_type self));
  let interface := prefix +:+ Py.replace "/" "-" interface in
  let payload :=
    "<interface><name>" +:+ interface +:+
    "</name><portmode><hybrid>false" +:+
    "</hybrid></portmode><shutdown>true</shutdown>" +:+
    "</interface>" in
  _make_request self "PUT" url (Some payload) [];;
  mret ().

Definition _port_on (self : DellNOS9) (interface : string) : Drv unit :=
  url ← lift (_construct_url self (Some interface) "");
  prefix ← lift (_convert_interface (interface_type self));
  let interface := prefix +:+ Py.replace "/" "-" interface in
  let payload :=
    "<interface><name>" +:+ interface +:+
    "</name><portmode><hybrid>true" +:+
    "</hybrid></portmode><switchport></switchport>" +:+
    "<shutdown>false</shutdown></interface>" in
  _make_request self "PUT" url (Some payload) [];;
  mret ().

(** The [assert] statements are taken to be enabled. *)
Definition modify_port (self : DellNOS9) (port channel : string)
    (network_id : option string) : Drv unit :=
  port ← (if filter (λ p, port_label p = port) (ports self) is [p]
          then mret p else raise ValueError);
  let interface := port_label port in
  if decide (channel = "vlan/native") then
    match network_id with
    | None => _remove_native_vlan self interface
    | Some network_id => _set_native_vlan self interface network_id
    end
  else
    groups ← (if Re.re_match channel_pattern channel is Some g then mret g
              else raise (AssertionError
                     ("HIL passed an invalid channel to the" +:+
                      " switch!")));
    vlan_id ← (if groups !! 0%nat is Some (Some v) then mret v
               else raise (A := string) IndexError);
    match network_id with
    | None => _remove_vlan_from_trunk self interface vlan_id
    | Some network_id =>
        (if decide (network_id = vlan_id) then mret ()
         else raise (AssertionError ""));;
        _add_vlan_to_trunk self interface vlan_id
    end.

Definition revert_port (self : DellNOS9) (port : string) : Drv unit :=
  _port_shutdown self port;;
  _port_on self port.

(** The loop of [get_port_networks]: [response] is the dictionary built
    so far. *)
Fixpoint get_port_networks_loop (self : DellNOS9) (ports : list Port)
    (response : gmap Port (list (string * string)))
  : Drv (gmap Port (list (string * string))) :=
  match ports with
  | [] => mret response
  | port :: ports' =>
      native ← _get_native_vlan self (port_label port);
      vlans ← _get_vlans self (port_label port);
      get_port_networks_loop self ports'
        (<[port := filter_None [native] ++ vlans]> response)
  end.

Definition get_port_networks (self : DellNOS9) (ports : list Port)
  : Drv (gmap Port (list (string * string))) :=
  get_port_networks_loop self ports ∅.

End Driver.

(** ** The device seen through the requests *)

(** The text of the first [<tag>...</tag>] element of a resource body. *)
Definition xml_text (tag body : string) : option string :=
  let opening := "<" +:+ tag +:+ ">" in
  let closing := "</" +:+ tag +:+ ">" in
  i ← String.index 0 opening body;
  let b := (i + String.length opening)%nat in
  e ← String.index b closing body;
  Some (String.substring b (e - b) body).

(** The administrative state the requests leave a port in: the
    [shutdown] field of the last interface resource that was PUT to the
    port's URL.  [_is_port_on] reads the same field back and calls the
    port on when it is ["false"]. *)
Definition last_shutdown (url : string) (trace : list request)
  : option string :=
  last (omap (λ rq,
          if decide (rq_method rq = "PUT" ∧ rq_url rq = url)
          then rq_data rq ≫= xml_text "shutdown" else None) trace).

Definition left_disabled (url : string) (trace : list request) : Prop :=
  last_shutdown url trace = Some "true".

(** The requests that change VLAN membership: configuration commands
    posted to the CLI endpoint. *)
Definition is_vlan_command (self : DellNOS9) (rq : request) : Prop :=
  rq_method rq = "POST"
  ∧ rq_url rq = hostname self +:+ "/api/running/dell/_operations/cli".

(** The answer to [show interfaces switchport] is usable by [_get_vlans]
    when, spaces removed, it has a line [Vlanmembership:] and a third
    line after it. *)
Definition vlans_listed (answer : string) : Prop :=
  let lines := Py.splitlines (Py.replace " " "" answer) in
  ∃ i, Py.list_index "Vlanmembership:" lines = Some i
       ∧ is_Some (lines !! (i + 3)%nat).

(** The text a list of identifiers is listed as: [",".join(ids)]. *)
Fixpoint comma_join (ids : list string) : string :=
  match ids with
  | [] => ""
  | x :: ids' =>
      match ids' with
      | [] => x
      | _ => x +:+ "," +:+ comma_join ids'
      end
  end.

(** The requests the driver of [self] is entitled to send: with the
    switch's credentials, to an address under the switch's host name. *)
Definition own_request (self : DellNOS9) (rq : request) : Prop :=
  rq_auth rq = (username self, password self)
  ∧ ∃ path, rq_url rq = hostname self +:+ path.

(** A [show] command posted to the CLI endpoint; it only reads. *)
Definition is_show_command (self : DellNOS9) (rq : request) : Prop :=
  ∃ command,
    rq = Request "POST"
           (hostname self +:+ "/api/running/dell/_operations/cli")
           (Some ("<input><show-command>" +:+ command +:+
                  "</show-command></input>"))
           (username self, password self).

(** [m] only adds requests to the trace, and every request it adds
    satisfies [P], whether [m] returns or raises. *)
Definition sends_only {World A : Type} (P : request → Prop)
    (m : Prog (Env World) A) : Prop :=
  ∀ env, ∃ rqs, sent (m env).2 = sent env ++ rqs ∧ Forall P rqs.

(** ** A switch to try the driver on *)

Module Lab.

(** A device that answers every request with the same status and text
    and counts the requests. *)
Definition device (status : Z) (answer : string)
  : request → nat → response * nat :=
  λ _ n, (Response status answer, S n).

Definition switchport_text : string :=
"Name: GigabitEthernet 1/3
802.1QTagged: Hybrid
Vlan membership:
Q       Vlans
U       1
T       2,3

Native VlanId:    1.".

Definition switch : DellNOS9 :=
  MkDellNOS9 "http://switch" "admin" "secret" "GigabitEthernet"
    [MkPort 1 "1/3"; MkPort 2 "1/0/1"].

Definition env0 : Env nat := MkEnv O [] [] [].

End Lab.

(** ** The resource registry *)

(** Modelled from the spec: the registry ([haas/api.py] and [haas/model.py])
    is exercised by [tests/unit/api.py] but is not among the sources.
    Entities are records in tables keyed by label (Ports by switch and
    label, Nics by node and label, Hnics by headnode and label);
    relationships are identifier fields.  The Nic-Network and Nic-Port
    relationships, the user-group membership and the project-headnode
    relationship are stored on both sides and changed by dual updates.
    Every operation checks all its preconditions before it changes
    anything.  The specification makes Nic and Hnic labels unique across
    all nodes and headnodes, while the unit tests register one label
    under two nodes ([test_node_register_nic_diff_nodes]); the model
    takes the scope as the parameter [global_labels].  Deletion follows
    one rule where the specification leaves the choice open: an entity
    that others still refer to is not deleted ([BlockedError]), except
    that Nics do not block the deletion of their Node.  The network
    identifier comes from an allocator outside the registry and is passed
    to [network_create].  The push of a change to the switch is not part
    of this model. *)
Module Registry.

Record User : Type := MkUser {
  user_secret : string;
  user_groups : gset string
}.

Record Group : Type := MkGroup {
  group_users : gset string
}.

Record Project : Type := MkProject {
  project_group : string;
  project_headnode : option string
}.

Record Node : Type := MkNode {
  node_project : option string
}.

(** A Nic is named by its node and its label, a Port by its switch and
    its label. *)
Record Nic : Type := MkNic {
  nic_mac : string;
  nic_network : option string;
  nic_port : option (string * string)
}.

Record Network : Type := MkNetwork {
  network_project : string;
  network_id : string;
  network_nics : gset (string * string);
  network_hnics : gset (string * string)
}.

Record Switch : Type := MkSwitch {
  switch_driver : string
}.

Record SwitchPort : Type := MkSwitchPort {
  port_nic : option (string * string)
}.

Record Headnode : Type := MkHeadnode {
  headnode_project : string
}.

Record Hnic : Type := MkHnic {
  hnic_mac : string;
  hnic_network : option string
}.

Record Registry : Type := MkRegistry {
  users : gmap string User;
  groups : gmap string Group;
  projects : gmap string Project;
  nodes : gmap string Node;
  nics : gmap (string * string) Nic;
  networks : gmap string Network;
  switches : gmap string Switch;
  ports : gmap (string * string) SwitchPort;
  headnodes : gmap string Headnode;
  hnics : gmap (string * string) Hnic
}.

Definition empty : Registry := MkRegistry ∅ ∅ ∅ ∅ ∅ ∅ ∅ ∅ ∅ ∅.

Abbreviation Reg := (Prog Registry).

(** Table updates. *)
Definition with_users (f : gmap string User → gmap string User)
    (r : Registry) : Registry :=
  MkRegistry (f (users r)) (groups r) (projects r) (nodes r) (nics r)
    (networks r) (switches r) (ports r) (headnodes r) (hnics r).
Definition with_groups (f : gmap string Group → gmap string Group)
    (r : Registry) : Registry :=
  MkRegistry (users r) (f (groups r)) (projects r) (nodes r) (nics r)
    (networks r) (switches r) (ports r) (headnodes r) (hnics r).
Definition with_projects (f : gmap string Project → gmap string Project)
    (r : Registry) : Registry :=
  MkRegistry (users r) (groups r) (f (projects r)) (nodes r) (nics r)
    (networks r) (switches r) (ports r) (headnodes r) (hnics r).
Definition with_nodes (f : gmap string Node → gmap string Node)
    (r : Registry) : Registry :=
  MkRegistry (users r) (groups r) (projects r) (f (nodes r)) (nics r)
    (networks r) (switches r) (ports r) (headnodes r) (hnics r).
Definition with_nics
    (f : gmap (string * string) Nic → gmap (string * string) Nic)
    (r : Registry) : Registry :=
  MkRegistry (users r) (groups r) (projects r) (nodes r) (f (nics r))
    (networks r) (switches r) (ports r) (headnodes r) (hnics r).
Definition with_networks (f : gmap string Network → gmap string Network)
    (r : Registry) : Registry :=
  MkRegistry (users r) (groups r) (projects r) (nodes r) (nics r)
    (f (networks r)) (switches r) (ports r) (headnodes r) (hnics r).
Definition with_switches (f : gmap string Switch → gmap string Switch)
    (r : Registry) : Registry :=
  MkRegistry (users r) (groups r) (projects r) (nodes r) (nics r)
    (networks r) (f (switches r)) (ports r) (headnodes r) (hnics r).
Definition with_ports
    (f : gmap (string * string) SwitchPort → gmap (string * string) SwitchPort)
    (r : Registry) : Registry :=
  MkRegistry (users r) (groups r) (projects r) (nodes r) (nics r)
    (networks r) (switches r) (f (ports r)) (headnodes r) (hnics r).
Definition with_headnodes (f : gmap string Headnode → gmap string Headnode)
    (r : Registry) : Registry :=
  MkRegistry (users r) (groups r) (projects r) (nodes r) (nics r)
    (networks r) (switches r) (ports r) (f (headnodes r)) (hnics r).
Definition with_hnics
    (f : gmap (string * string) Hnic → gmap (string * string) Hnic)
    (r : Registry) : Registry :=
  MkRegistry (users r) (groups r) (projects r) (nodes r) (nics r)
    (networks r) (switches r) (ports r) (headnodes r) (f (hnics r)).

(** [_must_find(db, cls, name)] and [_assert_absent(db, cls, name)]. *)
Definition _must_find `{Countable K} {V} (cls : Registry → gmap K V)
    (name : K) : Reg V :=
  r ← get;
  if cls r !! name is Some v then mret v else raise NotFoundError.

Definition _assert_absent `{Countable K} {V} (cls : Registry → gmap K V)
    (name : K) : Reg unit :=
  r ← get;
  if cls r !! name is Some _ then raise DuplicateError else mret ().

(** Guards: raise [e] unless the condition holds. *)
Definition require (e : exn) (b : bool) : Reg unit :=
  if b then mret () else raise e.

(** Is some value of the table in the given relation to something? *)
Definition any `{Countable K} {V} (P : V → bool) (m : gmap K V) : bool :=
  bool_decide (map_Exists (λ _ v, P v = true) m).

(** Is the label of a Nic or Hnic taken: by any owner when labels are
    global, by this owner otherwise. *)
Definition label_taken {V} (global_labels : bool) (owner label : string)
    (m : gmap (string * string) V) : bool :=
  if global_labels then bool_decide (map_Exists (λ k _, k.2 = label) m)
  else bool_decide (is_Some (m !! (owner, label))).

(** *** Users and groups *)

Definition user_create (label secret : string) : Reg unit :=
  _assert_absent users label;;
  modify (with_users <[label := MkUser secret ∅]>).

Definition user_delete (label : string) : Reg unit :=
  u ← _must_find users label;
  require BlockedError (bool_decide (user_groups u = ∅));;
  modify (with_users (delete label)).

Definition group_create (label : string) : Reg unit :=
  _assert_absent groups label;;
  modify (with_groups <[label := MkGroup ∅]>).

Definition group_delete (label : string) : Reg unit :=
  g ← _must_find groups label;
  r ← get;
  require BlockedError
    (bool_decide (group_users g = ∅)
     && negb (any (λ p, bool_decide (project_group p = label)) (projects r)));;
  modify (with_groups (delete label)).

Definition group_add_user (group user : string) : Reg unit :=
  g ← _must_find groups group;
  u ← _must_find users user;
  require DuplicateError
    (negb (bool_decide (user ∈ group_users g))
     && negb (bool_decide (group ∈ user_groups u)));;
  modify (with_groups <[group := MkGroup ({[user]} ∪ group_users g)]>);;
  modify (with_users
            <[user := MkUser (user_secret u) ({[group]} ∪ user_groups u)]>).

Definition group_remove_user (group user : string) : Reg unit :=
  g ← _must_find groups group;
  u ← _must_find users user;
  require NotFoundError (bool_decide (user ∈ group_users g));;
  modify (with_groups <[group := MkGroup (group_users g ∖ {[user]})]>);;
  modify (with_users
            <[user := MkUser (user_secret u) (user_groups u ∖ {[group]})]>).

(** *** Projects and nodes *)

Definition project_create (label group : string) : Reg unit :=
  _assert_absent projects label;;
  _must_find groups group;;
  modify (with_projects <[label := MkProject group None]>).

Definition project_delete (label : string) : Reg unit :=
  p ← _must_find projects label;
  r ← get;
  require BlockedError
    (negb (any (λ n, bool_decide (node_project n = Some label)) (nodes r))
     && negb (any (λ n, bool_decide (network_project n = label)) (networks r))
     && bool_decide (project_headnode p = None));;
  modify (with_projects (delete label)).

Definition node_register (label : string) : Reg unit :=
  _assert_absent nodes label;;
  modify (with_nodes <[label := MkNode None]>).

Definition node_delete (label : string) : Reg unit :=
  _must_find nodes label;;
  modify (with_nodes (delete label)).

Definition project_connect_node (project node : string) : Reg unit :=
  _must_find projects project;;
  n ← _must_find nodes node;
  require DuplicateError (bool_decide (node_project n = None));;
  modify (with_nodes <[node := MkNode (Some project)]>).

Definition project_detach_node (project node : string) : Reg unit :=
  _must_find projects project;;
  n ← _must_find nodes node;
  require NotFoundError (bool_decide (node_project n = Some project));;
  modify (with_nodes <[node := MkNode None]>).

(** *** Nics *)

Definition node_register_nic (global_labels : bool)
    (node nic macaddr : string) : Reg unit :=
  _must_find nodes node;;
  r ← get;
  require DuplicateError (negb (label_taken global_labels node nic (nics r)));;
  modify (with_nics <[(node, nic) := MkNic macaddr None None]>).

(** The Nic called [nic] that belongs to [node]. *)
Definition _must_find_nic (node nic : string) : Reg Nic :=
  _must_find nodes node;;
  _must_find nics (node, nic).

Definition node_delete_nic (node nic : string) : Reg unit :=
  n ← _must_find_nic node nic;
  require BlockedError
    (bool_decide (nic_network n = None) && bool_decide (nic_port n = None));;
  modify (with_nics (delete (node, nic))).

(** *** Networks *)

Definition network_create (label project : string)
    (allocated : option string) : Reg unit :=
  _assert_absent networks label;;
  _must_find projects project;;
  net_id ← (if allocated is Some i then mret i else raise AllocationError);
  modify (with_networks <[label := MkNetwork project net_id ∅ ∅]>).

Definition network_delete (label : string) : Reg unit :=
  n ← _must_find networks label;
  require BlockedError
    (bool_decide (network_nics n = ∅) && bool_decide (network_hnics n = ∅));;
  modify (with_networks (delete label)).

(** *** Switches and ports *)

Definition switch_register (label driver : string) : Reg unit :=
  _assert_absent switches label;;
  modify (with_switches <[label := MkSwitch driver]>).

Definition switch_delete (label : string) : Reg unit :=
  _must_find switches label;;
  r ← get;
  require BlockedError
    (bool_decide (map_Forall (λ k _, k.1 ≠ label) (ports r)));;
  modify (with_switches (delete label)).

Definition port_register (switch port : string) : Reg unit :=
  _must_find switches switch;;
  _assert_absent ports (switch, port);;
  modify (with_ports <[(switch, port) := MkSwitchPort None]>).

Definition port_delete (switch port : string) : Reg unit :=
  _must_find switches switch;;
  p ← _must_find ports (switch, port);
  require BlockedError (bool_decide (port_nic p = None));;
  modify (with_ports (delete (switch, port))).

Definition port_connect_nic (switch port node nic : string) : Reg unit :=
  _must_find switches switch;;
  p ← _must_find ports (switch, port);
  n ← _must_find_nic node nic;
  require DuplicateError
    (bool_decide (port_nic p = None) && bool_decide (nic_port n = None));;
  modify (with_ports <[(switch, port) := MkSwitchPort (Some (node, nic))]>);;
  modify (with_nics
            <[(node, nic) := MkNic (nic_mac n) (nic_network n)
                               (Some (switch, port))]>).

Definition port_detach_nic (switch port : string) : Reg unit :=
  _must_find switches switch;;
  p ← _must_find ports (switch, port);
  nic ← (if port_nic p is Some nic then mret nic else raise NotFoundError);
  n ← _must_find nics nic;
  modify (with_ports <[(switch, port) := MkSwitchPort None]>);;
  modify (with_nics <[nic := MkNic (nic_mac n) (nic_network n) None]>).

(** *** Headnodes and hnics *)

Definition headnode_create (label project : string) : Reg unit :=
  _assert_absent headnodes label;;
  p ← _must_find projects project;
  require DuplicateError (bool_decide (project_headnode p = None));;
  modify (with_headnodes <[label := MkHeadnode project]>);;
  modify (with_projects
            <[project := MkProject (project_group p) (Some label)]>).

Definition headnode_delete (label : string) : Reg unit :=
  h ← _must_find headnodes label;
  r ← get;
  require BlockedError
    (bool_decide (map_Forall (λ k _, k.1 ≠ label) (hnics r)));;
  modify (with_headnodes (delete label));;
  modify (with_projects
            (alter (λ p, MkProject (project_group p) None)
               (headnode_project h))).

Definition headnode_create_hnic (global_labels : bool)
    (headnode hnic macaddr : string) : Reg unit :=
  _must_find headnodes headnode;;
  r ← get;
  require DuplicateError
    (negb (label_taken global_labels headnode hnic (hnics r)));;
  modify (with_hnics <[(headnode, hnic) := MkHnic macaddr None]>).

Definition _must_find_hnic (headnode hnic : string) : Reg Hnic :=
  _must_find headnodes headnode;;
  _must_find hnics (headnode, hnic).

Definition headnode_delete_hnic (headnode hnic : string) : Reg unit :=
  n ← _must_find_hnic headnode hnic;
  require BlockedError (bool_decide (hnic_network n = None));;
  modify (with_hnics (delete (headnode, hnic))).

(** *** Attaching Nics and Hnics to networks *)

Definition node_connect_network (node nic network : string) : Reg unit :=
  nd ← _must_find nodes node;
  n ← _must_find_nic node nic;
  net ← _must_find networks network;
  require NotFoundError
    (bool_decide (node_project nd = Some (network_project net)));;
  require DuplicateError (bool_decide (nic_network n = None));;
  modify (with_nics
            <[(node, nic) := MkNic (nic_mac n) (Some network) (nic_port n)]>);;
  modify (with_networks
            <[network := MkNetwork (network_project net) (network_id net)
                           ({[(node, nic)]} ∪ network_nics net)
                           (network_hnics net)]>).

Definition node_detach_network (node nic : string) : Reg unit :=
  n ← _must_find_nic node nic;
  network ← (if nic_network n is Some l then mret l
             else raise NotFoundError);
  net ← _must_find networks network;
  modify (with_nics
            <[(node, nic) := MkNic (nic_mac n) None (nic_port n)]>);;
  modify (with_networks
            <[network := MkNetwork (network_project net) (network_id net)
                           (network_nics net ∖ {[(node, nic)]})
                           (network_hnics net)]>).

Definition headnode_connect_network (headnode hnic network : string)
  : Reg unit :=
  hn ← _must_find headnodes headnode;
  n ← _must_find_hnic headnode hnic;
  net ← _must_find networks network;
  require NotFoundError
    (bool_decide (headnode_project hn = network_project net));;
  require DuplicateError (bool_decide (hnic_network n = None));;
  modify (with_hnics
            <[(headnode, hnic) := MkHnic (hnic_mac n) (Some network)]>);;
  modify (with_networks
            <[network := MkNetwork (network_project net) (network_id net)
                           (network_nics net)
                           ({[(headnode, hnic)]} ∪ network_hnics net)]>).

Definition headnode_detach_network (headnode hnic : string) : Reg unit :=
  n ← _must_find_hnic headnode hnic;
  network ← (if hnic_network n is Some l then mret l
             else raise NotFoundError);
  net ← _must_find networks network;
  modify (with_hnics <[(headnode, hnic) := MkHnic (hnic_mac n) None]>);;
  modify (with_networks
            <[network := MkNetwork (network_project net) (network_id net)
                           (network_nics net)
                           (network_hnics net ∖ {[(headnode, hnic)]})]>).

(** *** Queries *)

(** The labels of the nodes without a project, sorted. *)
Definition list_free_nodes (r : Registry) : list string :=
  merge_sort String.le
    (map_to_list (filter (λ kv, node_project kv.2 = None) (nodes r))).*1.

(** *** Operations as data *)

Inductive op : Type :=
| UserCreate (label secret : string)
| UserDelete (label : string)
| GroupCreate (label : string)
| GroupDelete (label : string)
| GroupAddUser (group user : string)
| GroupRemoveUser (group user : string)
| ProjectCreate (label group : string)
| ProjectDelete (label : string)
| NodeRegister (label : string)
| NodeDelete (label : string)
| ProjectConnectNode (project node : string)
| ProjectDetachNode (project node : string)
| NodeRegisterNic (node nic macaddr : string)
| NodeDeleteNic (node nic : string)
| NetworkCreate (label project : string) (allocated : option string)
| NetworkDelete (label : string)
| SwitchRegister (label driver : string)
| SwitchDelete (label : string)
| PortRegister (switch port : string)
| PortDelete (switch port : string)
| PortConnectNic (switch port node nic : string)
| PortDetachNic (switch port : string)
| HeadnodeCreate (label project : string)
| HeadnodeDelete (label : string)
| HeadnodeCreateHnic (headnode hnic macaddr : string)
| HeadnodeDeleteHnic (headnode hnic : string)
| NodeConnectNetwork (node nic network : string)
| NodeDetachNetwork (node nic : string)
| HeadnodeConnectNetwork (headnode hnic network : string)
| HeadnodeDetachNetwork (headnode hnic : string).

Section Scope.

(** Whether Nic and Hnic labels are unique across all owners. *)
Variable global_labels : bool.

Definition call (o : op) : Reg unit :=
  match o with
  | UserCreate l s => user_create l s
  | UserDelete l => user_delete l
  | GroupCreate l => group_create l
  | GroupDelete l => group_delete l
  | GroupAddUser g u => group_add_user g u
  | GroupRemoveUser g u => group_remove_user g u
  | ProjectCreate l g => project_create l g
  | ProjectDelete l => project_delete l
  | NodeRegister l => node_register l
  | NodeDelete l => node_delete l
  | ProjectConnectNode p n => project_connect_node p n
  | ProjectDetachNode p n => project_detach_node p n
  | NodeRegisterNic n i m => node_register_nic global_labels n i m
  | NodeDeleteNic n i => node_delete_nic n i
  | NetworkCreate l p a => network_create l p a
  | NetworkDelete l => network_delete l
  | SwitchRegister l d => switch_register l d
  | SwitchDelete l => switch_delete l
  | PortRegister s p => port_register s p
  | PortDelete s p => port_delete s p
  | PortConnectNic s p n i => port_connect_nic s p n i
  | PortDetachNic s p => port_detach_nic s p
  | HeadnodeCreate l p => headnode_create l p
  | HeadnodeDelete l => headnode_delete l
  | HeadnodeCreateHnic h i m => headnode_create_hnic global_labels h i m
  | HeadnodeDeleteHnic h i => headnode_delete_hnic h i
  | NodeConnectNetwork n i w => node_connect_network n i w
  | NodeDetachNetwork n i => node_detach_network n i
  | HeadnodeConnectNetwork h i w => headnode_connect_network h i w
  | HeadnodeDetachNetwork h i => headnode_detach_network h i
  end.

(** The registry after a sequence of calls, each of which returned or
    raised. *)
Definition after (os : list op) (r : Registry) : Registry :=
  foldl (λ r o, (call o r).2) r os.

(** The uniqueness or occupancy precondition of a create or connect
    operation is violated: the label is taken, or the relationship slot
    is occupied. *)
Definition occupied (o : op) (r : Registry) : Prop :=
  match o with
  | UserCreate l _ => is_Some (users r !! l)
  | GroupCreate l => is_Some (groups r !! l)
  | GroupAddUser g u =>
      (∃ G, groups r !! g = Some G ∧ u ∈ group_users G)
      ∨ (∃ U, users r !! u = Some U ∧ g ∈ user_groups U)
  | ProjectCreate l _ => is_Some (projects r !! l)
  | NodeRegister l => is_Some (nodes r !! l)
  | ProjectConnectNode _ n =>
      ∃ N, nodes r !! n = Some N ∧ node_project N ≠ None
  | NodeRegisterNic n i _ =>
      is_Some (nics r !! (n, i))
      ∨ (global_labels = true ∧ ∃ n', is_Some (nics r !! (n', i)))
  | NetworkCreate l _ _ => is_Some (networks r !! l)
  | SwitchRegister l _ => is_Some (switches r !! l)
  | PortRegister s p => is_Some (ports r !! (s, p))
  | PortConnectNic s p n i =>
      (∃ P, ports r !! (s, p) = Some P ∧ port_nic P ≠ None)
      ∨ (∃ N, nics r !! (n, i) = Some N ∧ nic_port N ≠ None)
  | HeadnodeCreate l p =>
      is_Some (headnodes r !! l)
      ∨ (∃ P, projects r !! p = Some P ∧ project_headnode P ≠ None)
  | HeadnodeCreateHnic h i _ =>
      is_Some (hnics r !! (h, i))
      ∨ (global_labels = true ∧ ∃ h', is_Some (hnics r !! (h', i)))
  | NodeConnectNetwork n i _ =>
      ∃ N, nics r !! (n, i) = Some N ∧ nic_network N ≠ None
  | HeadnodeConnectNetwork h i _ =>
      ∃ N, hnics r !! (h, i) = Some N ∧ hnic_network N ≠ None
  | _ => False
  end.

End Scope.

(** The create and connect operations. *)
Definition creates_or_connects (o : op) : bool :=
  match o with
  | UserCreate _ _ | GroupCreate _ | GroupAddUser _ _ | ProjectCreate _ _
  | NodeRegister _ | ProjectConnectNode _ _ | NodeRegisterNic _ _ _
  | NetworkCreate _ _ _ | SwitchRegister _ _ | PortRegister _ _
  | PortConnectNic _ _ _ _ | HeadnodeCreate _ _ | HeadnodeCreateHnic _ _ _
  | NodeConnectNetwork _ _ _ | HeadnodeConnectNetwork _ _ _ => true
  | _ => false
  end.

(** Everything else the operation needs is in place: the entities it
    refers to exist and are related as it requires. *)
Definition found (o : op) (r : Registry) : Prop :=
  match o with
  | GroupAddUser g u => is_Some (groups r !! g) ∧ is_Some (users r !! u)
  | ProjectCreate _ g => is_Some (groups r !! g)
  | ProjectConnectNode p n =>
      is_Some (projects r !! p) ∧ is_Some (nodes r !! n)
  | NodeRegisterNic n _ _ => is_Some (nodes r !! n)
  | NetworkCreate _ p a => is_Some (projects r !! p) ∧ is_Some a
  | PortRegister s _ => is_Some (switches r !! s)
  | PortConnectNic s p n i =>
      is_Some (switches r !! s) ∧ is_Some (ports r !! (s, p))
      ∧ is_Some (nodes r !! n) ∧ is_Some (nics r !! (n, i))
  | HeadnodeCreate _ p => is_Some (projects r !! p)
  | HeadnodeCreateHnic h _ _ => is_Some (headnodes r !! h)
  | NodeConnectNetwork n i w =>
      ∃ Nd W, nodes r !! n = Some Nd ∧ is_Some (nics r !! (n, i))
              ∧ networks r !! w = Some W
              ∧ node_project Nd = Some (network_project W)
  | HeadnodeConnectNetwork h i w =>
      ∃ H W, headnodes r !! h = Some H ∧ is_Some (hnics r !! (h, i))
             ∧ networks r !! w = Some W
             ∧ headnode_project H = network_project W
  | _ => True
  end.

(** A Nic points to a network exactly when the network lists it: on the
    two tables, and on a registry. *)
Definition sym (N : gmap (string * string) Nic) (W : gmap string Network)
  : Prop :=
  ∀ nic network,
    (∃ n, N !! nic = Some n ∧ nic_network n = Some network)
    ↔ (∃ w, W !! network = Some w ∧ nic ∈ network_nics w).

Definition nic_network_symmetric (r : Registry) : Prop :=
  sym (nics r) (networks r).

End Registry.

(** ** The registry on the scenarios of the unit tests *)

Module Scenario.
Import Registry.

(** A switch with one port, connected to the Nic of one of two nodes. *)
Definition port_taken (global_labels : bool) : Registry :=
  after global_labels
    [SwitchRegister "bait-and" "big-iron"; PortRegister "bait-and" "3";
     NodeRegister "compute-01"; NodeRegister "compute-02";
     NodeRegisterNic "compute-01" "eth0" "DE:AD:BE:EF:20:14";
     NodeRegisterNic "compute-02" "eth1" "DE:AD:BE:EF:20:15";
     PortConnectNic "bait-and" "3" "compute-01" "eth0"] empty.

(** Two nodes, the first with a Nic. *)
Definition one_nic : Registry :=
  after false
    [NodeRegister "compute-01"; NodeRegister "compute-02";
     NodeRegisterNic "compute-01" "ipmi" "DE:AD:BE:EF:20:14"] empty.

(** A node in a project with two networks, its Nic attached to one. *)
Definition attached (global_labels : bool) : Registry :=
  after global_labels
    [NodeRegister "node-99";
     NodeRegisterNic "node-99" "99-eth0" "DE:AD:BE:EF:20:14";
     GroupCreate "acme-code"; ProjectCreate "anvil-nextgen" "acme-code";
     ProjectConnectNode "anvil-nextgen" "node-99";
     NetworkCreate "hammernet" "anvil-nextgen" (Some "101");
     NetworkCreate "hammernet2" "anvil-nextgen" (Some "102");
     NodeConnectNetwork "node-99" "99-eth0" "hammernet"] empty.

End Scenario.

(** ** The unit tests as data *)

Module UnitTests.
Import Registry.

(** Run the calls of a test in turn and compare each outcome with the
    expected one. *)
Fixpoint replay (global_labels : bool) (steps : list (op * result unit))
    (r : Registry) : bool :=
  match steps with
  | [] => true
  | (o, expected) :: steps' =>
      let '(outcome, r') := call global_labels o r in
      bool_decide (outcome = expected) && replay global_labels steps' r'
  end.

(** The calls of the unit tests of [tests/unit/api.py], test by test, each
    with the outcome the test expects of it: a call under
    [pytest.raises] raises that error, every other call returns.  The
    allocator hands out ["100"]. *)
Definition unit_tests : list (string * list (op * result unit)) :=
[  ("test_group_create",
   [(GroupCreate "acme-corp", Return ())]);
  ("test_group_add_user",
   [(UserCreate "alice" "secret", Return ());
    (GroupCreate "acme-corp", Return ());
    (GroupAddUser "acme-corp" "alice", Return ())]);
  ("test_group_remove_user",
   [(UserCreate "alice" "secret", Return ());
    (GroupCreate "acme-corp", Return ());
    (GroupAddUser "acme-corp" "alice", Return ());
    (GroupRemoveUser "acme-corp" "alice", Return ())]);
  ("test_group_delete",
   [(GroupCreate "acme-corp", Return ());
    (GroupDelete "acme-corp", Return ())]);
  ("test_duplicate_group_create",
   [(GroupCreate "acme-corp", Return ());
    (GroupCreate "acme-corp", Raise DuplicateError)]);
  ("test_duplicate_group_add_user",
   [(UserCreate "alice" "secret", Return ());
    (GroupCreate "acme-corp", Return ());
    (GroupAddUser "acme-corp" "alice", Return ());
    (GroupAddUser "acme-corp" "alice", Raise DuplicateError)]);
  ("test_bad_group_remove_user",
   [(UserCreate "alice" "secret", Return ());
    (GroupCreate "acme-corp", Return ());
    (GroupRemoveUser "acme-corp" "alice", Raise NotFoundError)]);
  ("test_new_user",
   [(UserCreate "bob" "foo", Return ())]);
  ("test_duplicate_user",
   [(UserCreate "alice" "secret", Return ());
    (UserCreate "alice" "password", Raise DuplicateError)]);
  ("test_delete_user",
   [(UserCreate "bob" "foo", Return ());
    (UserDelete "bob", Return ())]);
  ("test_delete_missing_user",
   [(UserDelete "bob", Raise NotFoundError)]);
  ("test_delete_user_twice",
   [(UserCreate "bob" "foo", Return ());
    (UserDelete "bob", Return ());
    (UserDelete "bob", Raise NotFoundError)]);
  ("test_project_create_success",
   [(GroupCreate "acme-corp", Return ());
    (ProjectCreate "anvil-nextgen" "acme-corp", Return ())]);
  ("test_project_create_duplicate",
   [(GroupCreate "acme-corp", Return ());
    (ProjectCreate "anvil-nextgen" "acme-corp", Return ());
    (ProjectCreate "anvil-nextgen" "acme-corp", Raise DuplicateError)]);
  ("test_project_delete",
   [(GroupCreate "acme-corp", Return ());
    (ProjectCreate "anvil-nextgen" "acme-corp", Return ());
    (ProjectDelete "anvil-nextgen", Return ())]);
  ("test_project_delete_nexist",
   [(ProjectDelete "anvil-nextgen", Raise NotFoundError)]);
  ("test_project_connect_node",
   [(GroupCreate "acme-corp", Return ());
    (ProjectCreate "anvil-nextgen" "acme-corp", Return ());
    (NodeRegister "node-99", Return ());
    (ProjectConnectNode "anvil-nextgen" "node-99", Return ())]);
  ("test_project_connect_node_project_nexist",
   [(NodeRegister "node-99", Return ());
    (ProjectConnectNode "anvil-nextgen" "node-99", Raise NotFoundError)]);
  ("test_project_connect_node_node_nexist",
   [(GroupCreate "acme-corp", Return ());
    (ProjectCreate "anvil-nextgen" "acme-corp", Return ());
    (ProjectConnectNode "anvil-nextgen" "node-99", Raise NotFoundError)]);
  ("test_project_detach_node",
   [(GroupCreate "acme-corp", Return ());
    (ProjectCreate "anvil-nextgen" "acme-corp", Return ());
    (NodeRegister "node-99", Return ());
    (ProjectConnectNode "anvil-nextgen" "node-99", Return ());
    (ProjectDetachNode "anvil-nextgen" "node-99", Return ())]);
  ("test_project_detach_node_notattached",
   [(GroupCreate "acme-corp", Return ());
    (ProjectCreate "anvil-nextgen" "acme-corp", Return ());
    (NodeRegister "node-99", Return ());
    (ProjectDetachNode "anvil-nextgen" "node-99", Raise NotFoundError)]);
  ("test_project_detach_node_project_nexist",
   [(NodeRegister "node-99", Return ());
    (ProjectDetachNode "anvil-nextgen" "node-99", Raise NotFoundError)]);
  ("test_project_detach_node_node_nexist",
   [(GroupCreate "acme-corp", Return ());
    (ProjectCreate "anvil-nextgen" "acme-corp", Return ());
    (ProjectDetachNode "anvil-nextgen" "node-99", Raise NotFoundError)]);
  ("test_node_register",
   [(NodeRegister "node-99", Return ())]);
  ("test_duplicate_node_register",
   [(NodeRegister "node-99", Return ());
    (NodeRegister "node-99", Raise DuplicateError)]);
  ("test_node_delete",
   [(NodeRegister "node-99", Return ());
    (NodeDelete "node-99", Return ())]);
  ("test_node_delete_nexist",
   [(NodeDelete "node-99", Raise NotFoundError)]);
  ("test_node_register_nic",
   [(NodeRegister "compute-01", Return ());
    (NodeRegisterNic "compute-01" "01-eth0" "DE:AD:BE:EF:20:14", Return ())]);
  ("test_node_register_nic_no_node",
   [(NodeRegisterNic "compute-01" "01-eth0" "DE:AD:BE:EF:20:14", Raise NotFoundError)]);
  ("test_node_register_nic_duplicate_nic",
   [(NodeRegister "compute-01", Return ());
    (NodeRegisterNic "compute-01" "01-eth0" "DE:AD:BE:EF:20:14", Return ());
    (NodeRegisterNic "compute-01" "01-eth0" "DE:AD:BE:EF:20:15", Raise DuplicateError)]);
  ("test_node_delete_nic_success",
   [(NodeRegister "compute-01", Return ());
    (NodeRegisterNic "compute-01" "01-eth0" "DE:AD:BE:EF:20:14", Return ());
    (NodeDeleteNic "compute-01" "01-eth0", Return ())]);
  ("test_node_delete_nic_nic_nexist",
   [(NodeRegister "compute-01", Return ());
    (NodeDeleteNic "compute-01" "01-eth0", Raise NotFoundError)]);
  ("test_node_delete_nic_node_nexist",
   [(NodeDeleteNic "compute-01" "01-eth0", Raise NotFoundError)]);
  ("test_node_delete_nic_wrong_node",
   [(NodeRegister "compute-01", Return ());
    (NodeRegister "compute-02", Return ());
    (NodeRegisterNic "compute-01" "01-eth0" "DE:AD:BE:EF:20:14", Return ());
    (NodeDeleteNic "compute-02" "01-eth0", Raise NotFoundError)]);
  ("test_node_delete_nic_wrong_nexist_node",
   [(NodeRegister "compute-01", Return ());
    (NodeRegisterNic "compute-01" "01-eth0" "DE:AD:BE:EF:20:14", Return ());
    (NodeDeleteNic "compute-02" "01-eth0", Raise NotFoundError)]);
  ("test_node_register_nic_diff_nodes",
   [(NodeRegister "compute-01", Return ());
    (NodeRegister "compute-02", Return ());
    (NodeRegisterNic "compute-01" "ipmi" "DE:AD:BE:EF:20:14", Return ());
    (NodeRegisterNic "compute-02" "ipmi" "DE:AD:BE:EF:20:14", Return ())]);
  ("test_node_connect_network_success",
   [(NodeRegister "node-99", Return ());
    (NodeRegisterNic "node-99" "99-eth0" "DE:AD:BE:EF:20:14", Return ());
    (GroupCreate "acme-code", Return ());
    (ProjectCreate "anvil-nextgen" "acme-code", Return ());
    (ProjectConnectNode "anvil-nextgen" "node-99", Return ());
    (NetworkCreate "hammernet" "anvil-nextgen" (Some "100"), Return ());
    (NodeConnectNetwork "node-99" "99-eth0" "hammernet", Return ())]);
  ("test_node_connect_network_wrong_node_in_project",
   [(NodeRegister "node-99", Return ());
    (NodeRegisterNic "node-99" "99-eth0" "DE:AD:BE:EF:20:14", Return ());
    (GroupCreate "acme-code", Return ());
    (ProjectCreate "anvil-nextgen" "acme-code", Return ());
    (ProjectConnectNode "anvil-nextgen" "node-99", Return ());
    (NetworkCreate "hammernet" "anvil-nextgen" (Some "100"), Return ());
    (NodeConnectNetwork "node-99" "99-eth0" "hammernet", Return ());
    (NodeRegister "node-98", Return ());
    (ProjectConnectNode "anvil-nextgen" "node-98", Return ());
    (NodeConnectNetwork "node-98" "99-eth0" "hammernet", Raise NotFoundError)]);
  ("test_node_connect_network_wrong_node_not_in_project",
   [(NodeRegister "node-99", Return ());
    (NodeRegisterNic "node-99" "99-eth0" "DE:AD:BE:EF:20:14", Return ());
    (GroupCreate "acme-code", Return ());
    (ProjectCreate "anvil-nextgen" "acme-code", Return ());
    (ProjectConnectNode "anvil-nextgen" "node-99", Return ());
    (NetworkCreate "hammernet" "anvil-nextgen" (Some "100"), Return ());
    (NodeRegister "node-98", Return ());
    (NodeConnectNetwork "node-98" "99-eth0" "hammernet", Raise NotFoundError)]);
  ("test_node_connect_network_no_such_node",
   [(NodeRegister "node-99", Return ());
    (NodeRegisterNic "node-99" "99-eth0" "DE:AD:BE:EF:20:14", Return ());
    (GroupCreate "acme-code", Return ());
    (ProjectCreate "anvil-nextgen" "acme-code", Return ());
    (ProjectConnectNode "anvil-nextgen" "node-99", Return ());
    (NetworkCreate "hammernet" "anvil-nextgen" (Some "100"), Return ());
    (NodeConnectNetwork "node-98" "99-eth0" "hammernet", Raise NotFoundError)]);
  ("test_node_connect_network_no_such_nic",
   [(NodeRegister "node-99", Return ());
    (GroupCreate "acme-code", Return ());
    (ProjectCreate "anvil-nextgen" "acme-code", Return ());
    (ProjectConnectNode "anvil-nextgen" "node-99", Return ());
    (NetworkCreate "hammernet" "anvil-nextgen" (Some "100"), Return ());
    (NodeConnectNetwork "node-99" "99-eth0" "hammernet", Raise NotFoundError)]);
  ("test_node_connect_network_no_such_network",
   [(NodeRegister "node-99", Return ());
    (NodeRegisterNic "node-99" "99-eth0" "DE:AD:BE:EF:20:14", Return ());
    (GroupCreate "acme-code", Return ());
    (ProjectCreate "anvil-nextgen" "acme-code", Return ());
    (ProjectConnectNode "anvil-nextgen" "node-99", Return ());
    (NodeConnectNetwork "node-99" "99-eth0" "hammernet", Raise NotFoundError)]);
  ("test_node_connect_network_already_attached_to_same",
   [(NodeRegister "node-99", Return ());
    (NodeRegisterNic "node-99" "99-eth0" "DE:AD:BE:EF:20:14", Return ());
    (GroupCreate "acme-code", Return ());
    (ProjectCreate "anvil-nextgen" "acme-code", Return ());
    (ProjectConnectNode "anvil-nextgen" "node-99", Return ());
    (NetworkCreate "hammernet" "anvil-nextgen" (Some "100"), Return ());
    (NodeConnectNetwork "node-99" "99-eth0" "hammernet", Return ());
    (NodeConnectNetwork "node-99" "99-eth0" "hammernet", Raise DuplicateError)]);
  ("test_node_connect_network_already_attached_differently",
   [(NodeRegister "node-99", Return ());
    (NodeRegisterNic "node-99" "99-eth0" "DE:AD:BE:EF:20:14", Return ());
    (GroupCreate "acme-code", Return ());
    (ProjectCreate "anvil-nextgen" "acme-code", Return ());
    (ProjectConnectNode "anvil-nextgen" "node-99", Return ());
    (NetworkCreate "hammernet" "anvil-nextgen" (Some "100"), Return ());
    (NetworkCreate "hammernet2" "anvil-nextgen" (Some "100"), Return ());
    (NodeConnectNetwork "node-99" "99-eth0" "hammernet", Return ());
    (NodeConnectNetwork "node-99" "99-eth0" "hammernet2", Raise DuplicateError)]);
  ("test_node_detach_network_success",
   [(NodeRegister "node-99", Return ());
    (NodeRegisterNic "node-99" "99-eth0" "DE:AD:BE:EF:20:14", Return ());
    (GroupCreate "acme-code", Return ());
    (ProjectCreate "anvil-nextgen" "acme-code", Return ());
    (ProjectConnectNode "anvil-nextgen" "node-99", Return ());
    (NetworkCreate "hammernet" "anvil-nextgen" (Some "100"), Return ());
    (NodeConnectNetwork "node-99" "99-eth0" "hammernet", Return ());
    (NodeDetachNetwork "node-99" "99-eth0", Return ())]);
  ("test_node_detach_network_not_attached",
   [(NodeRegister "node-99", Return ());
    (NodeRegisterNic "node-99" "99-eth0" "DE:AD:BE:EF:20:14", Return ());
    (GroupCreate "acme-code", Return ());
    (ProjectCreate "anvil-nextgen" "acme-code", Return ());
    (ProjectConnectNode "anvil-nextgen" "node-99", Return ());
    (NetworkCreate "hammernet" "anvil-nextgen" (Some "100"), Return ());
    (NodeDetachNetwork "node-99" "99-eth0", Raise NotFoundError)]);
  ("test_node_detach_network_wrong_node_in_project",
   [(NodeRegister "node-99", Return ());
    (NodeRegister "node-98", Return ());
    (NodeRegisterNic "node-99" "99-eth0" "DE:AD:BE:EF:20:14", Return ());
    (GroupCreate "acme-code", Return ());
    (ProjectCreate "anvil-nextgen" "acme-code", Return ());
    (ProjectConnectNode "anvil-nextgen" "node-99", Return ());
    (ProjectConnectNode "anvil-nextgen" "node-98", Return ());
    (NetworkCreate "hammernet" "anvil-nextgen" (Some "100"), Return ());
    (NodeConnectNetwork "node-99" "99-eth0" "hammernet", Return ());
    (NodeDetachNetwork "node-98" "99-eth0", Raise NotFoundError)]);
  ("test_node_detach_network_wrong_node_not_in_project",
   [(NodeRegister "node-99", Return ());
    (NodeRegister "node-98", Return ());
    (NodeRegisterNic "node-99" "99-eth0" "DE:AD:BE:EF:20:14", Return ());
    (GroupCreate "acme-code", Return ());
    (ProjectCreate "anvil-nextgen" "acme-code", Return ());
    (ProjectConnectNode "anvil-nextgen" "node-99", Return ());
    (NetworkCreate "hammernet" "anvil-nextgen" (Some "100"), Return ());
    (NodeConnectNetwork "node-99" "99-eth0" "hammernet", Return ());
    (NodeDetachNetwork "node-98" "99-eth0", Raise NotFoundError)]);
  ("test_node_detach_network_no_such_node",
   [(NodeRegister "node-99", Return ());
    (NodeRegisterNic "node-99" "99-eth0" "DE:AD:BE:EF:20:14", Return ());
    (GroupCreate "acme-code", Return ());
    (ProjectCreate "anvil-nextgen" "acme-code", Return ());
    (ProjectConnectNode "anvil-nextgen" "node-99", Return ());
    (NetworkCreate "hammernet" "anvil-nextgen" (Some "100"), Return ());
    (NodeConnectNetwork "node-99" "99-eth0" "hammernet", Return ());
    (NodeDetachNetwork "node-98" "99-eth0", Raise NotFoundError)]);
  ("test_node_detach_network_no_such_nic",
   [(NodeRegister "node-99", Return ());
    (NodeRegisterNic "node-99" "99-eth0" "DE:AD:BE:EF:20:14", Return ());
    (GroupCreate "acme-code", Return ());
    (ProjectCreate "anvil-nextgen" "acme-code", Return ());
    (ProjectConnectNode "anvil-nextgen" "node-99", Return ());
    (NetworkCreate "hammernet" "anvil-nextgen" (Some "100"), Return ());
    (NodeConnectNetwork "node-99" "99-eth0" "hammernet", Return ());
    (NodeDetachNetwork "node-99" "99-eth1", Raise NotFoundError)]);
  ("test_headnode_create_success",
   [(GroupCreate "acme-code", Return ());
    (ProjectCreate "anvil-nextgen" "acme-code", Return ());
    (HeadnodeCreate "hn-0" "anvil-nextgen", Return ())]);
  ("test_headnode_create_badproject",
   [(HeadnodeCreate "hn-0" "anvil-nextgen", Raise NotFoundError)]);
  ("test_headnode_create_duplicate",
   [(GroupCreate "acme-code", Return ());
    (ProjectCreate "anvil-nextgen" "acme-code", Return ());
    (ProjectCreate "anvil-oldtimer" "acme-code", Return ());
    (HeadnodeCreate "hn-0" "anvil-nextgen", Return ());
    (HeadnodeCreate "hn-0" "anvil-oldtimer", Raise DuplicateError)]);
  ("test_headnode_create_second",
   [(GroupCreate "acme-code", Return ());
    (ProjectCreate "anvil-nextgen" "acme-code", Return ());
    (HeadnodeCreate "hn-0" "anvil-nextgen", Return ());
    (HeadnodeCreate "hn-1" "anvil-nextgen", Raise DuplicateError)]);
  ("test_headnode_delete_success",
   [(GroupCreate "acme-code", Return ());
    (ProjectCreate "anvil-nextgen" "acme-code", Return ());
    (HeadnodeCreate "hn-0" "anvil-nextgen", Return ());
    (HeadnodeDelete "hn-0", Return ())]);
  ("test_headnode_delete_nonexistent",
   [(HeadnodeDelete "hn-0", Raise NotFoundError)]);
  ("test_headnode_create_hnic_success",
   [(GroupCreate "acme-code", Return ());
    (ProjectCreate "anvil-nextgen" "acme-code", Return ());
    (HeadnodeCreate "hn-0" "anvil-nextgen", Return ());
    (HeadnodeCreateHnic "hn-0" "hn-0-eth0" "DE:AD:BE:EF:20:14", Return ())]);
  ("test_headnode_create_hnic_no_headnode",
   [(HeadnodeCreateHnic "hn-0" "hn-0-eth0" "DE:AD:BE:EF:20:14", Raise NotFoundError)]);
  ("test_headnode_create_hnic_duplicate_hnic",
   [(GroupCreate "acme-code", Return ());
    (ProjectCreate "anvil-nextgen" "acme-code", Return ());
    (HeadnodeCreate "hn-0" "anvil-nextgen", Return ());
    (HeadnodeCreateHnic "hn-0" "hn-0-eth0" "DE:AD:BE:EF:20:14", Return ());
    (HeadnodeCreateHnic "hn-0" "hn-0-eth0" "DE:AD:BE:EF:20:15", Raise DuplicateError)]);
  ("test_headnode_delete_hnic_success",
   [(GroupCreate "acme-code", Return ());
    (ProjectCreate "anvil-nextgen" "acme-code", Return ());
    (HeadnodeCreate "hn-0" "anvil-nextgen", Return ());
    (HeadnodeCreateHnic "hn-0" "hn-0-eth0" "DE:AD:BE:EF:20:14", Return ());
    (HeadnodeDeleteHnic "hn-0" "hn-0-eth0", Return ())]);
  ("test_headnode_delete_hnic_hnic_nexist",
   [(GroupCreate "acme-code", Return ());
    (ProjectCreate "anvil-nextgen" "acme-code", Return ());
    (HeadnodeCreate "hn-0" "anvil-nextgen", Return ());
    (HeadnodeDeleteHnic "hn-0" "hn-0-eth0", Raise NotFoundError)]);
  ("test_headnode_delete_hnic_headnode_nexist",
   [(HeadnodeDeleteHnic "hn-0" "hn-0-eth0", Raise NotFoundError)]);
  ("test_headnode_delete_hnic_wrong_headnode",
   [(GroupCreate "acme-code", Return ());
    (ProjectCreate "anvil-nextgen" "acme-code", Return ());
    (ProjectCreate "anvil-oldtimer" "acme-code", Return ());
    (HeadnodeCreate "hn-0" "anvil-nextgen", Return ());
    (HeadnodeCreate "hn-1" "anvil-oldtimer", Return ());
    (HeadnodeCreateHnic "hn-0" "hn-0-eth0" "DE:AD:BE:EF:20:14", Return ());
    (HeadnodeDeleteHnic "hn-1" "hn-0-eth0", Raise NotFoundError)]);
  ("test_headnode_delete_hnic_wrong_nexist_headnode",
   [(GroupCreate "acme-code", Return ());
    (ProjectCreate "anvil-nextgen" "acme-code", Return ());
    (HeadnodeCreate "hn-0" "anvil-nextgen", Return ());
    (HeadnodeCreateHnic "hn-0" "hn-0-eth0" "DE:AD:BE:EF:20:14", Return ());
    (HeadnodeDeleteHnic "hn-1" "hn-0-eth0", Raise NotFoundError)]);
  ("test_headnode_create_hnic_diff_headnodes",
   [(GroupCreate "acme-code", Return ());
    (ProjectCreate "anvil-legacy" "acme-code", Return ());
    (ProjectCreate "anvil-nextgen" "acme-code", Return ());
    (HeadnodeCreate "hn-0" "anvil-legacy", Return ());
    (HeadnodeCreate "hn-1" "anvil-nextgen", Return ());
    (HeadnodeCreateHnic "hn-0" "eth0" "DE:AD:BE:EF:20:14", Return ());
    (HeadnodeCreateHnic "hn-1" "eth0" "DE:AD:BE:EF:20:14", Return ())]);
  ("test_headnode_connect_network_success",
   [(GroupCreate "acme-code", Return ());
    (ProjectCreate "anvil-nextgen" "acme-code", Return ());
    (HeadnodeCreate "hn-0" "anvil-nextgen", Return ());
    (HeadnodeCreateHnic "hn-0" "hn-0-eth0" "DE:AD:BE:EF:20:14", Return ());
    (NetworkCreate "hammernet" "anvil-nextgen" (Some "100"), Return ());
    (HeadnodeConnectNetwork "hn-0" "hn-0-eth0" "hammernet", Return ())]);
  ("test_headnode_connect_network_no_such_headnode",
   [(GroupCreate "acme-code", Return ());
    (ProjectCreate "anvil-nextgen" "acme-code", Return ());
    (HeadnodeCreate "hn-0" "anvil-nextgen", Return ());
    (HeadnodeCreateHnic "hn-0" "hn-0-eth0" "DE:AD:BE:EF:20:14", Return ());
    (NetworkCreate "hammernet" "anvil-nextgen" (Some "100"), Return ());
    (HeadnodeConnectNetwork "hn-1" "hn-0-eth0" "hammernet", Raise NotFoundError)]);
  ("test_headnode_connect_network_no_such_hnic",
   [(GroupCreate "acme-code", Return ());
    (ProjectCreate "anvil-nextgen" "acme-code", Return ());
    (HeadnodeCreate "hn-0" "anvil-nextgen", Return ());
    (HeadnodeCreateHnic "hn-0" "hn-0-eth0" "DE:AD:BE:EF:20:14", Return ());
    (NetworkCreate "hammernet" "anvil-nextgen" (Some "100"), Return ());
    (HeadnodeConnectNetwork "hn-0" "hn-0-eth1" "hammernet", Raise NotFoundError)]);
  ("test_headnode_connect_network_no_such_network",
   [(GroupCreate "acme-code", Return ());
    (ProjectCreate "anvil-nextgen" "acme-code", Return ());
    (HeadnodeCreate "hn-0" "anvil-nextgen", Return ());
    (HeadnodeCreateHnic "hn-0" "hn-0-eth0" "DE:AD:BE:EF:20:14", Return ());
    (NetworkCreate "hammernet" "anvil-nextgen" (Some "100"), Return ());
    (HeadnodeConnectNetwork "hn-0" "hn-0-eth0" "hammernet2", Raise NotFoundError)]);
  ("test_headnode_connect_network_already_attached_to_same",
   [(GroupCreate "acme-code", Return ());
    (ProjectCreate "anvil-nextgen" "acme-code", Return ());
    (HeadnodeCreate "hn-0" "anvil-nextgen", Return ());
    (HeadnodeCreateHnic "hn-0" "hn-0-eth0" "DE:AD:BE:EF:20:14", Return ());
    (NetworkCreate "hammernet" "anvil-nextgen" (Some "100"), Return ());
    (HeadnodeConnectNetwork "hn-0" "hn-0-eth0" "hammernet", Return ());
    (HeadnodeConnectNetwork "hn-0" "hn-0-eth0" "hammernet", Raise DuplicateError)]);
  ("test_headnode_connect_network_already_attached_differently",
   [(GroupCreate "acme-code", Return ());
    (ProjectCreate "anvil-nextgen" "acme-code", Return ());
    (HeadnodeCreate "hn-0" "anvil-nextgen", Return ());
    (HeadnodeCreateHnic "hn-0" "hn-0-eth0" "DE:AD:BE:EF:20:14", Return ());
    (NetworkCreate "hammernet" "anvil-nextgen" (Some "100"), Return ());
    (NetworkCreate "hammernet2" "anvil-nextgen" (Some "100"), Return ());
    (HeadnodeConnectNetwork "hn-0" "hn-0-eth0" "hammernet", Return ());
    (HeadnodeConnectNetwork "hn-0" "hn-0-eth0" "hammernet2", Raise DuplicateError)]);
  ("test_headnode_detach_network_success",
   [(GroupCreate "acme-code", Return ());
    (ProjectCreate "anvil-nextgen" "acme-code", Return ());
    (HeadnodeCreate "hn-0" "anvil-nextgen", Return ());
    (HeadnodeCreateHnic "hn-0" "hn-0-eth0" "DE:AD:BE:EF:20:14", Return ());
    (NetworkCreate "hammernet" "anvil-nextgen" (Some "100"), Return ());
    (HeadnodeConnectNetwork "hn-0" "hn-0-eth0" "hammernet", Return ());
    (HeadnodeDetachNetwork "hn-0" "hn-0-eth0", Return ())]);
  ("test_headnode_detach_network_not_attached",
   [(GroupCreate "acme-code", Return ());
    (ProjectCreate "anvil-nextgen" "acme-code", Return ());
    (HeadnodeCreate "hn-0" "anvil-nextgen", Return ());
    (HeadnodeCreateHnic "hn-0" "hn-0-eth0" "DE:AD:BE:EF:20:14", Return ());
    (NetworkCreate "hammernet" "anvil-nextgen" (Some "100"), Return ());
    (HeadnodeDetachNetwork "hn-0" "hn-0-eth0", Raise NotFoundError)]);
  ("test_headnode_detach_network_no_such_headnode",
   [(GroupCreate "acme-code", Return ());
    (ProjectCreate "anvil-nextgen" "acme-code", Return ());
    (HeadnodeCreate "hn-0" "anvil-nextgen", Return ());
    (HeadnodeCreateHnic "hn-0" "hn-0-eth0" "DE:AD:BE:EF:20:14", Return ());
    (NetworkCreate "hammernet" "anvil-nextgen" (Some "100"), Return ());
    (HeadnodeConnectNetwork "hn-0" "hn-0-eth0" "hammernet", Return ());
    (HeadnodeDetachNetwork "hn-1" "hn-0-eth0", Raise NotFoundError)]);
  ("test_headnode_detach_network_no_such_hnic",
   [(GroupCreate "acme-code", Return ());
    (ProjectCreate "anvil-nextgen" "acme-code", Return ());
    (HeadnodeCreate "hn-0" "anvil-nextgen", Return ());
    (HeadnodeCreateHnic "hn-0" "hn-0-eth0" "DE:AD:BE:EF:20:14", Return ());
    (NetworkCreate "hammernet" "anvil-nextgen" (Some "100"), Return ());
    (HeadnodeConnectNetwork "hn-0" "hn-0-eth0" "hammernet", Return ());
    (HeadnodeDetachNetwork "hn-0" "hn-0-eth1", Raise NotFoundError)]);
  ("test_network_create_success",
   [(GroupCreate "acme-code", Return ());
    (ProjectCreate "anvil-nextgen" "acme-code", Return ());
    (NetworkCreate "hammernet" "anvil-nextgen" (Some "100"), Return ())]);
  ("test_network_create_badproject",
   [(NetworkCreate "hammernet" "anvil-nextgen" (Some "100"), Raise NotFoundError)]);
  ("test_network_create_duplicate",
   [(GroupCreate "acme-code", Return ());
    (ProjectCreate "anvil-nextgen" "acme-code", Return ());
    (ProjectCreate "anvil-oldtimer" "acme-code", Return ());
    (NetworkCreate "hammernet" "anvil-nextgen" (Some "100"), Return ());
    (NetworkCreate "hammernet" "anvil-oldtimer" (Some "100"), Raise DuplicateError)]);
  ("test_network_delete_success",
   [(GroupCreate "acme-code", Return ());
    (ProjectCreate "anvil-nextgen" "acme-code", Return ());
    (NetworkCreate "hammernet" "anvil-nextgen" (Some "100"), Return ());
    (NetworkDelete "hammernet", Return ())]);
  ("test_network_delete_nonexistent",
   [(NetworkDelete "hammernet", Raise NotFoundError)]);
  ("test_switch_register_success",
   [(SwitchRegister "bait-and" "big-iron", Return ())]);
  ("test_duplicate_switch_register",
   [(SwitchRegister "bait-and" "big-iron", Return ());
    (SwitchRegister "bait-and" "falling", Raise DuplicateError)]);
  ("test_switch_delete",
   [(SwitchRegister "bait-and" "big-iron", Return ());
    (SwitchDelete "bait-and", Return ())]);
  ("test_swtich_delete_nexist",
   [(SwitchDelete "bait_and", Raise NotFoundError)]);
  ("test_port_register_success",
   [(SwitchRegister "bait-and" "big-iron", Return ());
    (PortRegister "bait-and" "3", Return ())]);
  ("test_port_register_duplicate",
   [(SwitchRegister "bait-and" "big-iron", Return ());
    (PortRegister "bait-and" "3", Return ());
    (PortRegister "bait-and" "3", Raise DuplicateError)]);
  ("test_port_register_no_such_switch",
   [(PortRegister "bait-and" "3", Raise NotFoundError)]);
  ("test_port_delete_success",
   [(SwitchRegister "bait-and" "big-iron", Return ());
    (PortRegister "bait-and" "3", Return ());
    (PortDelete "bait-and" "3", Return ())]);
  ("test_port_delete_no_such_port",
   [(SwitchRegister "bait-and" "big-iron", Return ());
    (PortDelete "bait-and" "3", Raise NotFoundError)]);
  ("test_port_delete_no_such_switch",
   [(PortDelete "bait-and" "3", Raise NotFoundError)]);
  ("test_port_connect_nic_success",
   [(SwitchRegister "bait-and" "big-iron", Return ());
    (PortRegister "bait-and" "3", Return ());
    (NodeRegister "compute-01", Return ());
    (NodeRegisterNic "compute-01" "eth0" "DE:AD:BE:EF:20:14", Return ());
    (PortConnectNic "bait-and" "3" "compute-01" "eth0", Return ())]);
  ("test_port_connect_nic_no_such_switch",
   [(NodeRegister "compute-01", Return ());
    (NodeRegisterNic "compute-01" "eth0" "DE:AD:BE:EF:20:14", Return ());
    (PortConnectNic "bait-and" "3" "compute-01" "eth0", Raise NotFoundError)]);
  ("test_port_connect_nic_no_such_port",
   [(SwitchRegister "bait-and" "big-iron", Return ());
    (NodeRegister "compute-01", Return ());
    (NodeRegisterNic "compute-01" "eth0" "DE:AD:BE:EF:20:14", Return ());
    (PortConnectNic "bait-and" "3" "compute-01" "eth0", Raise NotFoundError)]);
  ("test_port_connect_nic_no_such_node",
   [(SwitchRegister "bait-and" "big-iron", Return ());
    (PortRegister "bait-and" "3", Return ());
    (PortConnectNic "bait-and" "3" "compute-01" "eth0", Raise NotFoundError)]);
  ("test_port_connect_nic_no_such_nic",
   [(SwitchRegister "bait-and" "big-iron", Return ());
    (PortRegister "bait-and" "3", Return ());
    (NodeRegister "compute-01", Return ());
    (PortConnectNic "bait-and" "3" "compute-01" "eth0", Raise NotFoundError)]);
  ("test_port_connect_nic_already_attached_to_same",
   [(SwitchRegister "bait-and" "big-iron", Return ());
    (PortRegister "bait-and" "3", Return ());
    (NodeRegister "compute-01", Return ());
    (NodeRegisterNic "compute-01" "eth0" "DE:AD:BE:EF:20:14", Return ());
    (PortConnectNic "bait-and" "3" "compute-01" "eth0", Return ());
    (PortConnectNic "bait-and" "3" "compute-01" "eth0", Raise DuplicateError)]);
  ("test_port_connect_nic_nic_already_attached_differently",
   [(SwitchRegister "bait-and" "big-iron", Return ());
    (SwitchRegister "-eroo" "big-iron", Return ());
    (PortRegister "bait-and" "3", Return ());
    (PortRegister "-eroo" "4", Return ());
    (NodeRegister "compute-01", Return ());
    (NodeRegisterNic "compute-01" "eth0" "DE:AD:BE:EF:20:14", Return ());
    (PortConnectNic "bait-and" "3" "compute-01" "eth0", Return ());
    (PortConnectNic "-eroo" "4" "compute-01" "eth0", Raise DuplicateError)]);
  ("test_port_connect_nic_port_already_attached_differently",
   [(SwitchRegister "bait-and" "big-iron", Return ());
    (PortRegister "bait-and" "3", Return ());
    (NodeRegister "compute-01", Return ());
    (NodeRegister "compute-02", Return ());
    (NodeRegisterNic "compute-01" "eth0" "DE:AD:BE:EF:20:14", Return ());
    (NodeRegisterNic "compute-02" "eth1" "DE:AD:BE:EF:20:15", Return ());
    (PortConnectNic "bait-and" "3" "compute-01" "eth0", Return ());
    (PortConnectNic "bait-and" "3" "compute-02" "eth1", Raise DuplicateError)]);
  ("test_port_detach_nic_success",
   [(SwitchRegister "bait-and" "big-iron", Return ());
    (PortRegister "bait-and" "3", Return ());
    (NodeRegister "compute-01", Return ());
    (NodeRegisterNic "compute-01" "eth0" "DE:AD:BE:EF:20:14", Return ());
    (PortConnectNic "bait-and" "3" "compute-01" "eth0", Return ());
    (PortDetachNic "bait-and" "3", Return ())]);
  ("test_port_detach_nic_no_such_switch",
   [(PortDetachNic "bait-and" "3", Raise NotFoundError)]);
  ("test_port_detach_nic_no_such_port",
   [(SwitchRegister "bait-and" "big-iron", Return ());
    (PortDetachNic "bait-and" "3", Raise NotFoundError)]);
  ("test_port_detach_nic_not_attached",
   [(SwitchRegister "bait-and" "big-iron", Return ());
    (PortRegister "bait-and" "3", Return ());
    (NodeRegister "compute-01", Return ());
    (NodeRegisterNic "compute-01" "eth0" "DE:AD:BE:EF:20:14", Return ());
    (PortDetachNic "bait-and" "3", Raise NotFoundError)]);
  ("test_free_nodes",
   [(NodeRegister "master-control-program", Return ());
    (NodeRegister "robocop", Return ());
    (NodeRegister "data", Return ())]);
  ("test_show_node",
   [(NodeRegister "robocop", Return ());
    (NodeRegisterNic "robocop" "eth0" "DE:AD:BE:EF:20:14", Return ());
    (NodeRegisterNic "robocop" "wlan0" "DE:AD:BE:EF:20:15", Return ())])].

End UnitTests.

(** * Theorems *)

(** ** Facts about strings *)

Module PyFacts.
Local Arguments String.append !_ _ / : simpl nomatch.

Lemma app_nil_r (s : string) : s +:+ "" = s.
Proof. induction s; simpl; congruence. Qed.

Lemma app_assoc (a b c : string) : (a +:+ b) +:+ c = a +:+ (b +:+ c).
Proof. induction a; simpl; congruence. Qed.

Lemma length_app (a b : string) :
  String.length (a +:+ b) = (String.length a + String.length b)%nat.
Proof. induction a; simpl; congruence. Qed.

Lemma substring_prefix (a b : string) :
  String.substring 0 (String.length a) (a +:+ b) = a.
Proof.
  induction a as [|c a IH]; simpl.
  - by destruct b.
  - by rewrite IH.
Qed.

(** Replacing a character by a character keeps the length and changes
    exactly the positions that held it. *)
Lemma replace_char_length (old new : ascii) (s : string) :
  String.length (Py.replace old (String new "") s) = String.length s.
Proof.
  induction s as [|c s IH]; simpl; [done|].
  case_decide; simpl; by rewrite IH.
Qed.

Lemma replace_char_get (old new : ascii) (s : string) (i : nat) :
  String.get i (Py.replace old (String new "") s)
  = (λ c, if decide (c = old) then new else c) <$> String.get i s.
Proof.
  revert i. induction s as [|c s IH]; intros i; simpl; [done|].
  case_decide; simpl; destruct i; simpl; try apply IH;
    case_decide; congruence.
Qed.

Lemma replace_app (old : ascii) (new a b : string) :
  Py.replace old new (a +:+ b) = Py.replace old new a +:+ Py.replace old new b.
Proof.
  induction a as [|c a IH]; simpl; [done|].
  case_decide; rewrite IH; simpl; [|done]. by rewrite app_assoc.
Qed.

Lemma contains_app (c : ascii) (a b : string) :
  Py.contains c (a +:+ b) = Py.contains c a || Py.contains c b.
Proof.
  induction a as [|c' a IH]; simpl; [done|]. by rewrite IH, orb_assoc.
Qed.

(** A pattern that starts with [c] is not found in a text without [c]. *)
Lemma index_skip (c : ascii) (pat s u : string) :
  Py.contains c s = false →
  String.index 0 (String c pat) (s +:+ u)
  = (λ i, (String.length s + i)%nat) <$> String.index 0 (String c pat) u.
Proof.
  intros Hs. induction s as [|b s IH]; simpl.
  - by destruct (String.index 0 (String c pat) u).
  - simpl in Hs. apply orb_false_iff in Hs as [Hb Hs].
    apply bool_decide_eq_false in Hb.
    destruct (ascii_dec c b) as [->|_]; [done|].
    rewrite (IH Hs). by destruct (String.index 0 (String c pat) u).
Qed.

Lemma index_shift (n : nat) (pat s u : string) :
  String.index (String.length s + n) pat (s +:+ u)
  = (λ i, (String.length s + i)%nat) <$> String.index n pat u.
Proof.
  induction s as [|b s IH]; simpl.
  - by destruct (String.index n pat u).
  - rewrite IH. by destruct (String.index n pat u).
Qed.

Lemma substring_shift (n m : nat) (s u : string) :
  String.substring (String.length s + n) m (s +:+ u) = String.substring n m u.
Proof. induction s as [|b s IH]; simpl; [done|apply IH]. Qed.

End PyFacts.

(** ** Facts about patterns *)

Module ReFacts.
Import Re PyFacts.
Local Arguments String.append !_ _ / : simpl nomatch.

Lemma all_digits_app (a b : string) :
  all_digits (a +:+ b) = all_digits a && all_digits b.
Proof.
  induction a as [|c a IH]; simpl; [done|].
  rewrite IH. by destruct (is_digit c).
Qed.

(** The greedy quantifier offers exactly the splits after a non-empty
    run of digits. *)
Lemma elem_of_digits_rests (s rest : string) :
  rest ∈ digits_rests s ↔
  ∃ w, s = w +:+ rest ∧ w ≠ "" ∧ all_digits w = true.
Proof.
  revert rest. induction s as [|c s IH]; intros rest; simpl.
  - split; [by intros ?%elem_of_nil|].
    intros ([|??] & ? & ? & ?); simplify_eq/=.
  - destruct (is_digit c) eqn:Hc.
    + rewrite elem_of_app, list_elem_of_singleton, IH. split.
      * intros [(w & -> & ? & Hw)| ->].
        -- exists (String c w). simpl. by rewrite Hc, Hw.
        -- exists (String c ""). simpl. by rewrite Hc.
      * intros ([|c' w] & Heq & ? & Hw); simplify_eq/=.
        apply andb_true_iff in Hw as [_ Hw].
        destruct w as [|c'' w]; [by right|left].
        by exists (String c'' w).
    + split; [by intros ?%elem_of_nil|].
      intros ([|c' w] & Heq & ? & Hw); simplify_eq/=.
      by rewrite Hc in Hw.
Qed.

(** The first split offered takes the whole run. *)
Lemma digits_rests_greedy (w rest : string) :
  w ≠ "" → all_digits w = true →
  (if rest is String c _ then is_digit c = false else True) →
  head (digits_rests (w +:+ rest)) = Some rest.
Proof.
  intros Hne Hw Hrest. induction w as [|c w IH]; [done|].
  simpl in *. apply andb_true_iff in Hw as [-> Hw].
  destruct w as [|c' w].
  - simpl. destruct rest as [|c' rest]; simpl; [done|]. by rewrite Hrest.
  - specialize (IH ltac:(done) Hw).
    destruct (digits_rests (String c' w +:+ rest)); by simplify_eq/=.
Qed.

(** The matcher finds exactly the matches of the language. *)
Lemma run_lang (r : regex) (pos : nat) (s rest : string) (caps : captures) :
  (∃ caps', (rest, caps') ∈ run r pos s caps) ↔
  ∃ w, s = w +:+ rest ∧ lang r pos w rest.
Proof.
  revert pos s rest caps.
  induction r as [| |c| |r1 IH1 r2 IH2|r IH|i r IH];
    intros pos s rest caps; simpl.
  - destruct pos.
    + split.
      * intros (? & [= -> ->]%list_elem_of_singleton).
        exists "". split; [done|constructor].
      * intros (w & -> & Hl). inversion Hl; subst.
        exists caps. by apply list_elem_of_singleton.
    + split; [by intros (? & ?%elem_of_nil)|].
      intros (w & -> & Hl). inversion Hl.
  - case_bool_decide as Hs.
    + split.
      * intros (? & [= -> ->]%list_elem_of_singleton).
        exists "". split; [done|]. destruct Hs as [-> | ->]; constructor.
      * intros (w & -> & Hl). inversion Hl; subst;
          exists caps; by apply list_elem_of_singleton.
    + split; [by intros (? & ?%elem_of_nil)|].
      intros (w & -> & Hl). inversion Hl; subst; simpl in *; tauto.
  - destruct s as [|c' s].
    + split; [by intros (? & ?%elem_of_nil)|].
      intros (w & Heq & Hl). inversion Hl; subst. done.
    + case_decide as Hc.
      * subst c'. split.
        -- intros (? & [= -> ->]%list_elem_of_singleton).
           exists (String c ""). split; [done|constructor].
        -- intros (w & Heq & Hl). inversion Hl; subst. simplify_eq/=.
           exists caps. by apply list_elem_of_singleton.
      * split; [by intros (? & ?%elem_of_nil)|].
        intros (w & Heq & Hl). inversion Hl; subst. by simplify_eq/=.
  - split.
    + intros (caps' & (s' & [= -> ->] & Hin)%list_elem_of_fmap).
      apply elem_of_digits_rests in Hin as (w & -> & ? & ?).
      exists w. split; [done|by constructor].
    + intros (w & -> & Hl). inversion Hl; subst.
      exists caps. apply list_elem_of_fmap. exists rest. split; [done|].
      apply elem_of_digits_rests. by exists w.
  - split.
    + intros (caps' & ([s1 caps1] & Hin2 & Hin1)%list_elem_of_bind).
      destruct (proj1 (IH1 pos s s1 caps) (ex_intro _ caps1 Hin1))
        as (w1 & -> & Hl1).
      rewrite length_app in Hin2.
      replace (String.length w1 + String.length s1 - String.length s1)%nat
        with (String.length w1) in Hin2 by lia.
      destruct (proj1 (IH2 _ s1 rest caps1) (ex_intro _ caps' Hin2))
        as (w2 & -> & Hl2).
      exists (w1 +:+ w2). split; [by rewrite app_assoc|by constructor].
    + intros (w & -> & Hl). inversion Hl as [| | | | |? ? ? w1 w2 ? Hl1 Hl2| | |]; subst.
      destruct (proj2 (IH1 pos ((w1 +:+ w2) +:+ rest) (w2 +:+ rest) caps))
        as (caps1 & Hin1); [exists w1; by rewrite app_assoc|].
      destruct (proj2 (IH2 (pos + String.length w1)%nat (w2 +:+ rest) rest caps1))
        as (caps' & Hin2); [by exists w2|].
      exists caps'. apply list_elem_of_bind. exists (w2 +:+ rest, caps1).
      split; [|done]. simpl.
      rewrite app_assoc, length_app.
      by replace (String.length w1 + String.length (w2 +:+ rest)
                  - String.length (w2 +:+ rest))%nat
        with (String.length w1) by lia.
  - split.
    + intros (caps' & [Hin| [= -> ->]%list_elem_of_singleton]%elem_of_app).
      * destruct (proj1 (IH pos s rest caps) (ex_intro _ caps' Hin))
          as (w & -> & Hl).
        exists w. split; [done|by constructor].
      * exists "". split; [done|apply lang_opt_none].
    + intros (w & -> & Hl). inversion Hl; subst.
      * destruct (proj2 (IH pos (w +:+ rest) rest caps)) as (caps' & Hin);
          [by exists w|].
        exists caps'. apply elem_of_app. by left.
      * exists caps. apply elem_of_app. right. by apply list_elem_of_singleton.
  - split.
    + intros (caps' & ([s' caps''] & [= -> ->] & Hin)%list_elem_of_fmap).
      destruct (proj1 (IH pos s s' caps) (ex_intro _ caps'' Hin))
        as (w & -> & Hl).
      exists w. split; [done|by constructor].
    + intros (w & -> & Hl). inversion Hl; subst.
      destruct (proj2 (IH pos (w +:+ rest) rest caps)) as (caps' & Hin);
        [by exists w|].
      eexists. apply list_elem_of_fmap. by exists (rest, caps').
Qed.

(** [re.match] returns a match exactly for the accepted subjects. *)
Lemma re_match_accepts (r : regex) (s : string) :
  is_Some (re_match r s) ↔ accepts r s.
Proof.
  unfold re_match, accepts.
  rewrite fmap_is_Some. split.
  - intros [[rest caps] Hhd]. apply head_Some_elem_of in Hhd.
    destruct (proj1 (run_lang r 0 s rest _) (ex_intro _ caps Hhd))
      as (w & -> & Hl).
    by exists w, rest.
  - intros (w & rest & -> & Hl).
    destruct (proj2 (run_lang r 0 (w +:+ rest) rest
                       (replicate (ngroups r) None)))
      as (caps & Hin); [by exists w|].
    destruct (run r 0 (w +:+ rest) _) as [|x l]; [by apply elem_of_nil in Hin|].
    by exists x.
Qed.

End ReFacts.

(** ** The driver's patterns *)

Module PatternFacts.
Import Re PyFacts ReFacts.
Local Arguments String.append !_ _ / : simpl nomatch.

(** Take apart a derivation for a pattern whose shape is known. *)
Ltac inv_lang :=
  repeat match goal with
  | H : lang Bol _ _ _ |- _ => inversion H; clear H; subst
  | H : lang Eol _ _ _ |- _ => inversion H; clear H; subst
  | H : lang (Chr _) _ _ _ |- _ => inversion H; clear H; subst
  | H : lang Digits _ _ _ |- _ => inversion H; clear H; subst
  | H : lang (Seq _ _) _ _ _ |- _ => inversion H; clear H; subst
  | H : lang (Opt _) _ _ _ |- _ => inversion H; clear H; subst
  | H : lang (Group _ _) _ _ _ |- _ => inversion H; clear H; subst
  end.

Lemma port_name_form_2 (a b tail : string) :
  digits1 a → digits1 b → tail = "" ∨ tail = String Py.newline "" →
  port_name_form (a +:+ String "/" (b +:+ tail)).
Proof. intros. exists a, b, tail. split_and!; auto. Qed.

Lemma port_name_form_3 (a b c tail : string) :
  digits1 a → digits1 b → digits1 c →
  tail = "" ∨ tail = String Py.newline "" →
  port_name_form (a +:+ String "/" (b +:+ String "/" (c +:+ tail))).
Proof. intros. exists a, b, tail. split_and!; auto. right. by exists c. Qed.

Lemma accepts_port_pattern (s : string) :
  accepts port_pattern s ↔ port_name_form s.
Proof.
  unfold accepts, port_pattern. split.
  - intros (w & rest & -> & Hl). inv_lang;
      repeat (progress (simpl; rewrite ?app_nil_r, ?app_assoc)).
    all: match goal with
         | |- port_name_form
                (?a +:+ String "/" (?b +:+ String "/" (?c +:+ String ?n ""))) =>
             apply (port_name_form_3 a b c (String n ""))
         | |- port_name_form (?a +:+ String "/" (?b +:+ String "/" ?c)) =>
             rewrite <-(app_nil_r c); apply (port_name_form_3 a b c "")
         | |- port_name_form (?a +:+ String "/" (?b +:+ String ?n "")) =>
             apply (port_name_form_2 a b (String n ""))
         | |- port_name_form (?a +:+ String "/" ?b) =>
             rewrite <-(app_nil_r b); apply (port_name_form_2 a b "")
         end; unfold digits1; auto.
  - unfold port_name_form, digits1.
    intros (a & b & tail & [??] & [??] & Ht & Hs).
    destruct Hs as [-> | (c & [??] & ->)].
    + exists (a +:+ "/" +:+ b), tail. split; [by rewrite !app_assoc|].
      apply (lang_seq Bol _ 0 "" (a +:+ "/" +:+ b)); [constructor|].
      apply (lang_seq Digits _ _ a ("/" +:+ b)); [by constructor|].
      apply (lang_seq (Chr "/") _ _ "/" b); [constructor|].
      rewrite <-(app_nil_r b).
      apply (lang_seq Digits _ _ b ""); [by constructor|].
      apply (lang_seq (Opt _) Eol _ "" ""); [apply lang_opt_none|].
      destruct Ht as [-> | ->]; constructor.
    + exists (a +:+ "/" +:+ b +:+ "/" +:+ c), tail.
      split; [by rewrite !app_assoc|].
      apply (lang_seq Bol _ 0 "" (a +:+ "/" +:+ b +:+ "/" +:+ c));
        [constructor|].
      apply (lang_seq Digits _ _ a ("/" +:+ b +:+ "/" +:+ c));
        [by constructor|].
      apply (lang_seq (Chr "/") _ _ "/" (b +:+ "/" +:+ c)); [constructor|].
      apply (lang_seq Digits _ _ b ("/" +:+ c)); [by constructor|].
      rewrite <-(app_nil_r ("/" +:+ c)).
      apply (lang_seq (Opt _) Eol _ ("/" +:+ c) "").
      * apply lang_opt_some, lang_group.
        apply (lang_seq (Chr "/") Digits _ "/" c); by constructor.
      * destruct Ht as [-> | ->]; constructor.
Qed.

(** The patterns on some subjects. *)
Example port_pattern_three : re_match port_pattern "1/0/1" = Some [Some "/1"].
Proof. reflexivity. Qed.

Example port_pattern_two : re_match port_pattern "1/2" = Some [None].
Proof. reflexivity. Qed.

Example port_pattern_letters : re_match port_pattern "a/b" = None.
Proof. reflexivity. Qed.

Example port_pattern_trailing : re_match port_pattern "1/2/3x" = None.
Proof. reflexivity. Qed.

Example port_pattern_line_feed :
  re_match port_pattern ("1/2" +:+ String Py.newline "") = Some [None].
Proof. reflexivity. Qed.

Example channel_pattern_tagged :
  re_match channel_pattern "vlan/52" = Some [Some "52"].
Proof. reflexivity. Qed.

Example channel_pattern_prefix :
  re_match channel_pattern "vlan/52abc" = Some [Some "52"].
Proof. reflexivity. Qed.

Example channel_pattern_native : re_match channel_pattern "vlan/native" = None.
Proof. reflexivity. Qed.

(** A literal character at the head of the subject is consumed. *)
Lemma run_chr_seq (c : ascii) (r : regex) (pos : nat) (s : string)
    (caps : captures) :
  run (Seq (Chr c) r) pos (String c s) caps = run r (pos + 1) s caps.
Proof.
  simpl. rewrite decide_True by done. simpl.
  rewrite (right_id_L [] (++)). f_equal. lia.
Qed.

(** On a channel that starts with [vlan/] and a run of digits, the
    pattern matches and its group is the whole run. *)
Lemma re_match_channel (id rest : string) :
  digits1 id →
  (if rest is String c _ then is_digit c = false else True) →
  re_match channel_pattern ("vlan/" +:+ id +:+ rest) = Some [Some id].
Proof.
  intros [Hne Hd] Hrest. unfold re_match, channel_pattern.
  change ("vlan/" +:+ id +:+ rest)
    with (String "v" (String "l" (String "a" (String "n" (String "/"
            (id +:+ rest)))))).
  rewrite !run_chr_seq. simpl.
  rewrite <-list_fmap_compose.
  destruct (digits_rests (id +:+ rest)) as [|r l] eqn:Hdr;
    pose proof (digits_rests_greedy id rest Hne Hd Hrest) as Hhd;
    rewrite Hdr in Hhd; simplify_eq/=.
  unfold consumed. rewrite length_app.
  replace (String.length id + String.length rest - String.length rest)%nat
    with (String.length id) by lia.
  by rewrite substring_prefix.
Qed.

(** Whenever the pattern matches, its group holds a run of digits that
    follows [vlan/]. *)
Lemma re_match_channel_inv (channel : string) (groups : captures) :
  re_match channel_pattern channel = Some groups →
  ∃ id rest, digits1 id ∧ channel = "vlan/" +:+ id +:+ rest
             ∧ groups = [Some id].
Proof.
  unfold re_match, channel_pattern.
  do 5 (destruct channel as [|? channel]; [done|];
        simpl; case_decide; [subst|done]; simpl).
  rewrite !(right_id_L [] (++)), <-list_fmap_compose.
  destruct (digits_rests channel) as [|r l] eqn:Hdr; [done|].
  intros [= <-].
  assert (r ∈ digits_rests channel) as Hin by (rewrite Hdr; left).
  apply elem_of_digits_rests in Hin as (w & -> & Hne & Hd).
  exists w, r. split; [done|]. split; [done|].
  unfold consumed. rewrite length_app.
  replace (String.length w + String.length r - String.length r)%nat
    with (String.length w) by lia.
  by rewrite substring_prefix.
Qed.

End PatternFacts.

(** ** [validate_port_name] *)

Lemma validate_port_name_accepts (name : string) :
  validate_port_name name = Return () ↔ Re.accepts port_pattern name.
Proof.
  rewrite <-ReFacts.re_match_accepts. unfold validate_port_name.
  destruct (Re.re_match port_pattern name) as [g|]; split; try done.
Qed.

(** The accepted names, spelled out: two or three runs of digits
    separated by slashes, possibly followed by one line feed. *)
Lemma validate_port_name_form (name : string) :
  validate_port_name name = Return () ↔ port_name_form name.
Proof.
  rewrite <-PatternFacts.accepts_port_pattern.
  apply validate_port_name_accepts.
Qed.

(** C4.  [validate_port_name] raises [BadArgumentError] exactly for the
    names that the pattern [^\d+/\d+(/\d+)?$] does not match, and returns
    normally for the others; ["1/0/1"] and ["1/2"] are accepted and
    ["a/b"] is rejected with [BadArgumentError]. *)
Theorem validate_port_name_grammar (name : string) :
  ((∃ msg, validate_port_name name = Raise (BadArgumentError msg))
   ↔ ¬ Re.accepts port_pattern name)
  ∧ (validate_port_name name = Return () ↔ Re.accepts port_pattern name)
  ∧ validate_port_name "1/0/1" = Return ()
  ∧ validate_port_name "1/2" = Return ()
  ∧ (∃ msg, validate_port_name "a/b" = Raise (BadArgumentError msg)).
Proof.
  split_and!; [|apply validate_port_name_accepts|done|done|by eexists].
  rewrite <-validate_port_name_accepts. unfold validate_port_name.
  destruct (Re.re_match port_pattern name) as [g|]; split.
  - by intros [? ?].
  - by intros [].
  - by intros _ ?.
  - intros _. by eexists.
Qed.

(** ** Interface names and URLs *)

Lemma iftypes_lookup (t v : string) :
  iftypes !! t = Some v ↔
  (t, v) ∈ [("GigabitEthernet", "gige-"); ("TenGigabitEthernet", "tengig-");
            ("TwentyfiveGigabitEthernet", "twentyfivegig-");
            ("fortyGigE", "fortygig-"); ("peGigabitEthernet", "pegig-");
            ("FiftyGigabitEthernet", "fiftygig-");
            ("HundredGigabitEthernet", "hundredgig-")].
Proof.
  unfold iftypes. symmetry. apply elem_of_list_to_map.
  compute_done.
Qed.

Lemma iftypes_lookup_None (t : string) :
  iftypes !! t = None ↔
  t ∉ ["GigabitEthernet"; "TenGigabitEthernet"; "TwentyfiveGigabitEthernet";
       "fortyGigE"; "peGigabitEthernet"; "FiftyGigabitEthernet";
       "HundredGigabitEthernet"].
Proof.
  unfold iftypes. rewrite <-not_elem_of_list_to_map. done.
Qed.

Lemma _construct_url_port (self : DellNOS9) (name suffix : string) :
  validate_port_name name = Return () →
  _construct_url self (Some name) suffix =
    match iftypes !! interface_type self with
    | Some prefix =>
        Return (hostname self +:+ "/api/running/dell/interfaces/interface/" +:+
                prefix +:+ Py.replace "/" "-" name +:+
                (if decide (suffix = "") then "" else "/" +:+ suffix))
    | None => Raise (KeyError (interface_type self))
    end.
Proof.
  unfold validate_port_name, _construct_url, _convert_interface.
  destruct (Re.re_match port_pattern name); [intros _|done].
  by destruct (iftypes !! interface_type self).
Qed.

(** C9.  The interface-name translation is the fixed seven-entry table;
    a type outside it raises ([KeyError]); and the URL built for a valid
    port name carries the name with every slash replaced by a dash. *)
Theorem interface_translation_table :
  (∀ t v, _convert_interface t = Return v ↔
     (t, v) ∈ [("GigabitEthernet", "gige-"); ("TenGigabitEthernet", "tengig-");
               ("TwentyfiveGigabitEthernet", "twentyfivegig-");
               ("fortyGigE", "fortygig-"); ("peGigabitEthernet", "pegig-");
               ("FiftyGigabitEthernet", "fiftygig-");
               ("HundredGigabitEthernet", "hundredgig-")])
  ∧ (∀ t, t ∉ ["GigabitEthernet"; "TenGigabitEthernet";
                "TwentyfiveGigabitEthernet"; "fortyGigE"; "peGigabitEthernet";
                "FiftyGigabitEthernet"; "HundredGigabitEthernet"] →
          _convert_interface t = Raise (KeyError t))
  ∧ (∀ self name suffix,
       validate_port_name name = Return () →
       (∀ prefix, _convert_interface (interface_type self) = Return prefix →
          _construct_url self (Some name) suffix =
            Return (hostname self +:+
                    "/api/running/dell/interfaces/interface/" +:+
                    prefix +:+ Py.replace "/" "-" name +:+
                    (if decide (suffix = "") then "" else "/" +:+ suffix)))
       ∧ (∀ e, _convert_interface (interface_type self) = Raise e →
            _construct_url self (Some name) suffix = Raise e)
       ∧ String.length (Py.replace "/" "-" name) = String.length name
       ∧ ∀ i, String.get i (Py.replace "/" "-" name)
              = (λ c, if decide (c = "/"%char) then "-"%char else c)
                  <$> String.get i name).
Proof.
  split_and!.
  - intros t v. rewrite <-iftypes_lookup. unfold _convert_interface.
    destruct (iftypes !! t); naive_solver.
  - intros t Ht%iftypes_lookup_None. unfold _convert_interface. by rewrite Ht.
  - intros self name suffix Hname.
    pose proof (_construct_url_port self name suffix Hname) as Hurl.
    unfold _convert_interface.
    destruct (iftypes !! interface_type self) as [prefix|]; split_and!.
    + by intros ? [= <-].
    + done.
    + apply PyFacts.replace_char_length.
    + apply PyFacts.replace_char_get.
    + done.
    + by intros ? [= <-].
    + apply PyFacts.replace_char_length.
    + apply PyFacts.replace_char_get.
Qed.

(** ** Reading a resource body *)

Module XmlFacts.
Import PyFacts.
Local Arguments String.append !_ _ / : simpl nomatch.

Lemma xml_text_shutdown (name tail : string) (k e : nat) :
  Py.contains "<" name = false →
  String.index 0 "<shutdown>" tail = Some k →
  String.index (k + 10) "</shutdown>" tail = Some e →
  xml_text "shutdown" ("<interface><name>" +:+ name +:+ tail)
  = Some (String.substring (k + 10) (e - (k + 10)) tail).
Proof.
  intros Hname Hk He. unfold xml_text.
  change ("<" +:+ "shutdown" +:+ ">") with "<shutdown>".
  change ("</" +:+ "shutdown" +:+ ">") with "</shutdown>".
  change (String.length "<shutdown>") with 10%nat.
  assert (String.index 0 "<shutdown>" ("<interface><name>" +:+ name +:+ tail)
          = Some (17 + (String.length name + k))%nat) as ->.
  { change ("<interface><name>" +:+ name +:+ tail)
      with (String "<" ("interface>" +:+
              String "<" (("name>" +:+ name) +:+ tail))).
    change (String.index 0 "<shutdown>" (String "<" ?s))
      with (S <$> String.index 0 "<shutdown>" s).
    rewrite (index_skip "<" "shutdown>" "interface>") by done.
    change (String.index 0 "<shutdown>" (String "<" ?s))
      with (S <$> String.index 0 "<shutdown>" s).
    rewrite (index_skip "<" "shutdown>" ("name>" +:+ name))
      by (by rewrite contains_app, Hname).
    rewrite Hk, length_app. simpl. f_equal. all: lia. }
  change (Some ?x ≫= ?f) with (f x). cbv beta.
  replace (17 + (String.length name + k) + 10)%nat
    with (String.length "<interface><name>"
          + (String.length name + (k + 10)))%nat by (simpl; lia).
  rewrite !index_shift, He.
  change ((λ i, (String.length "<interface><name>" + i)%nat) <$>
            ((λ i, (String.length name + i)%nat) <$> Some e))
    with (Some (String.length "<interface><name>" + (String.length name + e))%nat).
  change (Some ?x ≫= ?f) with (f x). cbv beta.
  replace (String.length "<interface><name>" + (String.length name + e)
           - (String.length "<interface><name>" + (String.length name + (k + 10))))%nat
    with (e - (k + 10))%nat by lia.
  by rewrite !substring_shift.
Qed.

(** The resource that [_port_on] sends says [shutdown] false. *)
Lemma xml_text_port_on (name : string) :
  Py.contains "<" name = false →
  xml_text "shutdown"
    ("<interface><name>" +:+ name +:+ "</name>" +:+
     ("<portmode><hybrid>true</hybrid></portmode>" +:+
      "<switchport></switchport><shutdown>false</shutdown>") +:+
     "</interface>")
  = Some "false".
Proof.
  intros Hname.
  apply (xml_text_shutdown name
           ("</name><portmode><hybrid>true</hybrid></portmode>" +:+
            "<switchport></switchport><shutdown>false</shutdown></interface>")
           74 89 Hname); reflexivity.
Qed.

Lemma digits_no_markup (a : string) :
  Re.all_digits a = true → Py.contains "<" (Py.replace "/" "-" a) = false.
Proof.
  induction a as [|c a IH]; simpl; [done|].
  intros [Hc Ha]%andb_true_iff. case_decide as Heq.
  - rewrite Heq in Hc. discriminate Hc.
  - simpl. rewrite (IH Ha), orb_false_r. apply bool_decide_eq_false.
    intros ->. discriminate Hc.
Qed.

Lemma port_name_no_markup (port : string) :
  port_name_form port → Py.contains "<" (Py.replace "/" "-" port) = false.
Proof.
  intros (a & b & tail & [_ Ha] & [_ Hb] & Htail & Hport).
  assert (Py.contains "<" (Py.replace "/" "-" tail) = false) as Ht
    by (by destruct Htail as [-> | ->]).
  pose proof (digits_no_markup a Ha) as Ha'.
  pose proof (digits_no_markup b Hb) as Hb'.
  destruct Hport as [-> | (c & [_ Hc] & ->)];
    rewrite !replace_app, !contains_app, Ht, Ha', Hb';
    [|rewrite (digits_no_markup c Hc)]; reflexivity.
Qed.

Lemma prefix_no_markup (t prefix : string) :
  iftypes !! t = Some prefix → Py.contains "<" prefix = false.
Proof.
  intros Hin%iftypes_lookup.
  repeat (apply elem_of_cons in Hin as [[= -> ->]|Hin]; [done|]).
  by apply elem_of_nil in Hin.
Qed.

Lemma last_shutdown_snoc (url : string) (trace : list request)
    (rq : request) (state : string) :
  rq_method rq = "PUT" → rq_url rq = url →
  rq_data rq ≫= xml_text "shutdown" = Some state →
  last_shutdown url (trace ++ [rq]) = Some state.
Proof.
  intros Hm Hu Hd. unfold last_shutdown.
  rewrite omap_app. simpl. rewrite decide_True by done. rewrite Hd.
  apply last_snoc.
Qed.

End XmlFacts.

(** ** Requests *)

Section DriverFacts.
Context {World : Type}.
Variable requests_request : request → World → response * World.

Abbreviation answer rq env := (requests_request rq (world env)).1.

(** [_make_request] as one step. *)
Lemma _make_request_run (self : DellNOS9) (method url : string)
    (data : option string) (acceptable_error_codes : list Z)
    (env : Env World) :
  let rq := Request method url data (_auth self) in
  let r := answer rq env in
  let bad := bool_decide (status_code r >= 400)
             && negb (bool_decide (status_code r ∈ acceptable_error_codes)) in
  _make_request requests_request self method url data
    acceptable_error_codes env
  = (Return r,
     MkEnv (requests_request rq (world env)).2 (sent env ++ [rq])
       (if bad then stdout env ++ [text r] else stdout env)
       (if bad
        then errlog env ++ ["Bad Request to switch. Response: " +:+ text r]
        else errlog env)).
Proof.
  unfold _make_request, http, mbind, Prog_bind. simpl.
  destruct (requests_request _ (world env)) as [r w]. simpl.
  by destruct (bool_decide (status_code r >= 400)
               && negb (bool_decide (status_code r ∈ acceptable_error_codes))).
Qed.

(** C7.  Whatever the status code, [_make_request] returns the raw
    response and raises nothing; a status of 400 or more that is not in
    the allow-list is printed and logged at error level, and nothing is
    logged otherwise. *)
Theorem make_request_returns_raw_response (self : DellNOS9)
    (method url : string) (data : option string)
    (acceptable_error_codes : list Z) (env : Env World) :
  let rq := Request method url data (username self, password self) in
  let r := answer rq env in
  ∃ env',
    _make_request requests_request self method url data
      acceptable_error_codes env = (Return r, env')
    ∧ world env' = (requests_request rq (world env)).2
    ∧ sent env' = sent env ++ [rq]
    ∧ (status_code r >= 400 ∧ status_code r ∉ acceptable_error_codes →
       errlog env'
       = errlog env ++ ["Bad Request to switch. Response: " +:+ text r]
       ∧ stdout env' = stdout env ++ [text r])
    ∧ (¬ (status_code r >= 400 ∧ status_code r ∉ acceptable_error_codes) →
       errlog env' = errlog env ∧ stdout env' = stdout env).
Proof.
  intros rq r. eexists. split; [apply _make_request_run|]. simpl.
  fold rq. fold r. split_and!; try done.
  - intros [Hge Hnin].
    rewrite (bool_decide_eq_true_2 _ Hge), (bool_decide_eq_false_2 _ Hnin).
    done.
  - intros Hok. repeat case_bool_decide; simpl; tauto.
Qed.

(** ** CLI commands *)

Abbreviation cli self := (hostname self +:+ "/api/running/dell/_operations/cli").

Abbreviation config_command self command :=
  (Request "POST" (cli self)
     (Some ("<input><config-commands>" +:+ command +:+
            "</config-commands></input>"))
     (username self, password self)).

Abbreviation show_command self command :=
  (Request "POST" (cli self)
     (Some ("<input><show-command>" +:+ command +:+
            "</show-command></input>"))
     (username self, password self)).

Lemma _add_vlan_to_trunk_run (self : DellNOS9) (interface vlan : string)
    (env : Env World) :
  ∃ env',
    _add_vlan_to_trunk requests_request self interface vlan env
    = (Return (), env')
    ∧ sent env' = sent env ++
        [config_command self ("interface vlan " +:+ vlan +:+ CRLF +:+
           " tagged " +:+ interface_type self +:+ " " +:+ interface)].
Proof.
  unfold _add_vlan_to_trunk, mbind, Prog_bind. simpl.
  rewrite _make_request_run. simpl. eauto.
Qed.

Lemma _remove_vlan_from_trunk_run (self : DellNOS9) (interface vlan : string)
    (env : Env World) :
  ∃ env',
    _remove_vlan_from_trunk requests_request self interface vlan env
    = (Return (), env')
    ∧ sent env' = sent env ++
        [config_command self ("interface vlan " +:+ vlan +:+ CRLF +:+
           " no tagged " +:+ interface_type self +:+ " " +:+ interface)].
Proof.
  unfold _remove_vlan_from_trunk, mbind, Prog_bind. simpl.
  rewrite _make_request_run. simpl. eauto.
Qed.

Lemma _set_native_vlan_run (self : DellNOS9) (interface vlan : string)
    (env : Env World) :
  ∃ env',
    _set_native_vlan requests_request self interface vlan env
    = (Return (), env')
    ∧ sent env' = sent env ++
        [config_command self ("interface vlan " +:+ vlan +:+ CRLF +:+
           " untagged " +:+ interface_type self +:+ " " +:+ interface)].
Proof.
  unfold _set_native_vlan, mbind, Prog_bind. simpl.
  rewrite _make_request_run. simpl. eauto.
Qed.

(** The native-VLAN query always returns a pair. *)
Lemma _get_native_vlan_run (self : DellNOS9) (interface : string)
    (env : Env World) :
  ∃ vlan env',
    _get_native_vlan requests_request self interface env
    = (Return (Some ("vlan/native", vlan)), env')
    ∧ sent env' = sent env ++
        [show_command self ("interfaces switchport " +:+
           interface_type self +:+ " " +:+ interface)].
Proof.
  unfold _get_native_vlan, mbind, Prog_bind. simpl.
  rewrite _make_request_run. simpl. eauto.
Qed.

Lemma _remove_native_vlan_run (self : DellNOS9) (interface : string)
    (env : Env World) :
  ∃ vlan env1 env',
    _get_native_vlan requests_request self interface env
    = (Return (Some ("vlan/native", vlan)), env1)
    ∧ _remove_native_vlan requests_request self interface env
      = (Return (), env')
    ∧ sent env' = sent env ++
        [show_command self ("interfaces switchport " +:+
           interface_type self +:+ " " +:+ interface);
         config_command self ("interface vlan " +:+ vlan +:+ CRLF +:+
           " no untagged " +:+ interface_type self +:+ " " +:+ interface)].
Proof.
  destruct (_get_native_vlan_run self interface env)
    as (vlan & env1 & Hget & Hsent).
  exists vlan, env1.
  unfold _remove_native_vlan, mbind, Prog_bind. rewrite Hget. simpl.
  rewrite _make_request_run. simpl. rewrite Hsent, <-(assoc_L (++)).
  eauto.
Qed.

(** The port object that [modify_port] works on. *)
Lemma filter_label_singleton (self : DellNOS9) (port : string) (p : Port) :
  filter (λ q, port_label q = port) (ports self) = [p] → port_label p = port.
Proof.
  intros Hf. assert (p ∈ filter (λ q, port_label q = port) (ports self)) as Hin
    by (rewrite Hf; left).
  by apply list_elem_of_filter in Hin as [? _].
Qed.

(** ** [modify_port] *)


(** A tagged channel is not the native channel. *)
Lemma tagged_not_native (id : string) :
  Re.digits1 id → "vlan/" +:+ id ≠ "vlan/native".
Proof.
  intros [Hne Hd] Heq. change ("vlan/" +:+ id)
    with (String "v" (String "l" (String "a" (String "n" (String "/" id)))))
    in Heq.
  by simplify_eq.
Qed.

(** [modify_port] on a tagged channel, in all cases. *)
Lemma modify_port_tagged_run (self : DellNOS9) (port id network_id : string)
    (env : Env World) :
  Re.digits1 id →
  modify_port requests_request self port ("vlan/" +:+ id) (Some network_id) env
  = match filter (λ q, port_label q = port) (ports self) with
    | [p] =>
        if decide (network_id = id)
        then _add_vlan_to_trunk requests_request self (port_label p) id env
        else (Raise (AssertionError ""), env)
    | _ => (Raise ValueError, env)
    end.
Proof.
  intros Hid. unfold modify_port, mbind, Prog_bind.
  destruct (filter _ (ports self)) as [|p [|??]]; try done. simpl.
  rewrite decide_False by by apply tagged_not_native.
  pose proof (PatternFacts.re_match_channel id "" Hid I) as Hm.
  rewrite PyFacts.app_nil_r in Hm. rewrite Hm. simpl.
  by case_decide.
Qed.

(** C1.  On a tagged channel ["vlan/<id>"] and with a network identifier:
    an identifier that differs from [<id>] always makes the call raise
    with nothing sent, so no identifier is substituted for the other; and
    on a port of the switch, the call returns, after posting the command
    that adds VLAN [<id>] to the trunk, exactly when the identifier
    equals [<id>], and otherwise the assertion fires. *)
Theorem modify_port_tagged (self : DellNOS9) (port id network_id : string)
    (env : Env World) :
  Re.digits1 id →
  (network_id ≠ id →
   ∃ e, modify_port requests_request self port ("vlan/" +:+ id)
          (Some network_id) env = (Raise e, env))
  ∧ (∀ p, filter (λ q, port_label q = port) (ports self) = [p] →
       (network_id = id →
        ∃ env',
          modify_port requests_request self port ("vlan/" +:+ id)
            (Some network_id) env = (Return (), env')
          ∧ sent env' = sent env ++
              [config_command self ("interface vlan " +:+ id +:+ CRLF +:+
                 " tagged " +:+ interface_type self +:+ " " +:+ port)])
       ∧ (network_id ≠ id →
          modify_port requests_request self port ("vlan/" +:+ id)
            (Some network_id) env = (Raise (AssertionError ""), env))
       ∧ ((∃ env',
             modify_port requests_request self port ("vlan/" +:+ id)
               (Some network_id) env = (Return (), env'))
          ↔ network_id = id)).
Proof.
  intros Hid. rewrite (modify_port_tagged_run self port id network_id env Hid).
  split.
  - intros Hne.
    destruct (filter _ (ports self)) as [|p [|??]]; [by eexists| |by eexists].
    rewrite decide_False by done. by eexists.
  - intros p Hf. pose proof (filter_label_singleton _ _ _ Hf) as Hp.
    rewrite Hf, Hp.
    destruct (_add_vlan_to_trunk_run self port id env)
      as (env' & Hadd & Hsent).
    split_and!.
    + intros ->. rewrite decide_True by done. eauto.
    + intros Hne. by rewrite decide_False.
    + case_decide; [naive_solver|]. split; [by intros [? ?]|done].
Qed.

(** ** [revert_port] *)

Abbreviation put_interface self url name body :=
  (Request "PUT" url
     (Some ("<interface><name>" +:+ name +:+ "</name>" +:+ body +:+
            "</interface>"))
     (username self, password self)).

Lemma _port_shutdown_run (self : DellNOS9) (interface url prefix : string)
    (env : Env World) :
  _construct_url self (Some interface) "" = Return url →
  _convert_interface (interface_type self) = Return prefix →
  ∃ env',
    _port_shutdown requests_request self interface env = (Return (), env')
    ∧ sent env' = sent env ++
        [put_interface self url (prefix +:+ Py.replace "/" "-" interface)
           "<portmode><hybrid>false</hybrid></portmode><shutdown>true</shutdown>"].
Proof.
  intros Hurl Hprefix. unfold _port_shutdown, mbind, Prog_bind, lift.
  rewrite Hurl, Hprefix. rewrite _make_request_run. simpl.
  eauto.
Qed.

Lemma _port_on_run (self : DellNOS9) (interface url prefix : string)
    (env : Env World) :
  _construct_url self (Some interface) "" = Return url →
  _convert_interface (interface_type self) = Return prefix →
  ∃ env',
    _port_on requests_request self interface env = (Return (), env')
    ∧ sent env' = sent env ++
        [put_interface self url (prefix +:+ Py.replace "/" "-" interface)
           ("<portmode><hybrid>true</hybrid></portmode>" +:+
            "<switchport></switchport><shutdown>false</shutdown>")].
Proof.
  intros Hurl Hprefix. unfold _port_on, mbind, Prog_bind, lift.
  rewrite Hurl, Hprefix. rewrite _make_request_run. simpl.
  eauto.
Qed.

Lemma _construct_url_Some (self : DellNOS9) (interface suffix : string) :
  match _convert_interface (interface_type self) with
  | Return _ => ∃ url, _construct_url self (Some interface) suffix = Return url
  | Raise e =>
      is_Some (Re.re_match port_pattern interface) →
      _construct_url self (Some interface) suffix = Raise e
  end.
Proof.
  unfold _construct_url.
  destruct (_convert_interface (interface_type self)) as [prefix|e];
    destruct (Re.re_match port_pattern interface); simpl; eauto.
  - by intros [? ?].
Qed.

(** C3, as the code has it.  With an interface type of the table,
    [revert_port] returns after exactly two requests, in this order: the
    PUT that shuts the port down (hybrid port mode off) and the PUT that
    turns it on again (hybrid port mode and switchport on, [shutdown]
    false).  Neither is a VLAN command.  For a valid port name the last
    interface resource the device got for the port therefore says
    [shutdown] false: the port is left enabled.  With an interface type
    outside the table [revert_port] raises [KeyError] and sends nothing. *)
Theorem revert_port_toggles (self : DellNOS9) (port : string)
    (env : Env World) :
  match _convert_interface (interface_type self) with
  | Return prefix =>
      ∃ url env',
        _construct_url self (Some port) "" = Return url
        ∧ revert_port requests_request self port env = (Return (), env')
        ∧ sent env' = sent env ++
            [put_interface self url (prefix +:+ Py.replace "/" "-" port)
               "<portmode><hybrid>false</hybrid></portmode><shutdown>true</shutdown>";
             put_interface self url (prefix +:+ Py.replace "/" "-" port)
               ("<portmode><hybrid>true</hybrid></portmode>" +:+
                "<switchport></switchport><shutdown>false</shutdown>")]
        ∧ Forall (λ rq, ¬ is_vlan_command self rq)
            (drop (length (sent env)) (sent env'))
        ∧ (validate_port_name port = Return () →
           last_shutdown url (sent env') = Some "false")
  | Raise e =>
      revert_port requests_request self port env = (Raise e, env)
  end.
Proof.
  pose proof (_construct_url_Some self port "") as Hurl.
  destruct (_convert_interface (interface_type self)) as [prefix|e] eqn:Hc.
  - destruct Hurl as [url Hurl].
    destruct (_port_shutdown_run self port url prefix env Hurl Hc)
      as (env1 & Hoff & Hsent1).
    destruct (_port_on_run self port url prefix env1 Hurl Hc)
      as (env' & Hon & Hsent').
    exists url, env'. split; [done|].
    unfold revert_port, mbind, Prog_bind. rewrite Hoff, Hon.
    split; [done|]. rewrite Hsent', Hsent1.
    split; [by rewrite <-(assoc_L (++))|]. split.
    + rewrite <-(assoc_L (++)), drop_app_length.
      repeat constructor; by intros [? _].
    + intros Hport%validate_port_name_form.
      apply XmlFacts.last_shutdown_snoc; [done..|].
      apply XmlFacts.xml_text_port_on.
      rewrite PyFacts.contains_app, (XmlFacts.port_name_no_markup port Hport).
      unfold _convert_interface in Hc.
      destruct (iftypes !! interface_type self) as [v|] eqn:Hv; [|done].
      injection Hc as ->. by rewrite (XmlFacts.prefix_no_markup _ _ Hv).
  - unfold revert_port, _port_shutdown, mbind, Prog_bind, lift.
    unfold _construct_url in *.
    destruct (Re.re_match port_pattern port); simpl; by rewrite Hc.
Qed.

(** ** [get_port_networks] *)

Lemma _get_vlans_run (self : DellNOS9) (interface : string)
    (env : Env World) :
  vlans_listed
    (text (answer (show_command self ("interfaces switchport " +:+
                     interface_type self +:+ " " +:+ interface)) env)) →
  ∃ vlans env',
    _get_vlans requests_request self interface env = (Return vlans, env').
Proof.
  intros (i & Hi & [line Hline]).
  unfold _get_vlans, mbind, Prog_bind. simpl.
  rewrite _make_request_run. simpl.
  unfold mbind, Prog_bind.
  match goal with
  | |- context [Py.list_index ?x ?l] =>
      replace (Py.list_index x l) with (Some i) by (symmetry; exact Hi);
      simpl; replace (l !! (i + 3)%nat) with (Some line)
        by (symmetry; exact Hline)
  end.
  simpl. eauto.
Qed.

Lemma get_port_networks_loop_native (self : DellNOS9) (ports : list Port) :
  ∀ acc env response env',
    get_port_networks_loop requests_request self ports acc env
    = (Return response, env') →
    ∀ port,
      port ∈ ports
      ∨ (∃ vlan vlans, acc !! port = Some (("vlan/native", vlan) :: vlans)) →
      ∃ vlan vlans, response !! port = Some (("vlan/native", vlan) :: vlans).
Proof.
  induction ports as [|p ports IH]; intros acc env response env' Hrun port Hport.
  - simpl in Hrun. injection Hrun as <- _.
    destruct Hport as [?%elem_of_nil|?]; done.
  - simpl in Hrun. unfold mbind, Prog_bind in Hrun.
    destruct (_get_native_vlan_run self (port_label p) env)
      as (vlan & env1 & Hnat & _).
    rewrite Hnat in Hrun.
    destruct (_get_vlans requests_request self (port_label p) env1)
      as [[vlans|e] env2]; [|done].
    apply (IH _ _ _ _ Hrun port).
    destruct (decide (port = p)) as [->|Hne].
    + right. exists vlan, vlans. by rewrite lookup_insert_eq.
    + destruct Hport as [Hin|Hacc].
      * left. by apply elem_of_cons in Hin as [?|?].
      * right. by rewrite lookup_insert_ne.
Qed.

Lemma get_port_networks_loop_returns (self : DellNOS9) (ports : list Port) :
  (∀ rq w, vlans_listed (text (requests_request rq w).1)) →
  ∀ acc env, ∃ response env',
    get_port_networks_loop requests_request self ports acc env
    = (Return response, env').
Proof.
  intros Hdev. induction ports as [|p ports IH]; intros acc env; simpl.
  - by eexists _, _.
  - unfold mbind, Prog_bind.
    destruct (_get_native_vlan_run self (port_label p) env)
      as (vlan & env1 & -> & _).
    destruct (_get_vlans_run self (port_label p) env1) as (vlans & env2 & ->);
      [apply Hdev|].
    apply IH.
Qed.

(** C10.  [_get_native_vlan] always returns a pair [("vlan/native", s)],
    never [None], so [filter(None, ...)] keeps it; hence every port that
    [get_port_networks] reports on has a native-VLAN entry at the head of
    its list.  Moreover [get_port_networks] does return whenever the
    device's answers list the VLANs. *)
Theorem get_port_networks_native_entry (self : DellNOS9) :
  (∀ interface env native env',
     _get_native_vlan requests_request self interface env
     = (Return native, env') →
     ∃ vlan, native = Some ("vlan/native", vlan)
             ∧ filter_None [native] = [("vlan/native", vlan)])
  ∧ (∀ interface env, ∃ native env',
       _get_native_vlan requests_request self interface env
       = (Return native, env'))
  ∧ (∀ ports env response env',
       get_port_networks requests_request self ports env
       = (Return response, env') →
       ∀ port, port ∈ ports →
         ∃ vlan vlans,
           response !! port = Some (("vlan/native", vlan) :: vlans))
  ∧ ((∀ rq w, vlans_listed (text (requests_request rq w).1)) →
     ∀ ports env, ∃ response env',
       get_port_networks requests_request self ports env
       = (Return response, env')).
Proof.
  split_and!.
  - intros interface env native env' Hrun.
    destruct (_get_native_vlan_run self interface env)
      as (vlan & env1 & Hnat & _).
    rewrite Hnat in Hrun. injection Hrun as <- _. by exists vlan.
  - intros interface env.
    destruct (_get_native_vlan_run self interface env)
      as (vlan & env1 & Hnat & _).
    eauto.
  - intros ports env response env' Hrun port Hport.
    apply (get_port_networks_loop_native self ports ∅ env response env' Hrun).
    by left.
  - intros Hdev ports env. by apply get_port_networks_loop_returns.
Qed.

End DriverFacts.

(** C3, as stated, fails: after [revert_port] on port ["1/0/1"] of the
    lab switch, the last interface resource the device got for that port
    says [shutdown] false, so the port is left enabled, not disabled.
    And on a switch whose interface type is not in the table,
    [revert_port] toggles nothing: it raises [KeyError]. *)
Lemma revert_port_leaves_port_enabled :
  (last_shutdown
     "http://switch/api/running/dell/interfaces/interface/gige-1-0-1"
     (sent (revert_port (Lab.device 200 "") Lab.switch "1/0/1" Lab.env0).2)
   = Some "false"
   ∧ ¬ left_disabled
         "http://switch/api/running/dell/interfaces/interface/gige-1-0-1"
         (sent (revert_port (Lab.device 200 "") Lab.switch "1/0/1"
                  Lab.env0).2))
  ∧ revert_port (Lab.device 200 "")
      (MkDellNOS9 "http://switch" "admin" "secret" "Ethernet" []) "1/0/1"
      Lab.env0
    = (Raise (KeyError "Ethernet"), Lab.env0).
Proof.
  assert (last_shutdown
            "http://switch/api/running/dell/interfaces/interface/gige-1-0-1"
            (sent (revert_port (Lab.device 200 "") Lab.switch "1/0/1"
                     Lab.env0).2)
          = Some "false") as Hlast by (vm_compute; reflexivity).
  split; [split; [done|]|by vm_compute].
  unfold left_disabled. rewrite Hlast. done.
Qed.

(** ** The driver on the lab switch *)

(** The port configuration read from the sample answer. *)
Example get_port_networks_lab :
  (get_port_networks (Lab.device 200 Lab.switchport_text) Lab.switch
     [MkPort 1 "1/3"] Lab.env0).1
  = Return {[ MkPort 1 "1/3" :=
                [("vlan/native", "1"); ("vlan/2", "2"); ("vlan/3", "3")] ]}.
Proof. vm_compute. reflexivity. Qed.

(** An answer without a native VLAN still gives a native entry. *)
Example _get_native_vlan_lab_empty :
  (_get_native_vlan (Lab.device 200 "") Lab.switch "1/3" Lab.env0).1
  = Return (Some ("vlan/native", "")).
Proof. vm_compute. reflexivity. Qed.

(** A refused request is printed and logged, and its response returned. *)
Example _make_request_lab_refused :
  _make_request (Lab.device 404 "no such resource") Lab.switch "GET"
    "http://switch/x" None [] Lab.env0
  = (Return (Response 404 "no such resource"),
     MkEnv 1%nat
       [Request "GET" "http://switch/x" None ("admin", "secret")]
       ["no such resource"]
       ["Bad Request to switch. Response: no such resource"]).
Proof. vm_compute. reflexivity. Qed.

(** Witnesses on the lab switch. *)


Lemma modify_port_tagged_witness :
  modify_port (Lab.device 200 "") Lab.switch "1/3" "vlan/52" (Some "7")
    Lab.env0 = (Raise (AssertionError ""), Lab.env0).
Proof.
  refine (proj1 (proj2 (proj2 (modify_port_tagged (Lab.device 200 "")
                                 Lab.switch "1/3" "52" "7" Lab.env0 _)
                          (MkPort 1 "1/3") _)) _).
  - split; [discriminate|reflexivity].
  - reflexivity.
  - discriminate.
Defined.

(** * More of the driver *)

(** ** Reading the answers of the switch *)

Module ParseFacts.
Import PyFacts.
Local Arguments String.append !_ _ / : simpl nomatch.

Lemma list_index_None (x : string) (l : list string) :
  Py.list_index x l = None ↔ x ∉ l.
Proof.
  induction l as [|y l IH]; simpl.
  - split; [intros _; apply not_elem_of_nil|done].
  - rewrite not_elem_of_cons. case_decide as Hy.
    + split; [done|]. intros [? _]. by subst.
    + rewrite fmap_None, IH. split; [by intros ?; split; [congruence|]|by intros [_ ?]].
Qed.

Lemma list_index_first (x : string) (pre post : list string) :
  x ∉ pre → Py.list_index x (pre ++ x :: post) = Some (length pre).
Proof.
  induction pre as [|y pre IH]; simpl.
  - intros _. by rewrite decide_True.
  - intros [Hy Hpre]%not_elem_of_cons. rewrite decide_False by done.
    by rewrite IH.
Qed.

Lemma rev_app_append (a b x : string) :
  String.rev_app a b +:+ x = String.rev_app a (b +:+ x).
Proof. revert b. induction a as [|c a IH]; intros b; simpl; [done|apply IH]. Qed.

Lemma rev_cons_append (c : ascii) (cur x : string) :
  String.rev (String c cur) +:+ x = String.rev cur +:+ String c x.
Proof. unfold String.rev. simpl. by rewrite !rev_app_append. Qed.

Lemma contains_rev_app (c : ascii) (a b : string) :
  Py.contains c (String.rev_app a b) = Py.contains c a || Py.contains c b.
Proof.
  revert b. induction a as [|c' a IH]; intros b; simpl; [done|].
  rewrite IH. simpl. destruct (bool_decide (c' = c)), (Py.contains c a); done.
Qed.

Lemma contains_rev (c : ascii) (a : string) :
  Py.contains c (String.rev a) = Py.contains c a.
Proof. unfold String.rev. by rewrite contains_rev_app, orb_false_r. Qed.

(** The pieces of a split hold no separator, and only characters of the
    text. *)
Lemma split_go_no_sep (sep : ascii) (s : string) :
  ∀ cur, Py.contains sep cur = false →
    Forall (λ x, Py.contains sep x = false) (Py.split_go sep cur s).
Proof.
  induction s as [|c s IH]; intros cur Hcur; simpl.
  - constructor; [by rewrite contains_rev|constructor].
  - case_decide as Hc.
    + constructor; [by rewrite contains_rev|]. by apply IH.
    + apply IH. simpl. rewrite Hcur, orb_false_r.
      by apply bool_decide_eq_false.
Qed.

Lemma split_go_pieces (c sep : ascii) (s : string) :
  ∀ cur, Py.contains c cur = false → Py.contains c s = false →
    Forall (λ x, Py.contains c x = false) (Py.split_go sep cur s).
Proof.
  induction s as [|c' s IH]; intros cur Hcur Hs; simpl.
  - constructor; [by rewrite contains_rev|constructor].
  - simpl in Hs. apply orb_false_iff in Hs as [Hc' Hs].
    destruct (decide (c' = sep)).
    + constructor; [by rewrite contains_rev|]. by apply IH.
    + apply IH; [|done]. simpl. by rewrite Hc', Hcur.
Qed.

Lemma split_go_nonempty (sep : ascii) (s cur : string) :
  Py.split_go sep cur s ≠ [].
Proof.
  revert cur. induction s as [|c s IH]; intros cur; simpl; [done|].
  case_decide; [done|apply IH].
Qed.

Lemma splitlines_go_pieces (c : ascii) (s : string) :
  ∀ after_cr cur, Py.contains c cur = false → Py.contains c s = false →
    Forall (λ x, Py.contains c x = false) (Py.splitlines_go after_cr cur s).
Proof.
  induction s as [|c' s IH]; intros after_cr cur Hcur Hs; simpl.
  - destruct cur; [constructor|].
    constructor; [by rewrite contains_rev|constructor].
  - simpl in Hs. apply orb_false_iff in Hs as [Hc' Hs].
    destruct (after_cr && bool_decide (c' = Py.newline)); [by apply IH|].
    destruct (Py.is_linebreak c').
    + constructor; [by rewrite contains_rev|]. by apply IH.
    + apply IH; [|done]. simpl. by rewrite Hc', Hcur.
Qed.

Lemma contains_replace_removed (c : ascii) (s : string) :
  Py.contains c (Py.replace c "" s) = false.
Proof.
  induction s as [|c' s IH]; simpl; [done|].
  case_decide as Hc; simpl; [done|].
  rewrite IH, orb_false_r. by apply bool_decide_eq_false.
Qed.

Lemma contains_replace_other (c old : ascii) (s : string) :
  Py.contains c s = false → Py.contains c (Py.replace old "" s) = false.
Proof.
  induction s as [|c' s IH]; simpl; [done|].
  intros [Hc' Hs]%orb_false_iff.
  destruct (decide (c' = old)); simpl; [by apply IH|].
  by rewrite Hc', IH.
Qed.

Lemma replace_absent (c : ascii) (new s : string) :
  Py.contains c s = false → Py.replace c new s = s.
Proof.
  induction s as [|c' s IH]; simpl; [done|].
  intros [Hc' Hs]%orb_false_iff. apply bool_decide_eq_false in Hc'.
  rewrite decide_False by done. by rewrite IH.
Qed.

(** Splitting undoes joining. *)
Lemma split_go_plain (sep : ascii) (x : string) :
  ∀ cur, Py.contains sep x = false →
    Py.split_go sep cur x = [String.rev cur +:+ x].
Proof.
  induction x as [|c x IH]; intros cur Hx; simpl.
  - by rewrite app_nil_r.
  - simpl in Hx. apply orb_false_iff in Hx as [Hc Hx].
    apply bool_decide_eq_false in Hc. rewrite decide_False by done.
    by rewrite IH, rev_cons_append.
Qed.

Lemma split_go_piece (sep : ascii) (x rest : string) :
  ∀ cur, Py.contains sep x = false →
    Py.split_go sep cur (x +:+ String sep rest)
    = (String.rev cur +:+ x) :: Py.split_go sep "" rest.
Proof.
  induction x as [|c x IH]; intros cur Hx; simpl.
  - rewrite decide_True by done. by rewrite app_nil_r.
  - simpl in Hx. apply orb_false_iff in Hx as [Hc Hx].
    apply bool_decide_eq_false in Hc. rewrite decide_False by done.
    by rewrite IH, rev_cons_append.
Qed.

Lemma split_comma_join (x : string) (ids : list string) :
  Forall (λ id, Py.contains "," id = false) (x :: ids) →
  Py.split "," (comma_join (x :: ids)) = x :: ids.
Proof.
  unfold Py.split. revert x. induction ids as [|y ids IH]; intros x Hids.
  - apply Forall_cons in Hids as [Hx _]. simpl. by rewrite split_go_plain.
  - apply Forall_cons in Hids as [Hx Hids].
    change (comma_join (x :: y :: ids))
      with (x +:+ String "," (comma_join (y :: ids))).
    rewrite split_go_piece by done. by rewrite IH.
Qed.

Lemma contains_comma_join (c : ascii) (ids : list string) :
  c ≠ ","%char →
  Forall (λ id, Py.contains c id = false) ids →
  Py.contains c (comma_join ids) = false.
Proof.
  intros Hc. induction ids as [|x ids IH]; [done|].
  intros [Hx Hids]%Forall_cons. destruct ids as [|y ids]; [done|].
  change (comma_join (x :: y :: ids))
    with (x +:+ String "," (comma_join (y :: ids))).
  rewrite contains_app, Hx.
  change (Py.contains c (String "," (comma_join (y :: ids))))
    with (bool_decide (","%char = c) || Py.contains c (comma_join (y :: ids))).
  rewrite (IH Hids), orb_false_r. simpl.
  apply bool_decide_eq_false. congruence.
Qed.

(** Characters of a substring are characters of the text. *)
Lemma contains_get (c : ascii) (s : string) :
  Py.contains c s = true ↔ ∃ p, String.get p s = Some c.
Proof.
  induction s as [|c' s IH]; simpl.
  - split; [done|]. by intros [? ?].
  - rewrite orb_true_iff, bool_decide_eq_true, IH. split.
    + intros [->|[p Hp]]; [by exists O|by exists (S p)].
    + intros [[|p] Hp]; [left; congruence|right; eauto].
Qed.

Lemma get_substring1 (p : nat) (s : string) (c : ascii) :
  String.get p s = Some c → String.substring p 1 s = String c "".
Proof.
  revert p. induction s as [|c' s IH]; intros [|p]; simpl; try done.
  - intros [= ->]. by destruct s.
  - apply IH.
Qed.

Lemma contains_substring_range (c : ascii) (b l : nat) (s : string) :
  (∀ p, (b ≤ p < b + l)%nat → String.get p s ≠ Some c) →
  Py.contains c (String.substring b l s) = false.
Proof.
  intros Hrange. apply not_true_is_false. intros [p Hp]%contains_get.
  destruct (decide (p < l)%nat) as [Hlt|Hge].
  - rewrite substring_correct1 in Hp by done.
    apply (Hrange (p + b)%nat); [lia|done].
  - rewrite substring_correct2 in Hp by lia. done.
Qed.

Lemma contains_substring (c : ascii) (b l : nat) (s : string) :
  Py.contains c s = false → Py.contains c (String.substring b l s) = false.
Proof.
  intros Hs. apply contains_substring_range. intros p _ Hp.
  assert (Py.contains c s = true) by (apply contains_get; eauto).
  congruence.
Qed.

Lemma index_le (n m : nat) (pat s : string) :
  String.index n pat s = Some m → (n ≤ m)%nat.
Proof.
  revert n m. induction s as [|c s IH]; intros n m; simpl.
  - destruct n; [|done]. destruct pat; [|done]. intros [= <-]. lia.
  - destruct n as [|n].
    + lia.
    + destruct (String.index n pat s) as [k|] eqn:Hk; [|done].
      intros [= <-]. apply IH in Hk. lia.
Qed.

Lemma index_head_char (c : ascii) (s : string) :
  String.index 0 (String c "") (String c s) = Some O.
Proof.
  simpl. destruct (ascii_dec c c); [|done]. by destruct s.
Qed.

(** What [s[b:s.find(c, b)]] holds: no [c]. *)
Lemma slice_find_clean (c : ascii) (s : string) (b : Z) :
  0 ≤ b →
  Py.contains c (Py.slice b (Py.find (String c "") b s) s) = false.
Proof.
  intros Hb. unfold Py.slice, Py.find, Py.clip, Py.len.
  destruct (Z.ltb_spec b 0) as [?|_]; [lia|].
  destruct (String.index (Z.to_nat b) (String c "") s) as [e|] eqn:He.
  - pose proof (index_le _ _ _ _ He) as Hle.
    destruct (Z.ltb_spec (Z.of_nat e) 0) as [?|_]; [lia|].
    apply contains_substring_range. intros p Hp Hget.
    apply get_substring1 in Hget.
    apply (index_correct2 _ _ _ _ He p); [lia|lia|done].
  - change (-1 <? 0) with true. cbv iota.
    apply contains_substring_range. intros p Hp Hget.
    apply get_substring1 in Hget.
    apply (index_correct3 _ p _ _ He); [done|lia|done].
Qed.

(** What [s[b:s.find(c, b)]] is when [b] is where a text without [c]
    starts and a [c] follows it. *)
Lemma slice_find_reads (c : ascii) (a v post : string) :
  Py.contains c v = false →
  Py.slice (Py.len a)
    (Py.find (String c "") (Py.len a) (a +:+ v +:+ String c post))
    (a +:+ v +:+ String c post)
  = v.
Proof.
  intros Hv. unfold Py.find, Py.len.
  replace (Z.to_nat (Z.of_nat (String.length a)))
    with (String.length a + 0)%nat by lia.
  rewrite index_shift, (index_skip c "" v (String c post) Hv).
  rewrite index_head_char.
  change ((λ i, (String.length a + i)%nat) <$>
            ((λ i, (String.length v + i)%nat) <$> Some O))
    with (Some (String.length a + (String.length v + 0))%nat).
  cbv iota. unfold Py.slice, Py.clip, Py.len.
  rewrite !length_app.
  change (String.length (String c post)) with (S (String.length post)).
  generalize (String.length post). intros k.
  destruct (Z.ltb_spec (Z.of_nat (String.length a)) 0); [lia|].
  destruct (Z.ltb_spec
              (Z.of_nat (String.length a + (String.length v + 0))) 0); [lia|].
  match goal with
  | |- String.substring ?b ?l _ = _ =>
      replace b with (String.length a + 0)%nat by lia;
      replace l with (String.length v) by lia
  end.
  rewrite substring_shift. apply substring_prefix.
Qed.

(** The text between the first [NativeVlanId:] and the full stop after
    it. *)
Lemma native_vlan_slice (response pre v post : string) :
  response = pre +:+ "NativeVlanId:" +:+ v +:+ "." +:+ post →
  Py.find "NativeVlanId:" 0 response = Py.len pre →
  Py.contains "." v = false →
  Py.slice (Py.find "NativeVlanId:" 0 response + 13)
    (Py.find "." (Py.find "NativeVlanId:" 0 response + 13) response) response
  = v.
Proof.
  intros Hresp Hfind Hv. rewrite Hfind.
  replace (Py.len pre + 13) with (Py.len (pre +:+ "NativeVlanId:"))
    by (unfold Py.len; rewrite length_app; simpl; lia).
  rewrite Hresp, <-app_assoc.
  change ("." +:+ post) with (String "." post).
  apply (slice_find_reads "." _ v post Hv).
Qed.

End ParseFacts.

(** ** Addresses *)

Module UrlFacts.
Import PyFacts.
Local Arguments String.append !_ _ / : simpl nomatch.

Lemma app_inv_tail (x y s : string) : x +:+ s = y +:+ s → x = y.
Proof.
  intros Heq.
  assert (String.length x = String.length y) as Hlen.
  { apply (f_equal String.length) in Heq. rewrite !length_app in Heq. lia. }
  revert y Heq Hlen. induction x as [|c x IH]; intros [|c' y] Heq Hlen;
    simplify_eq/=; [done|].
  f_equal. by apply IH.
Qed.

Lemma replace_char_inj (old new : ascii) (a b : string) :
  Py.contains new a = false → Py.contains new b = false →
  Py.replace old (String new "") a = Py.replace old (String new "") b →
  a = b.
Proof.
  revert b. induction a as [|c a IH]; intros b Ha Hb Heq.
  - apply (f_equal String.length) in Heq.
    rewrite !replace_char_length in Heq. by destruct b.
  - destruct b as [|c' b].
    { apply (f_equal String.length) in Heq.
      by rewrite !replace_char_length in Heq. }
    simpl in Ha, Hb.
    apply orb_false_iff in Ha as [Hc Ha], Hb as [Hc' Hb].
    apply bool_decide_eq_false in Hc, Hc'.
    simpl in Heq.
    destruct (decide (c = old)), (decide (c' = old)); simplify_eq/=;
      f_equal; by apply IH.
Qed.

Lemma digits_no_dash (a : string) :
  Re.all_digits a = true → Py.contains "-" a = false.
Proof.
  induction a as [|c a IH]; simpl; [done|].
  intros [Hc Ha]%andb_true_iff. rewrite (IH Ha), orb_false_r.
  apply bool_decide_eq_false. intros ->. discriminate Hc.
Qed.

Lemma port_name_no_dash (port : string) :
  port_name_form port → Py.contains "-" port = false.
Proof.
  intros (a & b & tail & [_ Ha] & [_ Hb] & Htail & Hport).
  assert (Py.contains "-" tail = false) as Ht
    by (by destruct Htail as [-> | ->]).
  pose proof (digits_no_dash a Ha) as Ha'.
  pose proof (digits_no_dash b Hb) as Hb'.
  destruct Hport as [-> | (c & [_ Hc] & ->)];
    rewrite !contains_app, Ht, Ha', Hb';
    [|rewrite (digits_no_dash c Hc)]; reflexivity.
Qed.

(** No physical interface prefix starts like [vlan-]. *)
Lemma prefix_not_vlan (t prefix x y : string) :
  iftypes !! t = Some prefix → prefix +:+ x ≠ "vlan-" +:+ y.
Proof.
  intros Hin%iftypes_lookup.
  repeat (apply elem_of_cons in Hin as [[= -> ->]|Hin]; [by simpl|]).
  by apply elem_of_nil in Hin.
Qed.

End UrlFacts.

(** X12.  Two interface names with the same URL are the same name:
    [_construct_url] is injective in the interface, across port names
    (slashes turned into dashes) and other names (prefixed [vlan-]). *)
Theorem _construct_url_injective (self : DellNOS9) (a b suffix url : string) :
  _construct_url self (Some a) suffix = Return url →
  _construct_url self (Some b) suffix = Return url →
  a = b.
Proof.
  unfold _construct_url, _convert_interface.
  destruct (Re.re_match port_pattern a) as [ga|] eqn:Ha,
           (Re.re_match port_pattern b) as [gb|] eqn:Hb; simpl;
    destruct (iftypes !! interface_type self) as [prefix|] eqn:Hp; simpl;
    try done; intros [= <-] [= Heq];
    do 2 apply (inj (String.append _)) in Heq.
  - apply (inj (String.append _)), UrlFacts.app_inv_tail in Heq.
    apply UrlFacts.replace_char_inj in Heq; [done| |];
      apply UrlFacts.port_name_no_dash, validate_port_name_form;
      unfold validate_port_name; by rewrite ?Ha, ?Hb.
  - symmetry in Heq. by destruct (UrlFacts.prefix_not_vlan _ _ _ _ Hp Heq).
  - by destruct (UrlFacts.prefix_not_vlan _ _ _ _ Hp Heq).
  - by apply (inj (String.append _)), UrlFacts.app_inv_tail in Heq.
  - by apply (inj (String.append _)), UrlFacts.app_inv_tail in Heq.
Qed.

(** X13.  [_construct_url] raises only [KeyError], and only for a valid
    port name on a switch whose interface type is outside the table.  A
    name that [validate_port_name] rejects never fails: it is addressed
    as a VLAN, the name unchanged, whatever the interface type. *)
Theorem _construct_url_raises (self : DellNOS9) (interface : option string)
    (suffix : string) :
  (∀ e,
     _construct_url self interface suffix = Raise e
     ↔ (∃ name,
          interface = Some name
          ∧ port_name_form name
          ∧ (interface_type self ∉
               ["GigabitEthernet"; "TenGigabitEthernet";
                "TwentyfiveGigabitEthernet"; "fortyGigE"; "peGigabitEthernet";
                "FiftyGigabitEthernet"; "HundredGigabitEthernet"])
          ∧ e = KeyError (interface_type self)))
  ∧ (∀ name,
       interface = Some name →
       validate_port_name name ≠ Return () →
       _construct_url self interface suffix
       = Return (hostname self +:+ "/api/running/dell/interfaces/interface/"
                 +:+ "vlan-" +:+ name +:+
                 (if decide (suffix = "") then "" else "/" +:+ suffix))).
Proof.
  split.
  - intros e. split.
    + destruct interface as [name|]; [|done]. intros Hrun. exists name.
      rewrite <-validate_port_name_form, <-iftypes_lookup_None.
      unfold validate_port_name.
      revert Hrun. unfold _construct_url, _convert_interface.
      destruct (Re.re_match port_pattern name); [|done]. simpl.
      destruct (iftypes !! interface_type self); [done|].
      by intros [= <-].
    + intros (name & -> & Hname%validate_port_name_form
                   & Hno%iftypes_lookup_None & ->).
      by rewrite (_construct_url_port self name suffix Hname), Hno.
  - intros name -> Hname. revert Hname.
    unfold validate_port_name, _construct_url.
    by destruct (Re.re_match port_pattern name).
Qed.

Section DriverCalls.
Context {World : Type}.
Variable requests_request : request → World → response * World.

Abbreviation answer rq env := (requests_request rq (world env)).1.

Abbreviation cli self := (hostname self +:+ "/api/running/dell/_operations/cli").

Abbreviation config_command self command :=
  (Request "POST" (cli self)
     (Some ("<input><config-commands>" +:+ command +:+
            "</config-commands></input>"))
     (username self, password self)).

Abbreviation show_command self command :=
  (Request "POST" (cli self)
     (Some ("<input><show-command>" +:+ command +:+
            "</show-command></input>"))
     (username self, password self)).

Abbreviation switchport self interface :=
  (show_command self
     ("interfaces switchport " +:+ interface_type self +:+ " " +:+ interface)).

Abbreviation put_interface self url name body :=
  (Request "PUT" url
     (Some ("<interface><name>" +:+ name +:+ "</name>" +:+ body +:+
            "</interface>"))
     (username self, password self)).

(** ** [modify_port]: ports and channels *)

(** X1.  [modify_port] unpacks the Ports whose label is the given one
    into a one-element tuple: when no Port of the switch, or more than
    one, has the label, it raises [ValueError] before anything is sent,
    whatever the channel and the network. *)
Theorem modify_port_unknown_port (self : DellNOS9) (port channel : string)
    (network_id : option string) (env : Env World) :
  length (filter (λ q, port_label q = port) (ports self)) ≠ 1%nat →
  modify_port requests_request self port channel network_id env
  = (Raise ValueError, env).
Proof.
  intros Hlen. unfold modify_port, mbind, Prog_bind.
  by destruct (filter _ (ports self)) as [|p [|??]].
Qed.

(** A channel that starts with [vlan/] and a digit is not the native
    channel. *)
Lemma tagged_rest_not_native (id rest : string) :
  Re.digits1 id → "vlan/" +:+ id +:+ rest ≠ "vlan/native".
Proof.
  intros [Hne Hd] Heq. destruct id as [|c id]; [done|].
  change ("vlan/" +:+ String c id +:+ rest)
    with (String "v" (String "l" (String "a" (String "n" (String "/"
            (String c (id +:+ rest))))))) in Heq.
  by simplify_eq.
Qed.

Lemma modify_port_channel_run (self : DellNOS9) (port id rest : string)
    (network_id : option string) (env : Env World) :
  Re.digits1 id →
  (if rest is String c _ then Re.is_digit c = false else True) →
  modify_port requests_request self port ("vlan/" +:+ id +:+ rest)
    network_id env
  = match filter (λ q, port_label q = port) (ports self) with
    | [p] =>
        match network_id with
        | None =>
            _remove_vlan_from_trunk requests_request self (port_label p) id env
        | Some network_id =>
            if decide (network_id = id)
            then _add_vlan_to_trunk requests_request self (port_label p) id env
            else (Raise (AssertionError ""), env)
        end
    | _ => (Raise ValueError, env)
    end.
Proof.
  intros Hid Hrest. unfold modify_port, mbind, Prog_bind.
  destruct (filter _ (ports self)) as [|p [|??]]; try done. simpl.
  rewrite decide_False by by apply tagged_rest_not_native.
  rewrite (PatternFacts.re_match_channel id rest Hid Hrest). simpl.
  destruct network_id as [n|]; [|done]. by case_decide.
Qed.

Lemma channel_pattern_accepts (channel : string) :
  is_Some (Re.re_match channel_pattern channel)
  ↔ ∃ id rest, Re.digits1 id ∧ channel = "vlan/" +:+ id +:+ rest.
Proof.
  split.
  - intros [g Hm].
    apply PatternFacts.re_match_channel_inv in Hm as (id & rest & ? & ? & _).
    eauto.
  - intros (id & rest & [Hne Hd] & ->). apply ReFacts.re_match_accepts.
    exists ("vlan/" +:+ id), rest. split.
    + by rewrite !PyFacts.app_assoc.
    + unfold channel_pattern.
      apply (Re.lang_seq _ _ _ "v" ("lan/" +:+ id)); [constructor|].
      apply (Re.lang_seq _ _ _ "l" ("an/" +:+ id)); [constructor|].
      apply (Re.lang_seq _ _ _ "a" ("n/" +:+ id)); [constructor|].
      apply (Re.lang_seq _ _ _ "n" ("/" +:+ id)); [constructor|].
      apply (Re.lang_seq _ _ _ "/" id); [constructor|].
      by do 2 constructor.
Qed.

(** X2.  On a port of the switch, [modify_port] fails with the assertion
    message about an invalid channel exactly for the channels that are
    neither ["vlan/native"] nor [vlan/] followed by a digit; it then has
    sent nothing. *)
Theorem modify_port_invalid_channel (self : DellNOS9) (port channel : string)
    (p : Port) (network_id : option string) (env : Env World) :
  filter (λ q, port_label q = port) (ports self) = [p] →
  ((modify_port requests_request self port channel network_id env).1
   = Raise (AssertionError "HIL passed an invalid channel to the switch!")
   ↔ channel ≠ "vlan/native"
     ∧ ¬ ∃ id rest, Re.digits1 id ∧ channel = "vlan/" +:+ id +:+ rest)
  ∧ (channel ≠ "vlan/native" →
     (¬ ∃ id rest, Re.digits1 id ∧ channel = "vlan/" +:+ id +:+ rest) →
     modify_port requests_request self port channel network_id env
     = (Raise (AssertionError "HIL passed an invalid channel to the switch!"),
        env)).
Proof.
  intros Hf.
  assert (channel ≠ "vlan/native" →
     (¬ ∃ id rest, Re.digits1 id ∧ channel = "vlan/" +:+ id +:+ rest) →
     modify_port requests_request self port channel network_id env
     = (Raise (AssertionError "HIL passed an invalid channel to the switch!"),
        env)) as Hbad.
  { intros Hnat Hno. unfold modify_port, mbind, Prog_bind. rewrite Hf. simpl.
    rewrite decide_False by done.
    destruct (Re.re_match channel_pattern channel) as [g|] eqn:Hm; [|done].
    destruct Hno.
    apply PatternFacts.re_match_channel_inv in Hm as (id & rest & ? & ? & _).
    eauto. }
  split; [|done]. split.
  - intros Hrun. split.
    + intros ->. revert Hrun. unfold modify_port, mbind, Prog_bind.
      rewrite Hf. simpl.
      destruct network_id as [n|].
      * destruct (_set_native_vlan_run requests_request self (port_label p)
                    n env) as (env' & -> & _). done.
      * destruct (_remove_native_vlan_run requests_request self
                    (port_label p) env) as (? & ? & env' & _ & -> & _). done.
    + intros (id & rest & Hid & ->). revert Hrun.
      unfold modify_port, mbind, Prog_bind. rewrite Hf. simpl.
      rewrite decide_False by by apply tagged_rest_not_native.
      destruct (Re.re_match channel_pattern _) as [g|] eqn:Hm.
      * apply PatternFacts.re_match_channel_inv in Hm
          as (id' & rest' & ? & ? & ->). simpl.
        destruct network_id as [n|].
        -- case_decide; simpl; [|done].
           destruct (_add_vlan_to_trunk_run requests_request self
                       (port_label p) id' env) as (env' & -> & _). done.
        -- destruct (_remove_vlan_from_trunk_run requests_request self
                       (port_label p) id' env) as (env' & -> & _). done.
      * assert (is_Some (Re.re_match channel_pattern
                             ("vlan/" +:+ id +:+ rest))) as [? Hsome]
          by (apply channel_pattern_accepts; eauto).
        by rewrite Hm in Hsome.
  - intros [Hnat Hno]. by rewrite Hbad.
Qed.

(** X3.  On a tagged channel and without a network, [modify_port] posts
    the one command that takes the VLAN of the channel off the trunk
    ([no tagged]).  The VLAN is the run of digits after [vlan/]; what
    follows the digits is not looked at. *)
Theorem modify_port_tagged_removal (self : DellNOS9) (port id rest : string)
    (p : Port) (env : Env World) :
  filter (λ q, port_label q = port) (ports self) = [p] →
  Re.digits1 id →
  (if rest is String c _ then Re.is_digit c = false else True) →
  ∃ env',
    modify_port requests_request self port ("vlan/" +:+ id +:+ rest) None env
    = (Return (), env')
    ∧ sent env' = sent env ++
        [config_command self ("interface vlan " +:+ id +:+ CRLF +:+
           " no tagged " +:+ interface_type self +:+ " " +:+ port)].
Proof.
  intros Hf Hid Hrest.
  rewrite (modify_port_channel_run self port id rest None env Hid Hrest), Hf.
  rewrite (filter_label_singleton _ _ _ Hf).
  apply _remove_vlan_from_trunk_run.
Qed.

(** X4.  The channel pattern is matched at the start of the channel and
    is not anchored at its end: text after the digits changes nothing, so
    ["vlan/52abc"] is handled exactly as ["vlan/52"]. *)
Theorem modify_port_channel_prefix (self : DellNOS9) (port id rest : string)
    (network_id : option string) (env : Env World) :
  Re.digits1 id →
  (if rest is String c _ then Re.is_digit c = false else True) →
  modify_port requests_request self port ("vlan/" +:+ id +:+ rest)
    network_id env
  = modify_port requests_request self port ("vlan/" +:+ id) network_id env.
Proof.
  intros Hid Hrest.
  rewrite (modify_port_channel_run self port id rest network_id env Hid Hrest).
  pose proof (modify_port_channel_run self port id "" network_id env Hid I)
    as Hrun.
  rewrite PyFacts.app_nil_r in Hrun. by rewrite Hrun.
Qed.

(** X6.  No caller passes an allow-list of status codes.  When the
    switch answers the [tagged] command with a status of 400 or more,
    [modify_port] still returns normally; the refusal shows only as one
    printed line and one error-log entry.  Below 400 nothing is printed
    or logged. *)
Theorem modify_port_refused_command (self : DellNOS9) (port id : string)
    (p : Port) (env : Env World) :
  filter (λ q, port_label q = port) (ports self) = [p] →
  Re.digits1 id →
  let r := answer (config_command self ("interface vlan " +:+ id +:+ CRLF +:+
                     " tagged " +:+ interface_type self +:+ " " +:+ port))
             env in
  ∃ env',
    modify_port requests_request self port ("vlan/" +:+ id) (Some id) env
    = (Return (), env')
    ∧ (status_code r >= 400 →
       errlog env'
       = errlog env ++ ["Bad Request to switch. Response: " +:+ text r]
       ∧ stdout env' = stdout env ++ [text r])
    ∧ (status_code r < 400 →
       errlog env' = errlog env ∧ stdout env' = stdout env).
Proof.
  intros Hf Hid r.
  pose proof (modify_port_channel_run self port id "" (Some id) env Hid I)
    as Hrun.
  rewrite PyFacts.app_nil_r in Hrun. rewrite Hrun, Hf.
  rewrite (filter_label_singleton _ _ _ Hf), decide_True by done.
  unfold _add_vlan_to_trunk, mbind, Prog_bind. simpl.
  rewrite _make_request_run. simpl. fold r.
  eexists. split; [done|]. simpl.
  rewrite andb_true_r. split; intros Hs.
  - by rewrite bool_decide_eq_true_2.
  - rewrite bool_decide_eq_false_2; [done|]. intros Hge. by apply Hge.
Qed.

(** X20.  [modify_port] sends nothing but POSTs to the CLI endpoint (it
    never PUTs an interface resource), at most two of them, and two only
    when it removes the native VLAN of a port of the switch: the [show]
    request that finds the VLAN, then the command. *)
Theorem modify_port_request_count (self : DellNOS9) (port channel : string)
    (network_id : option string) (env : Env World) :
  ∃ rqs,
    sent (modify_port requests_request self port channel network_id env).2
    = sent env ++ rqs
    ∧ Forall (is_vlan_command self) rqs
    ∧ (length rqs ≤ 2)%nat
    ∧ (length rqs = 2%nat
       ↔ channel = "vlan/native" ∧ network_id = None
         ∧ ∃ p, filter (λ q, port_label q = port) (ports self) = [p]).
Proof.
  assert (∀ env0 : Env World,
            ∃ rqs : list request,
              sent env0 = sent env0 ++ rqs
              ∧ Forall (is_vlan_command self) rqs
              ∧ (length rqs ≤ 2)%nat ∧ length rqs ≠ 2%nat) as Hnil.
  { intros env0. exists []. rewrite (right_id_L [] (++)).
    split_and!; [done|constructor|simpl; lia|done]. }
  assert (∀ (m : Prog (Env World) unit) command,
            (∃ env', m env = (Return (), env')
                     ∧ sent env' = sent env ++ [config_command self command]) →
            ∃ rqs, sent (m env).2 = sent env ++ rqs
                   ∧ Forall (is_vlan_command self) rqs
                   ∧ (length rqs ≤ 2)%nat ∧ length rqs ≠ 2%nat) as Hone.
  { intros m command (env' & -> & Hsent). eexists. split; [exact Hsent|].
    split_and!; [by repeat constructor|simpl; lia|done]. }
  unfold modify_port, mbind, Prog_bind.
  destruct (filter _ (ports self)) as [|p [|??]] eqn:Hf; simpl.
  - destruct (Hnil env) as (rqs & ? & ? & ? & ?). exists rqs.
    split_and!; try done. split; [done|]. by intros (_ & _ & ? & ?).
  - case_decide as Hch.
    + destruct network_id as [n|].
      * destruct (Hone (_set_native_vlan requests_request self (port_label p) n)
                    _ (_set_native_vlan_run requests_request self
                         (port_label p) n env)) as (rqs & ? & ? & ? & ?).
        exists rqs. split_and!; try done. split; [done|].
        by intros (_ & ? & _).
      * destruct (_remove_native_vlan_run requests_request self (port_label p)
                    env) as (vlan & env1 & env' & _ & -> & Hsent).
        eexists. split; [exact Hsent|].
        split_and!; [by repeat constructor|simpl; lia|]. split; [|done].
        intros _. split_and!; eauto.
    + assert (∀ rqs : list request, length rqs ≠ 2%nat →
                length rqs = 2%nat
                ↔ channel = "vlan/native" ∧ network_id = None
                  ∧ ∃ p0, [p] = [p0]) as Hiff
        by (intros rqs ?; split; [done|by intros (? & _)]).
      destruct (Re.re_match channel_pattern channel) as [g|]; simpl.
      2: { destruct (Hnil env) as (rqs & ? & ? & ? & ?). exists rqs.
           split_and!; try done. by apply Hiff. }
      destruct (g !! 0%nat) as [[v|]|]; simpl.
      2,3: destruct (Hnil env) as (rqs & ? & ? & ? & ?); exists rqs;
           split_and!; try done; by apply Hiff.
      destruct network_id as [n|].
      * case_decide; simpl.
        -- destruct (Hone (_add_vlan_to_trunk requests_request self
                             (port_label p) v)
                       _ (_add_vlan_to_trunk_run requests_request self
                            (port_label p) v env)) as (rqs & ? & ? & ? & ?).
           exists rqs. split_and!; try done. by apply Hiff.
        -- destruct (Hnil env) as (rqs & ? & ? & ? & ?). exists rqs.
           split_and!; try done. by apply Hiff.
      * destruct (Hone (_remove_vlan_from_trunk requests_request self
                          (port_label p) v)
                    _ (_remove_vlan_from_trunk_run requests_request self
                         (port_label p) v env)) as (rqs & ? & ? & ? & ?).
        exists rqs. split_and!; try done. by apply Hiff.
  - destruct (Hnil env) as (rqs & ? & ? & ? & ?). exists rqs.
    split_and!; try done. split; [done|]. by intros (_ & _ & ? & ?).
Qed.

(** ** The VLAN listing *)

(** [_get_vlans] after its one request. *)
Lemma _get_vlans_unfold (self : DellNOS9) (interface : string)
    (env : Env World) :
  let lines :=
    Py.splitlines
      (Py.replace " " "" (text (answer (switchport self interface) env))) in
  ∃ env',
    sent env' = sent env ++ [switchport self interface]
    ∧ _get_vlans requests_request self interface env
      = match Py.list_index "Vlanmembership:" lines with
        | None => (Raise ValueError, env')
        | Some i =>
            match lines !! (i + 3)%nat with
            | None => (Raise IndexError, env')
            | Some line =>
                (Return ((λ x, ("vlan/" +:+ x, x)) <$>
                           Py.split "," (Py.replace "T" "" line)), env')
            end
        end.
Proof.
  intros lines.
  exists (_make_request requests_request self "POST" (cli self)
            (rq_data (switchport self interface)) [] env).2.
  unfold _get_vlans, mbind, Prog_bind. simpl.
  rewrite !_make_request_run. simpl. split; [reflexivity|].
  unfold mbind, Prog_bind.
  match goal with
  | |- context [Py.list_index _ (Py.splitlines ?t)] =>
      change (Py.splitlines t) with lines
  end.
  destruct (Py.list_index "Vlanmembership:" lines) as [i|]; [|done]. simpl.
  by destruct (lines !! (i + 3)%nat).
Qed.

(** X7.  [_get_vlans] sends its one [show] request and then reads the
    answer with the spaces removed, line by line.  Without a line
    [Vlanmembership:] it raises [ValueError]; with fewer than three lines
    after the first such line it raises [IndexError]; otherwise it
    returns.  In each case the request stays sent. *)
Theorem _get_vlans_unusable_listing (self : DellNOS9) (interface : string)
    (env : Env World) :
  let lines :=
    Py.splitlines
      (Py.replace " " "" (text (answer (switchport self interface) env))) in
  ∃ env',
    sent env' = sent env ++ [switchport self interface]
    ∧ ("Vlanmembership:" ∉ lines →
       _get_vlans requests_request self interface env
       = (Raise ValueError, env'))
    ∧ (∀ pre post,
         lines = pre ++ "Vlanmembership:" :: post →
         "Vlanmembership:" ∉ pre →
         ((length post < 3)%nat →
          _get_vlans requests_request self interface env
          = (Raise IndexError, env'))
         ∧ ((3 ≤ length post)%nat →
            ∃ vlans,
              _get_vlans requests_request self interface env
              = (Return vlans, env'))).
Proof.
  intros lines.
  destruct (_get_vlans_unfold self interface env) as (env' & Hsent & Hrun).
  fold lines in Hrun. exists env'. split; [done|]. split.
  - intros Hno%ParseFacts.list_index_None. by rewrite Hrun, Hno.
  - intros pre post Hlines Hpre.
    rewrite Hrun, Hlines, (ParseFacts.list_index_first _ _ _ Hpre).
    rewrite lookup_app_r by lia.
    replace (length pre + 3 - length pre)%nat with 3%nat by lia. simpl.
    split.
    + intros Hlen. by rewrite lookup_ge_None_2 by lia.
    + intros Hlen. destruct (lookup_lt_is_Some_2 post 2) as [line ->]; [lia|].
      eauto.
Qed.

(** X8.  What [_get_vlans] returns is never the empty list (a listing
    line without any VLAN gives the one entry [("vlan/", "")]); every
    entry is [("vlan/" + id, id)], and no [id] holds a comma, a [T] or a
    space. *)
Theorem _get_vlans_shape (self : DellNOS9) (interface : string)
    (env env' : Env World) (vlans : list (string * string)) :
  _get_vlans requests_request self interface env = (Return vlans, env') →
  vlans ≠ []
  ∧ Forall (λ v, v.1 = "vlan/" +:+ v.2
                 ∧ Py.contains "," v.2 = false
                 ∧ Py.contains "T" v.2 = false
                 ∧ Py.contains " " v.2 = false) vlans.
Proof.
  destruct (_get_vlans_unfold self interface env) as (env1 & _ & ->).
  set (lines := Py.splitlines _).
  destruct (Py.list_index "Vlanmembership:" lines) as [i|]; [|done].
  destruct (lines !! (i + 3)%nat) as [line|] eqn:Hline; [|done].
  intros [= <- _]. split.
  - intros Hnil%fmap_nil_inv. by apply ParseFacts.split_go_nonempty in Hnil.
  - apply Forall_fmap, Forall_forall. intros x Hx. simpl.
    assert (Py.contains " " line = false) as Hsp.
    { apply list_elem_of_lookup_2 in Hline.
      pose proof (ParseFacts.splitlines_go_pieces " "
                    (Py.replace " " ""
                       (text (answer (switchport self interface) env)))
                    false "" eq_refl
                    (ParseFacts.contains_replace_removed _ _)) as Hall.
      rewrite Forall_forall in Hall. by apply Hall. }
    split; [done|]. split_and!.
    + pose proof (ParseFacts.split_go_no_sep "," (Py.replace "T" "" line) ""
                    eq_refl) as Hall.
      rewrite Forall_forall in Hall. by apply Hall.
    + pose proof (ParseFacts.split_go_pieces "T" "," (Py.replace "T" "" line)
                    "" eq_refl (ParseFacts.contains_replace_removed _ _))
        as Hall.
      rewrite Forall_forall in Hall. by apply Hall.
    + pose proof (ParseFacts.split_go_pieces " " "," (Py.replace "T" "" line)
                    "" eq_refl
                    (ParseFacts.contains_replace_other _ _ _ Hsp)) as Hall.
      rewrite Forall_forall in Hall. by apply Hall.
Qed.

(** X9.  Reading undoes listing: when the third line after the first
    [Vlanmembership:] line is [T] followed by identifiers joined by
    commas, none of which holds a comma or a [T], [_get_vlans] returns
    exactly these identifiers, in order, each under its channel. *)
Theorem _get_vlans_reads_listing (self : DellNOS9) (interface : string)
    (env : Env World) (pre post : list string) (l1 l2 : string)
    (ids : list string) :
  Py.splitlines
    (Py.replace " " "" (text (answer (switchport self interface) env)))
  = pre ++ ["Vlanmembership:"; l1; l2; "T" +:+ comma_join ids] ++ post →
  "Vlanmembership:" ∉ pre →
  ids ≠ [] →
  Forall (λ id, Py.contains "," id = false ∧ Py.contains "T" id = false) ids →
  ∃ env',
    _get_vlans requests_request self interface env
    = (Return ((λ id, ("vlan/" +:+ id, id)) <$> ids), env').
Proof.
  intros Hlines Hpre Hne Hids.
  destruct (_get_vlans_unfold self interface env) as (env' & _ & ->).
  exists env'. cbn [app] in Hlines. rewrite Hlines.
  rewrite (ParseFacts.list_index_first _ _ _ Hpre).
  rewrite lookup_app_r by lia.
  replace (length pre + 3 - length pre)%nat with 3%nat by lia.
  change (("Vlanmembership:" :: l1 :: l2 :: ("T" +:+ comma_join ids) :: post)
            !! 3%nat) with (Some ("T" +:+ comma_join ids)).
  cbv iota beta.
  assert (Py.split "," (Py.replace "T" "" ("T" +:+ comma_join ids)) = ids)
    as ->; [|done].
  change (Py.replace "T" "" ("T" +:+ comma_join ids))
    with ("" +:+ Py.replace "T" "" (comma_join ids)).
  change ("" +:+ ?s) with s.
  rewrite ParseFacts.replace_absent.
  - destruct ids as [|x ids]; [done|]. apply ParseFacts.split_comma_join.
    eapply Forall_impl; [exact Hids|]. by intros ? [? _].
  - apply ParseFacts.contains_comma_join; [done|].
    eapply Forall_impl; [exact Hids|]. by intros ? [_ ?].
Qed.

(** [_get_native_vlan] after its one request. *)
Lemma _get_native_vlan_unfold (self : DellNOS9) (interface : string)
    (env : Env World) :
  let response :=
    Py.replace " " "" (text (answer (switchport self interface) env)) in
  let begin := Py.find "NativeVlanId:" 0 response + 13 in
  ∃ env',
    sent env' = sent env ++ [switchport self interface]
    ∧ _get_native_vlan requests_request self interface env
      = (Return (Some ("vlan/native",
                       Py.slice begin (Py.find "." begin response) response)),
         env').
Proof.
  intros response begin.
  exists (_make_request requests_request self "POST" (cli self)
            (rq_data (switchport self interface)) [] env).2.
  unfold _get_native_vlan, mbind, Prog_bind. simpl.
  rewrite !_make_request_run. simpl. done.
Qed.

(** X10.  [_get_native_vlan] returns for every answer of the device,
    also for one that names no native VLAN, and the identifier it returns
    holds neither a full stop nor a space. *)
Theorem _get_native_vlan_clean (self : DellNOS9) (interface : string)
    (env : Env World) :
  ∃ vlan env',
    _get_native_vlan requests_request self interface env
    = (Return (Some ("vlan/native", vlan)), env')
    ∧ Py.contains "." vlan = false
    ∧ Py.contains " " vlan = false.
Proof.
  destruct (_get_native_vlan_unfold self interface env) as (env' & _ & ->).
  eexists _, env'. split; [done|]. split.
  - apply ParseFacts.slice_find_clean. unfold Py.find.
    destruct (String.index _ _ _); lia.
  - unfold Py.slice. apply ParseFacts.contains_substring.
    apply ParseFacts.contains_replace_removed.
Qed.

(** X11.  When the answer, spaces removed, reads [NativeVlanId:] for the
    first time after [pre], then [v], then a full stop, and [v] holds no
    full stop, the native VLAN that [_get_native_vlan] returns is [v]. *)
Theorem _get_native_vlan_reads_id (self : DellNOS9) (interface : string)
    (env : Env World) (pre v post : string) :
  let response :=
    Py.replace " " "" (text (answer (switchport self interface) env)) in
  response = pre +:+ "NativeVlanId:" +:+ v +:+ "." +:+ post →
  Py.find "NativeVlanId:" 0 response = Py.len pre →
  Py.contains "." v = false →
  ∃ env',
    _get_native_vlan requests_request self interface env
    = (Return (Some ("vlan/native", v)), env')
    ∧ sent env' = sent env ++ [switchport self interface].
Proof.
  intros response Hresp Hfind Hv.
  destruct (_get_native_vlan_unfold self interface env)
    as (env' & Hsent & ->).
  exists env'. split; [|done]. fold response.
  by rewrite (ParseFacts.native_vlan_slice response pre v post Hresp Hfind Hv).
Qed.

(** X18.  Removing the native VLAN removes the one the switch reports:
    on the channel ["vlan/native"] and without a network, when the
    answer to the [show] request reads [NativeVlanId: v.], [modify_port]
    posts [no untagged] for VLAN [v] after that request. *)
Theorem modify_port_removes_reported_native (self : DellNOS9)
    (port : string) (p : Port) (env : Env World) (pre v post : string) :
  filter (λ q, port_label q = port) (ports self) = [p] →
  let response :=
    Py.replace " " "" (text (answer (switchport self port) env)) in
  response = pre +:+ "NativeVlanId:" +:+ v +:+ "." +:+ post →
  Py.find "NativeVlanId:" 0 response = Py.len pre →
  Py.contains "." v = false →
  ∃ env',
    modify_port requests_request self port "vlan/native" None env
    = (Return (), env')
    ∧ sent env' = sent env ++
        [switchport self port;
         config_command self ("interface vlan " +:+ v +:+ CRLF +:+
           " no untagged " +:+ interface_type self +:+ " " +:+ port)].
Proof.
  intros Hf response Hresp Hfind Hv.
  unfold modify_port, mbind, Prog_bind. rewrite Hf. simpl.
  rewrite (filter_label_singleton _ _ _ Hf).
  destruct (_remove_native_vlan_run requests_request self port env)
    as (vlan & env1 & env' & Hget & Hrun & Hsent).
  destruct (_get_native_vlan_unfold self port env) as (env2 & _ & Hget').
  fold response in Hget'.
  rewrite (ParseFacts.native_vlan_slice response pre v post Hresp Hfind Hv)
    in Hget'.
  rewrite Hget' in Hget. injection Hget as <- _.
  exists env'. by rewrite Hrun, Hsent.
Qed.

(** ** Shutting a port down *)

(** X14.  For a valid port name and an interface type of the table,
    [_port_shutdown] sends one PUT, to the address of the interface that
    its body names, with hybrid port mode off and [shutdown] true: on its
    own it leaves the port disabled. *)
Theorem _port_shutdown_disables (self : DellNOS9) (port prefix : string)
    (env : Env World) :
  validate_port_name port = Return () →
  _convert_interface (interface_type self) = Return prefix →
  let name := prefix +:+ Py.replace "/" "-" port in
  let url :=
    hostname self +:+ "/api/running/dell/interfaces/interface/" +:+ name in
  ∃ env',
    _port_shutdown requests_request self port env = (Return (), env')
    ∧ sent env' = sent env ++
        [put_interface self url name
           "<portmode><hybrid>false</hybrid></portmode><shutdown>true</shutdown>"]
    ∧ left_disabled url (sent env').
Proof.
  intros Hport Hprefix name url.
  assert (_construct_url self (Some port) "" = Return url) as Hurl.
  { rewrite (_construct_url_port self port "" Hport).
    unfold _convert_interface in Hprefix.
    destruct (iftypes !! interface_type self); [|done].
    injection Hprefix as ->. by rewrite decide_True, PyFacts.app_nil_r. }
  destruct (_port_shutdown_run requests_request self port url prefix env
              Hurl Hprefix) as (env' & Hrun & Hsent).
  exists env'. split; [done|]. split; [done|].
  rewrite Hsent. apply XmlFacts.last_shutdown_snoc; [done..|]. simpl.
  apply (XmlFacts.xml_text_shutdown name
           ("</name><portmode><hybrid>false</hybrid></portmode>" +:+
            "<shutdown>true</shutdown></interface>") 50 64);
    [|reflexivity..].
  unfold name. rewrite PyFacts.contains_app.
  rewrite (XmlFacts.port_name_no_markup port)
    by by apply validate_port_name_form.
  unfold _convert_interface in Hprefix.
  destruct (iftypes !! interface_type self) as [v|] eqn:Hv; [|done].
  injection Hprefix as ->. by rewrite (XmlFacts.prefix_no_markup _ _ Hv).
Qed.

(** ** What the driver sends *)

Lemma sends_only_ret {A} (P : request → Prop) (a : A) :
  sends_only (World := World) P (mret a).
Proof. intros env. exists []. by rewrite (right_id_L [] (++)). Qed.

Lemma sends_only_lift {A} (P : request → Prop) (r : result A) :
  sends_only (World := World) P (lift r).
Proof. intros env. exists []. by rewrite (right_id_L [] (++)). Qed.

Lemma sends_only_bind {A B} (P : request → Prop)
    (m : Prog (Env World) A) (f : A → Prog (Env World) B) :
  sends_only P m → (∀ a, sends_only P (f a)) → sends_only P (m ≫= f).
Proof.
  intros Hm Hf env. destruct (Hm env) as (rqs & Hsent & HP).
  unfold mbind, Prog_bind. destruct (m env) as [[a|e] env1]; simpl in *.
  - destruct (Hf a env1) as (rqs' & Hsent' & HP').
    exists (rqs ++ rqs'). rewrite Hsent', Hsent, (assoc_L (++)).
    split; [done|]. by apply Forall_app.
  - by exists rqs.
Qed.

Lemma sends_only_make_request (P : request → Prop) (self : DellNOS9)
    (method url : string) (data : option string) (codes : list Z) :
  P (Request method url data (username self, password self)) →
  sends_only P (_make_request requests_request self method url data codes).
Proof.
  intros HP env. rewrite _make_request_run. simpl.
  eexists. split; [done|]. by constructor.
Qed.

Lemma _get_native_vlan_sends (P : request → Prop) (self : DellNOS9)
    (interface : string) :
  P (switchport self interface) →
  sends_only P (_get_native_vlan requests_request self interface).
Proof.
  intros HP env.
  destruct (_get_native_vlan_unfold self interface env)
    as (env' & Hsent & ->).
  exists [switchport self interface]. split; [done|]. by constructor.
Qed.

Lemma _get_vlans_sends (P : request → Prop) (self : DellNOS9)
    (interface : string) :
  P (switchport self interface) →
  sends_only P (_get_vlans requests_request self interface).
Proof.
  intros HP env.
  destruct (_get_vlans_unfold self interface env)
    as (env' & Hsent & ->).
  exists [switchport self interface]. split; [|by constructor].
  destruct (Py.list_index _ _) as [i|]; [|done].
  by destruct (_ !! (i + 3)%nat).
Qed.

Lemma config_sends (P : request → Prop) (self : DellNOS9) (command : string)
    (m : Prog (Env World) unit) (env : Env World) :
  (∀ command,
     P (Request "POST" (cli self)
          (Some ("<input><config-commands>" +:+ command +:+
                 "</config-commands></input>"))
          (username self, password self))) →
  (∃ env',
     m env = (Return (), env')
     ∧ sent env' = sent env ++
         [Request "POST" (cli self)
            (Some ("<input><config-commands>" +:+ command +:+
                   "</config-commands></input>"))
            (username self, password self)]) →
  ∃ rqs, sent (m env).2 = sent env ++ rqs ∧ Forall P rqs.
Proof.
  intros HP (env' & -> & Hsent). eexists. split; [done|]. by constructor.
Qed.

Lemma modify_port_sends (P : request → Prop) (self : DellNOS9)
    (port channel : string) (network_id : option string) :
  (∀ command, P (show_command self command)) →
  (∀ command,
     P (Request "POST" (cli self)
          (Some ("<input><config-commands>" +:+ command +:+
                 "</config-commands></input>"))
          (username self, password self))) →
  sends_only P (modify_port requests_request self port channel network_id).
Proof.
  intros Hshow Hconfig env. unfold modify_port, mbind, Prog_bind.
  destruct (filter _ (ports self)) as [|p [|??]]; simpl;
    try (exists []; by rewrite (right_id_L [] (++))).
  case_decide.
  - destruct network_id as [n|].
    + eapply config_sends; [done|]. apply _set_native_vlan_run.
    + destruct (_remove_native_vlan_run requests_request self (port_label p)
                  env) as (vlan & env1 & env' & _ & -> & Hsent).
      eexists. split; [done|]. repeat constructor; done.
  - destruct (Re.re_match channel_pattern channel) as [g|]; simpl;
      [|exists []; by rewrite (right_id_L [] (++))].
    destruct (g !! 0%nat) as [[v|]|]; simpl;
      try (exists []; by rewrite (right_id_L [] (++))).
    destruct network_id as [n|].
    + case_decide; simpl; [|exists []; by rewrite (right_id_L [] (++))].
      eapply config_sends; [done|]. apply _add_vlan_to_trunk_run.
    + eapply config_sends; [done|]. apply _remove_vlan_from_trunk_run.
Qed.

Lemma revert_port_sends (self : DellNOS9) (port : string) :
  sends_only (own_request self) (revert_port requests_request self port).
Proof.
  intros env. pose proof (_construct_url_Some self port "") as Hurl.
  unfold revert_port, mbind, Prog_bind.
  destruct (_convert_interface (interface_type self)) as [prefix|e] eqn:Hc.
  - destruct Hurl as [url Hurl].
    destruct (_port_shutdown_run requests_request self port url prefix env
                Hurl Hc) as (env1 & -> & Hsent1).
    destruct (_port_on_run requests_request self port url prefix env1
                Hurl Hc) as (env' & -> & Hsent').
    simpl. eexists. rewrite Hsent', Hsent1, <-(assoc_L (++)).
    split; [done|].
    assert (∃ path, url = hostname self +:+ path) as Hpath.
    { revert Hurl. unfold _construct_url.
      destruct (Re.re_match port_pattern port); simpl; rewrite ?Hc; simpl;
        intros [= <-]; eauto. }
    repeat constructor; done.
  - exists []. rewrite (right_id_L [] (++)).
    unfold _port_shutdown, mbind, Prog_bind, lift, _construct_url.
    destruct (Re.re_match port_pattern port); simpl; by rewrite Hc.
Qed.

Lemma get_port_networks_loop_sends (P : request → Prop) (self : DellNOS9)
    (ports : list Port) :
  (∀ command, P (show_command self command)) →
  ∀ acc, sends_only P (get_port_networks_loop requests_request self ports acc).
Proof.
  intros HP. induction ports as [|p ports IH]; intros acc; simpl.
  - apply sends_only_ret.
  - apply sends_only_bind; [by apply _get_native_vlan_sends|]. intros native.
    apply sends_only_bind; [by apply _get_vlans_sends|]. intros vlans.
    apply IH.
Qed.

(** X15.  Every request that [modify_port], [revert_port] and
    [get_port_networks] send, whether they return or raise, carries the
    credentials of the switch and goes to an address under the host name
    of the switch; requests already sent are never dropped. *)
Theorem driver_sends_own_requests (self : DellNOS9) :
  (∀ port channel network_id,
     sends_only (own_request self)
       (modify_port requests_request self port channel network_id))
  ∧ (∀ port,
       sends_only (own_request self) (revert_port requests_request self port))
  ∧ (∀ ports,
       sends_only (own_request self)
         (get_port_networks requests_request self ports)).
Proof.
  split_and!.
  - intros port channel network_id.
    apply modify_port_sends; intros command; (split; [done|by eexists]).
  - apply revert_port_sends.
  - intros ports.
    apply get_port_networks_loop_sends. intros command.
    split; [done|by eexists].
Qed.

Lemma get_port_networks_loop_trace (self : DellNOS9) (ports : list Port) :
  ∀ acc env response env',
    get_port_networks_loop requests_request self ports acc env
    = (Return response, env') →
    sent env' = sent env ++
      (ports ≫= λ p, [switchport self (port_label p);
                      switchport self (port_label p)])
    ∧ dom response = dom acc ∪ list_to_set ports.
Proof.
  induction ports as [|p ports IH]; intros acc env response env'; simpl.
  - intros [= <- <-]. rewrite (right_id_L [] (++)). split; [done|].
    by rewrite (right_id_L ∅ (∪)).
  - unfold mbind at 1 2, Prog_bind.
    destruct (_get_native_vlan_unfold self (port_label p) env)
      as (env1 & Hsent1 & ->).
    destruct (_get_vlans requests_request self (port_label p) env1)
      as [[vlans|e] env2] eqn:Hvlans; [|done].
    intros [-> ->]%IH.
    assert (sent env2 = sent env1 ++ [switchport self (port_label p)])
      as ->.
    { destruct (_get_vlans_unfold self (port_label p) env1)
        as (env2' & Hsent2 & Hrun).
      rewrite Hrun in Hvlans.
      destruct (Py.list_index _ _) as [i|]; [|done].
      destruct (_ !! (i + 3)%nat); [|done].
      by injection Hvlans as _ <-. }
    rewrite Hsent1, <-!(assoc_L (++)). split; [done|].
    rewrite dom_insert_L, (comm_L (∪) {[p]} (dom acc)), <-(assoc_L (∪)).
    done.
Qed.

(** X16.  The dictionary that [get_port_networks] returns has exactly
    the Ports it was asked about as keys (a Port asked about twice has
    one entry). *)
Theorem get_port_networks_keys (self : DellNOS9) (ports : list Port)
    (env env' : Env World) (response : gmap Port (list (string * string))) :
  get_port_networks requests_request self ports env = (Return response, env') →
  dom response = list_to_set ports.
Proof.
  intros [_ ->]%get_port_networks_loop_trace.
  by rewrite dom_empty_L, (left_id_L ∅ (∪)).
Qed.

(** X17.  [get_port_networks] only reads: every request it sends,
    whether it returns or raises, is a [show] command posted to the CLI
    endpoint; and when it returns it has sent exactly two [show
    interfaces switchport] requests per Port asked about, in the order of
    the Ports. *)
Theorem get_port_networks_read_only (self : DellNOS9) (ports : list Port) :
  sends_only (is_show_command self)
    (get_port_networks requests_request self ports)
  ∧ ∀ env response env',
      get_port_networks requests_request self ports env
      = (Return response, env') →
      sent env' = sent env ++
        (ports ≫= λ p, [switchport self (port_label p);
                        switchport self (port_label p)]).
Proof.
  split.
  - apply get_port_networks_loop_sends. intros command. by eexists.
  - by intros env response env' [-> _]%get_port_networks_loop_trace.
Qed.

Lemma get_port_networks_loop_stops (self : DellNOS9) (ports : list Port) :
  ∀ acc env e env',
    get_port_networks_loop requests_request self ports acc env
    = (Raise e, env') →
    (e = ValueError ∨ e = IndexError)
    ∧ ∃ k, (k < length ports)%nat
           ∧ sent env' = sent env ++
               (take (S k) ports ≫=
                  λ p, [switchport self (port_label p);
                        switchport self (port_label p)]).
Proof.
  induction ports as [|p ports IH]; intros acc env e env'; [done|].
  simpl. unfold mbind at 1 2, Prog_bind.
  destruct (_get_native_vlan_unfold self (port_label p) env)
    as (env1 & Hsent1 & ->).
  destruct (_get_vlans_unfold self (port_label p) env1)
    as (env2 & Hsent2 & ->).
  destruct (Py.list_index _ _) as [i|].
  - destruct (_ !! (i + 3)%nat).
    + intros (He & k & Hk & Hsent)%IH. split; [done|].
      exists (S k). split; [simpl; lia|].
      rewrite Hsent, Hsent2, Hsent1, <-!(assoc_L (++)). done.
    + intros [= <- <-]. split; [by right|]. exists O. split; [simpl; lia|].
      rewrite Hsent2, Hsent1, <-!(assoc_L (++)). by destruct ports.
  - intros [= <- <-]. split; [by left|]. exists O. split; [simpl; lia|].
    rewrite Hsent2, Hsent1, <-!(assoc_L (++)). by destruct ports.
Qed.

(** X19.  [get_port_networks] gives no partial result.  It raises only
    [ValueError] or [IndexError], the errors of a listing it cannot read,
    and it stops at the first Port with such a listing: the requests it
    has sent are the two of each Port up to and including that one. *)
Theorem get_port_networks_failure (self : DellNOS9) (ports : list Port)
    (env env' : Env World) (e : exn) :
  get_port_networks requests_request self ports env = (Raise e, env') →
  (e = ValueError ∨ e = IndexError)
  ∧ ∃ k, (k < length ports)%nat
         ∧ sent env' = sent env ++
             (take (S k) ports ≫=
                λ p, [switchport self (port_label p);
                      switchport self (port_label p)]).
Proof. apply get_port_networks_loop_stops. Qed.

End DriverCalls.

(** X5.  Whether [modify_port] and [revert_port] return or raise, and
    what they raise, does not depend on what the device answers: the same
    call has the same outcome against any two devices in any two states.
    As long as the transport delivers an answer, the driver cannot report
    a failure of the switch through these calls. *)
Theorem outcome_independent_of_device {W1 W2 : Type}
    (device1 : request → W1 → response * W1)
    (device2 : request → W2 → response * W2)
    (self : DellNOS9) (port : string) (env1 : Env W1) (env2 : Env W2) :
  (∀ channel network_id,
     (modify_port device1 self port channel network_id env1).1
     = (modify_port device2 self port channel network_id env2).1)
  ∧ (revert_port device1 self port env1).1
    = (revert_port device2 self port env2).1.
Proof.
  split.
  - intros channel network_id. unfold modify_port, mbind, Prog_bind.
    destruct (filter _ (ports self)) as [|p [|??]]; try done. simpl.
    case_decide.
    + destruct network_id as [n|].
      * destruct (_set_native_vlan_run device1 self (port_label p) n env1)
          as (? & -> & _).
        destruct (_set_native_vlan_run device2 self (port_label p) n env2)
          as (? & -> & _). done.
      * destruct (_remove_native_vlan_run device1 self (port_label p) env1)
          as (? & ? & ? & _ & -> & _).
        destruct (_remove_native_vlan_run device2 self (port_label p) env2)
          as (? & ? & ? & _ & -> & _). done.
    + destruct (Re.re_match channel_pattern channel) as [g|]; [|done]. simpl.
      destruct (g !! 0%nat) as [[v|]|]; try done. simpl.
      destruct network_id as [n|].
      * case_decide; [|done]. simpl.
        destruct (_add_vlan_to_trunk_run device1 self (port_label p) v env1)
          as (? & -> & _).
        destruct (_add_vlan_to_trunk_run device2 self (port_label p) v env2)
          as (? & -> & _). done.
      * destruct (_remove_vlan_from_trunk_run device1 self (port_label p) v
                    env1) as (? & -> & _).
        destruct (_remove_vlan_from_trunk_run device2 self (port_label p) v
                    env2) as (? & -> & _). done.
  - pose proof (_construct_url_Some self port "") as Hurl.
    unfold revert_port, mbind, Prog_bind.
    destruct (_convert_interface (interface_type self)) as [prefix|e] eqn:Hc.
    + destruct Hurl as [url Hurl].
      destruct (_port_shutdown_run device1 self port url prefix env1 Hurl Hc)
        as (e1 & -> & _).
      destruct (_port_shutdown_run device2 self port url prefix env2 Hurl Hc)
        as (e2 & -> & _).
      destruct (_port_on_run device1 self port url prefix e1 Hurl Hc)
        as (? & -> & _).
      destruct (_port_on_run device2 self port url prefix e2 Hurl Hc)
        as (? & -> & _). done.
    + unfold _port_shutdown, mbind, Prog_bind, lift, _construct_url.
      destruct (Re.re_match port_pattern port); simpl; by rewrite Hc.
Qed.


(** ** The lab switch again *)

Lemma modify_port_unknown_port_witness :
  modify_port (Lab.device 200 "") Lab.switch "9/9" "vlan/native" None Lab.env0
  = (Raise ValueError, Lab.env0).
Proof.
  apply (modify_port_unknown_port (Lab.device 200 "") Lab.switch "9/9"
           "vlan/native" None Lab.env0).
  vm_compute. discriminate.
Defined.

Lemma modify_port_invalid_channel_witness :
  modify_port (Lab.device 200 "") Lab.switch "1/3" "trunk" (Some "52") Lab.env0
  = (Raise (AssertionError "HIL passed an invalid channel to the switch!"),
     Lab.env0).
Proof.
  apply (proj2 (modify_port_invalid_channel (Lab.device 200 "") Lab.switch
                  "1/3" "trunk" (MkPort 1 "1/3") (Some "52") Lab.env0
                  eq_refl)).
  - discriminate.
  - intros (id & rest & _ & Heq). discriminate Heq.
Defined.

Lemma modify_port_tagged_removal_witness :
  ∃ env',
    modify_port (Lab.device 200 "") Lab.switch "1/3" "vlan/52abc" None Lab.env0
    = (Return (), env')
    ∧ sent env' =
        [Request "POST" "http://switch/api/running/dell/_operations/cli"
           (Some ("<input><config-commands>" +:+
                  ("interface vlan 52" +:+ CRLF +:+
                   " no tagged GigabitEthernet 1/3") +:+
                  "</config-commands></input>"))
           ("admin", "secret")].
Proof.
  apply (modify_port_tagged_removal (Lab.device 200 "") Lab.switch "1/3" "52"
           "abc" (MkPort 1 "1/3") Lab.env0).
  - reflexivity.
  - split; [discriminate|reflexivity].
  - reflexivity.
Defined.

Lemma modify_port_channel_prefix_witness :
  modify_port (Lab.device 200 "") Lab.switch "1/3" "vlan/52abc" (Some "52")
    Lab.env0
  = modify_port (Lab.device 200 "") Lab.switch "1/3" "vlan/52" (Some "52")
      Lab.env0.
Proof.
  apply (modify_port_channel_prefix (Lab.device 200 "") Lab.switch "1/3" "52"
           "abc" (Some "52") Lab.env0).
  - split; [discriminate|reflexivity].
  - reflexivity.
Defined.

Lemma modify_port_refused_command_witness :
  ∃ env',
    modify_port (Lab.device 500 "refused") Lab.switch "1/3" "vlan/52"
      (Some "52") Lab.env0 = (Return (), env')
    ∧ errlog env' = ["Bad Request to switch. Response: refused"]
    ∧ stdout env' = ["refused"].
Proof.
  destruct (modify_port_refused_command (Lab.device 500 "refused") Lab.switch
              "1/3" "52" (MkPort 1 "1/3") Lab.env0)
    as (env' & Hrun & Hbad & _).
  - reflexivity.
  - split; [discriminate|reflexivity].
  - exists env'. split; [exact Hrun|]. apply Hbad. discriminate.
Defined.

Lemma _get_vlans_shape_witness :
  [("vlan/2", "2"); ("vlan/3", "3")] ≠ []
  ∧ Forall (λ v : string * string,
              v.1 = "vlan/" +:+ v.2
              ∧ Py.contains "," v.2 = false
              ∧ Py.contains "T" v.2 = false
              ∧ Py.contains " " v.2 = false)
      [("vlan/2", "2"); ("vlan/3", "3")].
Proof.
  apply (_get_vlans_shape (Lab.device 200 Lab.switchport_text) Lab.switch
           "1/3" Lab.env0
           (_get_vlans (Lab.device 200 Lab.switchport_text) Lab.switch
              "1/3" Lab.env0).2).
  vm_compute. reflexivity.
Defined.

Lemma _get_vlans_reads_listing_witness :
  ∃ env',
    _get_vlans (Lab.device 200 Lab.switchport_text) Lab.switch "1/3" Lab.env0
    = (Return [("vlan/2", "2"); ("vlan/3", "3")], env').
Proof.
  apply (_get_vlans_reads_listing (Lab.device 200 Lab.switchport_text)
           Lab.switch "1/3" Lab.env0
           ["Name:GigabitEthernet1/3"; "802.1QTagged:Hybrid"]
           [""; "NativeVlanId:1."] "QVlans" "U1" ["2"; "3"]).
  - vm_compute. reflexivity.
  - apply not_elem_of_cons. split; [discriminate|].
    apply not_elem_of_cons. split; [discriminate|]. apply not_elem_of_nil.
  - discriminate.
  - repeat constructor.
Defined.

Lemma _get_native_vlan_reads_id_witness :
  ∃ env',
    _get_native_vlan (Lab.device 200 Lab.switchport_text) Lab.switch "1/3"
      Lab.env0 = (Return (Some ("vlan/native", "1")), env')
    ∧ sent env' =
        [Request "POST" "http://switch/api/running/dell/_operations/cli"
           (Some ("<input><show-command>" +:+
                  ("interfaces switchport " +:+ "GigabitEthernet" +:+ " "
                   +:+ "1/3") +:+ "</show-command></input>"))
           ("admin", "secret")].
Proof.
  apply (_get_native_vlan_reads_id (Lab.device 200 Lab.switchport_text)
           Lab.switch "1/3" Lab.env0
           (String.substring 0 76 (Py.replace " " "" Lab.switchport_text))
           "1" "").
  - vm_compute. reflexivity.
  - vm_compute. reflexivity.
  - reflexivity.
Defined.

Lemma modify_port_removes_reported_native_witness :
  ∃ env',
    modify_port (Lab.device 200 Lab.switchport_text) Lab.switch "1/3"
      "vlan/native" None Lab.env0 = (Return (), env')
    ∧ sent env' =
        [Request "POST" "http://switch/api/running/dell/_operations/cli"
           (Some ("<input><show-command>" +:+
                  ("interfaces switchport " +:+ "GigabitEthernet" +:+ " "
                   +:+ "1/3") +:+ "</show-command></input>"))
           ("admin", "secret");
         Request "POST" "http://switch/api/running/dell/_operations/cli"
           (Some ("<input><config-commands>" +:+
                  ("interface vlan " +:+ "1" +:+ CRLF +:+ " no untagged "
                   +:+ "GigabitEthernet" +:+ " " +:+ "1/3") +:+
                  "</config-commands></input>"))
           ("admin", "secret")].
Proof.
  apply (modify_port_removes_reported_native
           (Lab.device 200 Lab.switchport_text) Lab.switch "1/3"
           (MkPort 1 "1/3") Lab.env0
           (String.substring 0 76 (Py.replace " " "" Lab.switchport_text))
           "1" "").
  - reflexivity.
  - vm_compute. reflexivity.
  - vm_compute. reflexivity.
  - reflexivity.
Defined.

Lemma _construct_url_injective_witness : "1/3" = "1/3".
Proof.
  apply (_construct_url_injective Lab.switch "1/3" "1/3" ""
           "http://switch/api/running/dell/interfaces/interface/gige-1-3");
    reflexivity.
Defined.

Lemma _port_shutdown_disables_witness :
  ∃ env',
    _port_shutdown (Lab.device 200 "") Lab.switch "1/3" Lab.env0
    = (Return (), env')
    ∧ sent env' =
        [Request "PUT"
           "http://switch/api/running/dell/interfaces/interface/gige-1-3"
           (Some ("<interface><name>" +:+ "gige-1-3" +:+ "</name>" +:+
                  "<portmode><hybrid>false</hybrid></portmode><shutdown>true</shutdown>"
                  +:+ "</interface>"))
           ("admin", "secret")]
    ∧ left_disabled
        "http://switch/api/running/dell/interfaces/interface/gige-1-3"
        (sent env').
Proof.
  apply (_port_shutdown_disables (Lab.device 200 "") Lab.switch "1/3" "gige-"
           Lab.env0); reflexivity.
Defined.

Lemma get_port_networks_keys_witness :
  dom ({[ MkPort 1 "1/3" :=
            [("vlan/native", "1"); ("vlan/2", "2"); ("vlan/3", "3")] ]}
       : gmap Port (list (string * string)))
  = list_to_set [MkPort 1 "1/3"].
Proof.
  apply (get_port_networks_keys (Lab.device 200 Lab.switchport_text)
           Lab.switch [MkPort 1 "1/3"] Lab.env0
           (get_port_networks (Lab.device 200 Lab.switchport_text) Lab.switch
              [MkPort 1 "1/3"] Lab.env0).2).
  vm_compute. reflexivity.
Defined.

Lemma get_port_networks_failure_witness :
  (ValueError = ValueError ∨ ValueError = IndexError)
  ∧ ∃ k, (k < length [MkPort 1 "1/3"])%nat
         ∧ sent (get_port_networks (Lab.device 200 "") Lab.switch
                   [MkPort 1 "1/3"] Lab.env0).2
           = sent Lab.env0 ++
               (take (S k) [MkPort 1 "1/3"] ≫=
                  λ p, [Request "POST"
                          "http://switch/api/running/dell/_operations/cli"
                          (Some ("<input><show-command>" +:+
                                 ("interfaces switchport " +:+
                                  "GigabitEthernet" +:+ " " +:+ port_label p)
                                 +:+ "</show-command></input>"))
                          ("admin", "secret");
                        Request "POST"
                          "http://switch/api/running/dell/_operations/cli"
                          (Some ("<input><show-command>" +:+
                                 ("interfaces switchport " +:+
                                  "GigabitEthernet" +:+ " " +:+ port_label p)
                                 +:+ "</show-command></input>"))
                          ("admin", "secret")]).
Proof.
  apply (get_port_networks_failure (Lab.device 200 "") Lab.switch
           [MkPort 1 "1/3"] Lab.env0).
  vm_compute. reflexivity.
Defined.

(** ** The registry: queries *)

Module RegistryFacts.
Import Registry.

Lemma list_free_nodes_elem (r : Registry) (l : string) :
  l ∈ list_free_nodes r ↔ ∃ n, nodes r !! l = Some n ∧ node_project n = None.
Proof.
  unfold list_free_nodes. rewrite merge_sort_Permutation, list_elem_of_fmap.
  split.
  - intros ([l' n] & -> & Hin). exists n.
    by apply elem_of_map_to_list, map_lookup_filter_Some in Hin.
  - intros (n & Hn & Hfree). exists (l, n). split; [done|].
    by apply elem_of_map_to_list, map_lookup_filter_Some.
Qed.

Lemma list_free_nodes_sorted (r : Registry) :
  Sorted String.le (list_free_nodes r).
Proof. apply (Sorted_merge_sort String.le). Qed.

Lemma list_free_nodes_NoDup (r : Registry) : NoDup (list_free_nodes r).
Proof.
  unfold list_free_nodes. rewrite merge_sort_Permutation.
  apply NoDup_fst_map_to_list.
Qed.

(** C8.  [list_free_nodes] returns exactly the labels of the nodes
    without a project, each once, in sorted order; after registering
    [data], [master-control-program] and [robocop], in any order, it
    returns exactly these three in this order. *)
Theorem list_free_nodes_exact :
  (∀ r l, l ∈ list_free_nodes r
          ↔ ∃ n, nodes r !! l = Some n ∧ node_project n = None)
  ∧ (∀ r, Sorted String.le (list_free_nodes r) ∧ NoDup (list_free_nodes r))
  ∧ (∀ global_labels os,
       os ≡ₚ [NodeRegister "data"; NodeRegister "master-control-program";
              NodeRegister "robocop"] →
       list_free_nodes (after global_labels os empty)
       = ["data"; "master-control-program"; "robocop"]).
Proof.
  split_and!.
  - apply list_free_nodes_elem.
  - intros r. split; [apply list_free_nodes_sorted|apply list_free_nodes_NoDup].
  - intros g os Hos. symmetry in Hos. apply permutations_Permutation in Hos.
    revert os Hos. apply Forall_forall.
    vm_compute permutations. destruct g; repeat constructor; by vm_compute.
Qed.

(** ** The registry: failing calls *)

Ltac run_op :=
  unfold call, user_create, user_delete, group_create, group_delete,
    group_add_user, group_remove_user, project_create, project_delete,
    node_register, node_delete, project_connect_node, project_detach_node,
    node_register_nic, node_delete_nic, network_create, network_delete,
    switch_register, switch_delete, port_register, port_delete,
    port_connect_nic, port_detach_nic, headnode_create, headnode_delete,
    headnode_create_hnic, headnode_delete_hnic, node_connect_network,
    node_detach_network, headnode_connect_network, headnode_detach_network,
    _must_find_nic, _must_find_hnic, _must_find, _assert_absent, require,
    modify, get, raise, lift, mbind, mret, Prog_bind, Prog_ret in *;
  simpl in *.

Lemma label_taken_true {V} (g : bool) (owner label : string)
    (m : gmap (string * string) V) :
  is_Some (m !! (owner, label))
  ∨ (g = true ∧ ∃ owner', is_Some (m !! (owner', label))) →
  label_taken g owner label m = true.
Proof.
  unfold label_taken. intros [[v Hv]|[-> (owner' & v & Hv)]].
  - destruct g; apply bool_decide_eq_true; [|by eexists].
    by exists (owner, label), v.
  - apply bool_decide_eq_true. by exists (owner', label), v.
Qed.

Lemma label_taken_false {V} (g : bool) (owner label : string)
    (m : gmap (string * string) V) :
  label_taken g owner label m = false → m !! (owner, label) = None.
Proof.
  intros Hf. destruct (m !! (owner, label)) as [v|] eqn:Hv; [|done].
  rewrite label_taken_true in Hf; [done|]. left. by eexists.
Qed.

(** A call that raises has changed nothing. *)
Lemma failed_call_unchanged (g : bool) (o : op) (r r' : Registry) (e : exn) :
  call g o r = (Raise e, r') → r' = r.
Proof.
  destruct o; run_op.
  all: intros H; repeat (case_match; simplify_eq/=); try done.
Qed.

Lemma occupied_call_duplicate (g : bool) (o : op) (r : Registry) :
  creates_or_connects o = true → occupied g o r → found o r →
  call g o r = (Raise DuplicateError, r).
Proof.
  intros Hc Hocc Hfound.
  destruct o; try discriminate Hc; clear Hc; unfold occupied, found in *;
    run_op.
  all: try match goal with
       | |- context [label_taken] =>
           destruct Hfound as [? ->]; simpl;
           rewrite (label_taken_true _ _ _ _ Hocc); reflexivity
       end.
  all: repeat match goal with
       | H : is_Some _ |- _ => destruct H as [? H]
       | H : _ ∧ _ |- _ => destruct H
       | H : ∃ _, _ |- _ => destruct H
       | H : _ ∨ _ |- _ => destruct H
       end; simplify_eq/=.
  all: repeat (case_match; simplify_eq/=); try done.
  all: repeat (case_bool_decide; simplify_eq/=); try done.
Qed.

(** C5.  A create or connect operation that raises leaves the registry
    exactly as it was; and when its label is taken or its relationship
    slot is occupied, while everything else it needs is in place, it
    raises [DuplicateError].  This holds for either scope of the Nic and
    Hnic labels. *)
Theorem failed_create_or_connect_changes_nothing (global_labels : bool)
    (o : op) (r : Registry) :
  creates_or_connects o = true →
  (∀ e r', call global_labels o r = (Raise e, r') → r' = r)
  ∧ (occupied global_labels o r → found o r →
     call global_labels o r = (Raise DuplicateError, r)).
Proof.
  intros Hc. split.
  - intros e r'. apply failed_call_unchanged.
  - by apply occupied_call_duplicate.
Qed.

(** ** The registry: Nics and networks *)

Lemma sym_insert_nic_same N W i n n' :
  N !! i = Some n → nic_network n' = nic_network n → sym N W →
  sym (<[i := n']> N) W.
Proof.
  intros Hi Hn Hsym nic network. rewrite <-(Hsym nic network).
  destruct (decide (nic = i)) as [->|Hne].
  - rewrite lookup_insert_eq, Hi.
    split; intros (? & [= <-] & ?); eexists; split; eauto; congruence.
  - by rewrite lookup_insert_ne.
Qed.

Lemma sym_insert_nic_fresh N W i n' :
  N !! i = None → nic_network n' = None → sym N W → sym (<[i := n']> N) W.
Proof.
  intros Hi Hn Hsym nic network. rewrite <-(Hsym nic network).
  destruct (decide (nic = i)) as [->|Hne].
  - rewrite lookup_insert_eq, Hi.
    split; [intros (? & [= <-] & ?); congruence|by intros (? & ? & ?)].
  - by rewrite lookup_insert_ne.
Qed.

Lemma sym_delete_nic N W i n :
  N !! i = Some n → nic_network n = None → sym N W → sym (delete i N) W.
Proof.
  intros Hi Hn Hsym nic network. rewrite <-(Hsym nic network).
  destruct (decide (nic = i)) as [->|Hne].
  - rewrite lookup_delete_eq, Hi.
    split; [by intros (? & ? & ?)|intros (? & [= <-] & ?); congruence].
  - by rewrite lookup_delete_ne.
Qed.

Lemma sym_insert_network_same N W l w w' :
  W !! l = Some w → network_nics w' = network_nics w → sym N W →
  sym N (<[l := w']> W).
Proof.
  intros Hl Hw Hsym nic network. rewrite (Hsym nic network).
  destruct (decide (network = l)) as [->|Hne].
  - rewrite lookup_insert_eq, Hl.
    split; intros (? & [= <-] & ?); eexists; split; eauto; congruence.
  - by rewrite lookup_insert_ne.
Qed.

Lemma sym_insert_network_fresh N W l w' :
  W !! l = None → network_nics w' = ∅ → sym N W → sym N (<[l := w']> W).
Proof.
  intros Hl Hw Hsym nic network. rewrite (Hsym nic network).
  destruct (decide (network = l)) as [->|Hne].
  - rewrite lookup_insert_eq, Hl. split; [by intros (? & ? & ?)|].
    intros (w & [= <-] & Hin). rewrite Hw in Hin.
    by apply not_elem_of_empty in Hin.
  - by rewrite lookup_insert_ne.
Qed.

Lemma sym_delete_network N W l w :
  W !! l = Some w → network_nics w = ∅ → sym N W → sym N (delete l W).
Proof.
  intros Hl Hw Hsym nic network. rewrite (Hsym nic network).
  destruct (decide (network = l)) as [->|Hne].
  - rewrite lookup_delete_eq, Hl. split; [|by intros (? & ? & ?)].
    intros (w' & [= <-] & Hin). rewrite Hw in Hin.
    by apply not_elem_of_empty in Hin.
  - by rewrite lookup_delete_ne.
Qed.

Lemma sym_connect N W i n l w n' w' :
  N !! i = Some n → nic_network n = None → W !! l = Some w →
  nic_network n' = Some l → network_nics w' = {[i]} ∪ network_nics w →
  sym N W → sym (<[i := n']> N) (<[l := w']> W).
Proof.
  intros Hi Hn Hl Hn' Hw' Hsym nic network.
  destruct (decide (nic = i)) as [->|Hnic];
    destruct (decide (network = l)) as [->|Hnet];
    rewrite ?lookup_insert_eq, ?lookup_insert_ne by done.
  - split; [|by eauto]. intros _. exists w'. split; [done|].
    rewrite Hw', elem_of_union, elem_of_singleton. by left.
  - split; [intros (? & [= <-] & ?); congruence|].
    intros (? & ? & ?)%Hsym. simplify_eq.
  - rewrite (Hsym nic l), Hl. split.
    + intros (? & [= <-] & ?). exists w'. split; [done|].
      rewrite Hw', elem_of_union. by right.
    + intros (? & [= <-] & Hin). exists w. split; [done|].
      rewrite Hw', elem_of_union, elem_of_singleton in Hin.
      by destruct Hin.
  - apply Hsym.
Qed.

Lemma sym_detach N W i n l w n' w' :
  N !! i = Some n → nic_network n = Some l → W !! l = Some w →
  nic_network n' = None → network_nics w' = network_nics w ∖ {[i]} →
  sym N W → sym (<[i := n']> N) (<[l := w']> W).
Proof.
  intros Hi Hn Hl Hn' Hw' Hsym nic network.
  destruct (decide (nic = i)) as [->|Hnic];
    destruct (decide (network = l)) as [->|Hnet];
    rewrite ?lookup_insert_eq, ?lookup_insert_ne by done.
  - split; [intros (? & [= <-] & ?); congruence|].
    intros (? & [= <-] & Hin).
    rewrite Hw', elem_of_difference, elem_of_singleton in Hin. tauto.
  - split; [intros (? & [= <-] & ?); congruence|].
    intros (? & ? & ?)%Hsym. simplify_eq.
  - rewrite (Hsym nic l), Hl. split.
    + intros (? & [= <-] & ?). exists w'. split; [done|].
      by rewrite Hw', elem_of_difference, elem_of_singleton.
    + intros (? & [= <-] & Hin). exists w. split; [done|].
      rewrite Hw', elem_of_difference in Hin. tauto.
  - apply Hsym.
Qed.

Lemma call_preserves_symmetric (g : bool) (o : op) (r : Registry) :
  nic_network_symmetric r → nic_network_symmetric (call g o r).2.
Proof.
  unfold nic_network_symmetric. intros Hsym. destruct o; run_op.
  all: repeat (case_match; simplify_eq/=); try done.
  all: repeat (case_bool_decide; simplify_eq/=); try done.
  all: destruct_and?.
  all: repeat match goal with
       | H : negb (label_taken _ _ _ _) = true |- _ =>
           apply negb_true_iff, label_taken_false in H
       end.
  all: eauto using sym_insert_nic_same, sym_insert_nic_fresh, sym_delete_nic,
         sym_insert_network_same, sym_insert_network_fresh,
         sym_delete_network.
  all: try (by eapply sym_connect). all: try (by eapply sym_detach).
Qed.

Lemma after_snoc (g : bool) (os : list op) (o : op) (r : Registry) :
  after g (os ++ [o]) r = (call g o (after g os r)).2.
Proof. unfold after. by rewrite foldl_app. Qed.

Lemma after_symmetric (g : bool) (os : list op) (r : Registry) :
  nic_network_symmetric r → nic_network_symmetric (after g os r).
Proof.
  intros Hr. induction os as [|o os IH] using rev_ind; [done|].
  rewrite after_snoc. by apply call_preserves_symmetric.
Qed.

Lemma empty_symmetric : nic_network_symmetric empty.
Proof.
  intros nic network. simpl. split; intros (? & Hl & _);
    by rewrite lookup_empty in Hl.
Qed.

Lemma node_connect_network_both_sides (r r' : Registry)
    (node nic network : string) :
  node_connect_network node nic network r = (Return (), r') →
  (∃ n, nics r' !! (node, nic) = Some n ∧ nic_network n = Some network)
  ∧ (∃ w, networks r' !! network = Some w ∧ (node, nic) ∈ network_nics w).
Proof.
  run_op. intros H. repeat (case_match; simplify_eq/=).
  rewrite !lookup_insert_eq. split; eexists; (split; [done|]); simpl;
    [done|]. rewrite elem_of_union, elem_of_singleton. by left.
Qed.

Lemma node_detach_network_both_sides (g : bool) (r r' : Registry)
    (node nic : string) :
  nic_network_symmetric r →
  node_detach_network node nic r = (Return (), r') →
  (∃ n, nics r' !! (node, nic) = Some n ∧ nic_network n = None)
  ∧ (∀ network w,
       networks r' !! network = Some w → (node, nic) ∉ network_nics w).
Proof.
  intros Hsym Hcall.
  pose proof (call_preserves_symmetric g (NodeDetachNetwork node nic) r Hsym)
    as Hsym'.
  simpl in Hsym'. rewrite Hcall in Hsym'. simpl in Hsym'.
  assert (∃ n, nics r' !! (node, nic) = Some n ∧ nic_network n = None)
    as Hnic.
  { clear Hsym Hsym'. revert Hcall. run_op. intros H.
    repeat (case_match; simplify_eq/=).
    rewrite lookup_insert_eq. by eexists. }
  split; [done|]. intros network w Hw Hin.
  destruct Hnic as (n & Hn & Hnone).
  destruct (proj2 (Hsym' (node, nic) network)) as (n' & Hn' & Hnet);
    [by eauto|].
  congruence.
Qed.

(** C6.  After any sequence of calls, a Nic points to a network exactly
    when that network lists the Nic.  A [node_connect_network] that
    returns has set both sides, a [node_detach_network] that returns has
    cleared both sides, and either of them, when it raises, has changed
    neither.  This holds for either scope of the Nic and Hnic labels. *)
Theorem nic_network_symmetry (global_labels : bool) :
  (∀ os, nic_network_symmetric (after global_labels os empty))
  ∧ (∀ r r' node nic network,
       call global_labels (NodeConnectNetwork node nic network) r
       = (Return (), r') →
       (∃ n, nics r' !! (node, nic) = Some n ∧ nic_network n = Some network)
       ∧ (∃ w, networks r' !! network = Some w
               ∧ (node, nic) ∈ network_nics w))
  ∧ (∀ r r' node nic,
       nic_network_symmetric r →
       call global_labels (NodeDetachNetwork node nic) r = (Return (), r') →
       (∃ n, nics r' !! (node, nic) = Some n ∧ nic_network n = None)
       ∧ (∀ network w,
            networks r' !! network = Some w →
            (node, nic) ∉ network_nics w))
  ∧ (∀ r r' e node nic network,
       (call global_labels (NodeConnectNetwork node nic network) r
        = (Raise e, r')
        ∨ call global_labels (NodeDetachNetwork node nic) r = (Raise e, r')) →
       r' = r).
Proof.
  split_and!.
  - intros os. apply after_symmetric, empty_symmetric.
  - intros r r' node nic network. apply node_connect_network_both_sides.
  - intros r r' node nic.
    apply (node_detach_network_both_sides global_labels).
  - intros r r' e node nic network [H|H];
      by apply failed_call_unchanged in H.
Qed.

End RegistryFacts.

(** ** The registry on the scenarios of the unit tests *)

(** Connecting the other node's Nic to the occupied port raises
    [DuplicateError] and changes nothing. *)
Lemma port_connect_nic_occupied :
  Registry.call true
    (Registry.PortConnectNic "bait-and" "3" "compute-02" "eth1")
    (Scenario.port_taken true)
  = (Raise DuplicateError, Scenario.port_taken true).
Proof.
  apply (RegistryFacts.failed_create_or_connect_changes_nothing true
           (Registry.PortConnectNic "bait-and" "3" "compute-02" "eth1")
           (Scenario.port_taken true)).
  - reflexivity.
  - left. exists (Registry.MkSwitchPort (Some ("compute-01", "eth0"))).
    split; [|discriminate]. vm_compute. reflexivity.
  - split_and!; by vm_compute; eexists.
Defined.

(** The two scopes of Nic labels differ on a label that is registered
    under a second node. *)
Example register_nic_diff_nodes :
  (Registry.call false
     (Registry.NodeRegisterNic "compute-02" "ipmi" "DE:AD:BE:EF:20:14")
     Scenario.one_nic).1 = Return ()
  ∧ (Registry.call true
       (Registry.NodeRegisterNic "compute-02" "ipmi" "DE:AD:BE:EF:20:14")
       Scenario.one_nic).1 = Raise DuplicateError
  ∧ (∀ g, (Registry.call g
             (Registry.NodeRegisterNic "compute-01" "ipmi" "DE:AD:BE:EF:20:15")
             Scenario.one_nic).1 = Raise DuplicateError).
Proof.
  split_and!; [vm_compute; reflexivity..|].
  intros []; vm_compute; reflexivity.
Qed.

(** Attaching an attached Nic again, to the same or to another network,
    raises [DuplicateError]; detaching it clears both sides. *)
Example node_connect_network_attached (g : bool) :
  (Registry.call g
     (Registry.NodeConnectNetwork "node-99" "99-eth0" "hammernet")
     (Scenario.attached g)).1 = Raise DuplicateError
  ∧ (Registry.call g
       (Registry.NodeConnectNetwork "node-99" "99-eth0" "hammernet2")
       (Scenario.attached g)).1 = Raise DuplicateError
  ∧ Registry.nic_network
      <$> Registry.nics (Scenario.attached g) !! ("node-99", "99-eth0")
    = Some (Some "hammernet")
  ∧ elements ∘ Registry.network_nics
      <$> Registry.networks (Scenario.attached g) !! "hammernet"
    = Some [("node-99", "99-eth0")]
  ∧ elements ∘ Registry.network_nics
      <$> Registry.networks
            (Registry.call g (Registry.NodeDetachNetwork "node-99" "99-eth0")
               (Scenario.attached g)).2 !! "hammernet"
    = Some [].
Proof. destruct g; split_and!; vm_compute; reflexivity. Qed.

(** ** The registry on the unit tests *)

(** With Nic and Hnic labels scoped to their owner, every call of every
    unit test has the outcome the test expects. *)
Lemma unit_tests_replay :
  forallb (λ t, UnitTests.replay false t.2 Registry.empty)
    UnitTests.unit_tests = true.
Proof. vm_compute. reflexivity. Qed.

(** With global labels the two tests that register one label under two
    owners, and no others, come out differently. *)
Lemma unit_tests_replay_global :
  (filter (λ t, UnitTests.replay true t.2 Registry.empty = false)
     UnitTests.unit_tests).*1
  = ["test_node_register_nic_diff_nodes";
     "test_headnode_create_hnic_diff_headnodes"].
Proof. vm_compute. reflexivity. Qed.
